(** * Storage administration commands of authelia (internal/commands/storage_run.go)

    A shallow embedding of the RunE functions of the [authelia storage]
    command tree, and the properties of their control flow: which storage
    provider operations are invoked, in which order, and under which
    conditions a command returns an error before touching the backend.

    The commands are sequential Go code over an external storage provider, a
    terminal, the file system and an entropy source.  They are embedded in a
    state-and-error monad over an abstract machine state [W]; every external
    operation is a transition on [W], and the monad keeps the trace of the
    operations that were invoked. *)

From Stdlib Require Import ZArith Lia Ascii.
From stdpp Require Import base tactics option list gmap strings pretty vector sorting.

Open Scope string_scope.
Open Scope Z_scope.

(** ** Go errors *)

(** [errors.New] (and [fmt.Errorf] without a wrapping verb) builds a leaf;
    [fmt.Errorf] with one [%w] verb wraps an inner error between the text
    before and after the verb. *)
Inductive error : Type :=
| errors_New (msg : string)
| fmt_Errorf_w (before : string) (inner : error) (after : string).

#[global] Instance error_eq_dec : EqDecision error.
Proof. solve_decision. Defined.

(** [err.Error()] *)
Fixpoint Error (e : error) : string :=
  match e with
  | errors_New msg => msg
  | fmt_Errorf_w before inner after => before +:+ Error inner +:+ after
  end.

(** [errors.Is]: walks the chain of wrapped errors. *)
Fixpoint errors_Is (e target : error) : bool :=
  if decide (e = target) then true
  else match e with
       | errors_New _ => false
       | fmt_Errorf_w _ inner _ => errors_Is inner target
       end.

(** [sql.ErrNoRows] of database/sql. *)
Definition sql_ErrNoRows : error := errors_New "sql: no rows in result set".

(** A Go call returning [(T, error)]. *)
Inductive result (A : Type) : Type :=
| Success (a : A)
| Failure (e : error).
Arguments Success {A} a.
Arguments Failure {A} e.

(** ** The data model *)

(** [uuid.UUID] is [[16]byte]. *)
Abbreviation UUID := (vec Z 16).

(** [UUID.Version]: the high nibble of byte 6. *)
Definition Version (u : UUID) : Z := Z.shiftr (u !!! 6%fin) 4.

(** The version and variant bits [uuid.NewRandom] sets on 16 random bytes. *)
Definition set_version4 (u : UUID) : UUID :=
  let u := vinsert 6%fin (Z.lor (Z.land (u !!! 6%fin) 15) 64) u in
  vinsert 8%fin (Z.lor (Z.land (u !!! 8%fin) 63) 128) u.

Record UserOpaqueIdentifier : Type := {
  Service : string;
  SectorID : string;
  Username : string;
  Identifier : UUID;
}.

Record UserOpaqueIdentifiersExport : Type := {
  Identifiers : list UserOpaqueIdentifier;
}.

Record WebauthnDevice : Type := {
  wd_ID : Z;
  wd_KID : string;
  wd_Description : string;
  wd_Username : string;
}.

Record TOTPConfiguration : Type := {
  tc_Issuer : string;
  tc_Username : string;
  tc_Algorithm : string;
  tc_Digits : Z;
  tc_Period : Z;
  tc_Secret : string;
}.

Record FileInfo : Type := { IsDir : bool }.

(** The zero value of [uuid.UUID]. *)
Definition uuid_Nil : UUID := vreplicate 16 0.

(** ** Command-line flags (pflag.FlagSet) *)

Inductive FlagValue : Type :=
| FString (s : string)
| FInt (z : Z)
| FBool (b : bool)
| FStringSlice (l : list string).

Record Flag : Type := { value : FlagValue; changed : bool }.

Abbreviation FlagSet := (gmap string Flag).

Definition flag_type (v : FlagValue) : string :=
  match v with
  | FString _ => "string"
  | FInt _ => "int"
  | FBool _ => "bool"
  | FStringSlice _ => "stringSlice"
  end.

Definition flag_undefined (name : string) : error :=
  errors_New ("flag accessed but not defined: " +:+ name).

Definition flag_mismatch (want : string) (v : FlagValue) : error :=
  errors_New ("trying to get " +:+ want +:+ " value of flag of type " +:+ flag_type v).

Definition GetString (fs : FlagSet) (name : string) : result string :=
  match fs !! name with
  | None => Failure (flag_undefined name)
  | Some f => match value f with
              | FString s => Success s
              | v => Failure (flag_mismatch "string" v)
              end
  end.

Definition GetInt (fs : FlagSet) (name : string) : result Z :=
  match fs !! name with
  | None => Failure (flag_undefined name)
  | Some f => match value f with
              | FInt z => Success z
              | v => Failure (flag_mismatch "int" v)
              end
  end.

Definition Changed (fs : FlagSet) (name : string) : bool :=
  match fs !! name with
  | None => false
  | Some f => changed f
  end.

(** ** Observable operations *)

(** One entry per external operation a command invokes, with its arguments
    and, for the operations that can change the store, whether it failed. *)
Inductive Event : Type :=
| CallClose
| CallCheckSchemaVersion
| CallSchemaVersion
| CallSchemaMigrate (up : bool) (target : Z) (err : option error)
| CallSchemaEncryptionChangeKey (key : string) (err : option error)
| CallLoadWebauthnDevices (limit page : Z)
| CallLoadTOTPConfigurations (limit page : Z)
| CallLoadUserOpaqueIdentifiers
| CallSaveUserOpaqueIdentifier (id : UserOpaqueIdentifier) (err : option error)
| CallRandRead (err : option error)
| TermReadLine (prompt : string)
| TermReadPassword (prompt : string)
| OsStat (path : string)
| OsReadFile (path : string)
| OsCreate (path : string)
| PngEncode (path : string) (err : option error)
| FileClose (path : string)
| EvPrint (s : string).

Definition failure_of {A} (r : result A) : option error :=
  match r with Success _ => None | Failure e => Some e end.

(** ** The command monad *)

(** How a command ends: it returns ([Ok], that is [err == nil], or [Err]),
    panics, or is still looping when the fuel of the model runs out. *)
Inductive Outcome (A : Type) : Type :=
| Ok (a : A)
| Err (e : error)
| Panic
| OutOfFuel.
Arguments Ok {A} a.
Arguments Err {A} e.
Arguments Panic {A}.
Arguments OutOfFuel {A}.

Record St (W : Type) : Type := mkSt { world : W; trace : list Event }.
Arguments mkSt {W} world trace.
Arguments world {W} s.
Arguments trace {W} s.

Definition M (W A : Type) : Type := St W -> Outcome A * St W.

Definition ret {W A} (a : A) : M W A := fun s => (Ok a, s).

Definition bind {W A B} (m : M W A) (k : A -> M W B) : M W B :=
  fun s =>
    match m s with
    | (Ok a, s') => k a s'
    | (Err e, s') => (Err e, s')
    | (Panic, s') => (Panic, s')
    | (OutOfFuel, s') => (OutOfFuel, s')
    end.

Notation "'let*' x ':=' c1 'in' c2" := (bind c1 (fun x => c2))
  (at level 10, x name, c1 at level 100, c2 at level 200).
Notation "'let*' ' pat ':=' c1 'in' c2" :=
  (bind c1 (fun x => match x with pat => c2 end))
  (at level 10, pat pattern, c1 at level 100, c2 at level 200).

(** [return err] with a non-nil error. *)
Definition throw {W A} (e : error) : M W A := fun s => (Err e, s).

Definition panic {W A} : M W A := fun s => (Panic, s).

(** [if x, err = f(); err != nil { return err }] for a pure [f]. *)
Definition propagate {W A} (r : result A) : M W A :=
  match r with
  | Success a => ret a
  | Failure e => throw e
  end.

(** [if ...; err != nil { return wrap(err) }] *)
Definition wrapErr {W A} (wrap : error -> error) (m : M W A) : M W A :=
  fun s =>
    match m s with
    | (Err e, s') => (Err (wrap e), s')
    | r => r
    end.

(** An external operation: run it on the machine state and log it. *)
Definition call {W A} (ev : result A -> Event) (op : W -> result A * W) : M W A :=
  fun s =>
    let '(r, w) := op (world s) in
    let s' := mkSt w (trace s ++ [ev r]) in
    match r with
    | Success a => (Ok a, s')
    | Failure e => (Err e, s')
    end.

(** [fmt.Printf], [fmt.Println] *)
Definition Printf {W} (s : string) : M W unit :=
  fun st => (Ok tt, mkSt (world st) (trace st ++ [EvPrint s])).

(** [for _, x := range l { body }] where the body may return from the
    function, threading the loop-carried variables [acc]. *)
Fixpoint range {W A S} (l : list A) (body : S -> A -> M W S) (acc : S) : M W S :=
  match l with
  | [] => ret acc
  | x :: l' => let* acc' := body acc x in range l' body acc'
  end.

Definition run {W A} (m : M W A) (w : W) : Outcome A * St W := m (mkSt w []).

Definition tab : string := String (Ascii.ascii_of_nat 9) "".
Definition nl : string := String (Ascii.ascii_of_nat 10) "".

(** Go's [int] on the 64-bit targets: two's complement wrap-around. *)
Definition int_wrap (z : Z) : Z := (z + 2 ^ 63) mod 2 ^ 64 - 2 ^ 63.
Definition int_add (a b : Z) : Z := int_wrap (a + b).

(** [len(l)] *)
Definition len {A} (l : list A) : Z := Z.of_nat (length l).

(** [len(s)] of a string: its number of bytes. *)
Definition strlen (s : string) : Z := Z.of_nat (String.length s).

(** [strings.Join] *)
Fixpoint strings_Join (elems : list string) (sep : string) : string :=
  match elems with
  | [] => ""
  | [s] => s
  | s :: rest => s +:+ sep +:+ strings_Join rest sep
  end.

(** [UUID.String]: the canonical 8-4-4-4-12 lower-case hexadecimal form. *)
Definition hex_digit (z : Z) : string :=
  match z with
  | 0 => "0" | 1 => "1" | 2 => "2" | 3 => "3" | 4 => "4" | 5 => "5" | 6 => "6"
  | 7 => "7" | 8 => "8" | 9 => "9" | 10 => "a" | 11 => "b" | 12 => "c"
  | 13 => "d" | 14 => "e" | _ => "f"
  end.

Definition hex_byte (b : Z) : string :=
  hex_digit (Z.shiftr b 4) +:+ hex_digit (Z.land b 15).

Definition hex_bytes (l : list Z) : string :=
  fold_right (fun b acc => hex_byte b +:+ acc) "" l.

Definition uuid_String (u : UUID) : string :=
  let l := vec_to_list u in
  hex_bytes (take 4 l) +:+ "-" +:+ hex_bytes (take 2 (drop 4 l)) +:+ "-" +:+
  hex_bytes (take 2 (drop 6 l)) +:+ "-" +:+ hex_bytes (take 2 (drop 8 l)) +:+ "-" +:+
  hex_bytes (drop 10 l).

(** ** The environment of the commands *)

(** The constants and pure helpers the RunE functions use that are declared
    elsewhere (the flag names and service names of the commands package,
    [storage.SchemaLatest], the flag helpers, [uuid.Parse], [yaml.Unmarshal]
    and the rendering methods of [model.TOTPConfiguration]).  The
    development is parametric in them. *)
Class Consts : Type := {
  cmdFlagNameTarget : string;
  cmdFlagNameDestroyData : string;
  cmdFlagNameNewEncryptionKey : string;
  cmdFlagNameService : string;
  cmdFlagNameSector : string;
  cmdFlagNameIdentifier : string;
  cmdFlagNameFile : string;
  identifierServiceOpenIDConnect : string;
  validIdentifierServices : list string;
  SchemaLatest : Z;
  storageTOTPExportFormatCSV : string;
  storageTOTPExportFormatURI : string;
  storageTOTPExportFormatPNG : string;
  storageWrapCheckSchemaErr : error -> error;
  flagsGetUserIdentifiersGenerateOptions :
    FlagSet -> result (list string * list string * list string);
  flagsGetTOTPExportOptions : FlagSet -> result (string * string);
  uuid_Parse : string -> result UUID;
  yaml_Unmarshal : string -> result UserOpaqueIdentifiersExport;
  totp_URI : TOTPConfiguration -> string;
  totp_Image : TOTPConfiguration -> Z -> Z -> result string;
  filepath_Join : string -> string -> string;
}.

(** The external collaborators as transitions of the machine state [W]: the
    storage provider, the schema version check of the command context, the
    terminal, the entropy source and the file system. *)
Class Machine (W : Type) : Type := {
  provider_Close : W -> W;
  provider_SchemaVersion : W -> result Z * W;
  provider_SchemaMigrate : bool -> Z -> W -> result unit * W;
  provider_SchemaEncryptionChangeKey : string -> W -> result unit * W;
  provider_LoadWebauthnDevices : Z -> Z -> W -> result (list WebauthnDevice) * W;
  provider_LoadTOTPConfigurations : Z -> Z -> W -> result (list TOTPConfiguration) * W;
  provider_LoadUserOpaqueIdentifiers : W -> (list UserOpaqueIdentifier * option error) * W;
  provider_SaveUserOpaqueIdentifier : UserOpaqueIdentifier -> W -> result unit * W;
  ctx_CheckSchemaVersion : W -> result unit * W;
  terminal_ReadLine : string -> W -> result string * W;
  terminal_ReadPassword : string -> string -> W -> result string * W;
  rand_Read : W -> result UUID * W;
  os_Stat : string -> W -> result FileInfo * W;
  os_ReadFile : string -> W -> result string * W;
  os_Create : string -> W -> W;
  png_Encode : string -> string -> W -> result unit * W;
  file_Close : string -> W -> W;
}.

(** ** Helpers of the repository that are declared outside storage_run.go *)

(** Modelled from the spec: [utils.IsStringInSlice] (package utils, defined
    outside storage_run.go) is missing; "every requested service name must
    belong to a fixed known set of valid service identifiers". *)
Definition IsStringInSlice (needle : string) (haystack : list string) : bool :=
  bool_decide (needle ∈ haystack).

(** Modelled from the spec: [utils.IsStringSliceContainsAll] (package utils,
    defined outside storage_run.go) is missing; "every requested service
    name must belong to a fixed known set of valid service identifiers": it
    holds when every one of the needles belongs to the haystack. *)
Definition IsStringSliceContainsAll (needles haystack : list string) : bool :=
  forallb (fun n => IsStringInSlice n haystack) needles.

(** Two identifiers with the same natural key (service, sector, username). *)
Definition same_natural_key (a b : UserOpaqueIdentifier) : bool :=
  bool_decide (Service a = Service b) &&
  bool_decide (SectorID a = SectorID b) &&
  bool_decide (Username a = Username b).

(** Modelled from the spec: [containsIdentifier] (package commands, defined
    outside storage_run.go) is missing; the allocator "checks membership
    against the in-memory existing set by natural key (service, sector,
    username) — not by identifier value". *)
Definition containsIdentifier (identifier : UserOpaqueIdentifier)
    (identifiers : list UserOpaqueIdentifier) : bool :=
  existsb (same_natural_key identifier) identifiers.

Section Commands.
Context `{Consts} {W : Type} `{Machine W}.

(** *** The operations, in the monad *)

Definition out_of_fuel {A} : M W A := fun s => (OutOfFuel, s).

(** [_ = ctx.providers.StorageProvider.Close()] *)
Definition Close : M W unit :=
  fun s => (Ok tt, mkSt (provider_Close (world s)) (trace s ++ [CallClose])).

(** [defer func() { ... }()]: the deferred call runs when the body returns
    or panics. *)
Definition defer {A} (deferred : M W unit) (body : M W A) : M W A :=
  fun s =>
    match body s with
    | (OutOfFuel, s') => (OutOfFuel, s')
    | (r, s') => (r, snd (deferred s'))
    end.

(** Runs [m] and hands its error, if any, to the caller as a value. *)
Definition attempt {A} (m : M W A) : M W (result A) :=
  fun s =>
    match m s with
    | (Ok a, s') => (Ok (Success a), s')
    | (Err e, s') => (Ok (Failure e), s')
    | (Panic, s') => (Panic, s')
    | (OutOfFuel, s') => (OutOfFuel, s')
    end.

Definition CheckSchemaVersion : M W unit :=
  call (fun _ => CallCheckSchemaVersion) ctx_CheckSchemaVersion.

Definition SchemaVersion : M W Z :=
  call (fun _ => CallSchemaVersion) provider_SchemaVersion.

Definition SchemaMigrate (up : bool) (target : Z) : M W unit :=
  call (fun r => CallSchemaMigrate up target (failure_of r))
       (provider_SchemaMigrate up target).

Definition SchemaEncryptionChangeKey (key : string) : M W unit :=
  call (fun r => CallSchemaEncryptionChangeKey key (failure_of r))
       (provider_SchemaEncryptionChangeKey key).

Definition LoadWebauthnDevices (limit page : Z) : M W (list WebauthnDevice) :=
  call (fun _ => CallLoadWebauthnDevices limit page)
       (provider_LoadWebauthnDevices limit page).

Definition LoadTOTPConfigurations (limit page : Z) : M W (list TOTPConfiguration) :=
  call (fun _ => CallLoadTOTPConfigurations limit page)
       (provider_LoadTOTPConfigurations limit page).

(** Both return values are used by the caller. *)
Definition LoadUserOpaqueIdentifiers : M W (list UserOpaqueIdentifier * option error) :=
  fun s =>
    let '(r, w) := provider_LoadUserOpaqueIdentifiers (world s) in
    (Ok r, mkSt w (trace s ++ [CallLoadUserOpaqueIdentifiers])).

Definition SaveUserOpaqueIdentifier (id : UserOpaqueIdentifier) : M W unit :=
  call (fun r => CallSaveUserOpaqueIdentifier id (failure_of r))
       (provider_SaveUserOpaqueIdentifier id).

Definition termReadPasswordWithPrompt (prompt flag : string) : M W string :=
  call (fun _ => TermReadPassword prompt) (terminal_ReadPassword prompt flag).

(** [uuid.NewRandom]: 16 bytes of entropy with the version set to 4 and the
    variant to RFC 4122. *)
Definition uuid_NewRandom : M W UUID :=
  let* u := call (fun r => CallRandRead (failure_of r)) rand_Read in
  ret (set_version4 u).

(** Modelled from the spec: [termReadConfirmation] (package commands,
    defined outside storage_run.go) is missing; "execution requires an
    explicit, separately captured operator confirmation where the operator
    must type an exact literal string"; "absence or mismatch aborts".  The
    prompt is shown, a line is read from the terminal (which fails when
    there is none), and the confirmation is granted exactly when the line is
    the literal. *)
Definition termReadConfirmation (flags : FlagSet) (name prompt confirmation : string)
    : M W bool :=
  let* input := call (fun _ => TermReadLine prompt) (terminal_ReadLine prompt) in
  ret (bool_decide (input = confirmation)).

(** [args[i]]: an index out of range panics. *)
Definition index (args : list string) (i : nat) : M W string :=
  match args !! i with
  | Some a => ret a
  | None => panic
  end.

(** *** authelia storage encryption change-key *)

(** How the command obtains [key]: from the flag when it was given, from
    the terminal when it was not given or is empty. *)
Definition new_encryption_key (cmd : FlagSet) : M W string :=
  let useFlag := Changed cmd cmdFlagNameNewEncryptionKey in
  let* key :=
    if useFlag then propagate (GetString cmd cmdFlagNameNewEncryptionKey)
    else ret "" in
  if negb useFlag || bool_decide (key = "") then
    termReadPasswordWithPrompt "Enter New Storage Encryption Key: "
                               cmdFlagNameNewEncryptionKey
  else ret key.

Definition StorageSchemaEncryptionChangeKeyRunE (cmd : FlagSet) (args : list string)
    : M W unit :=
  defer Close (
    let* _ := wrapErr storageWrapCheckSchemaErr CheckSchemaVersion in
    let* version := SchemaVersion in
    if version <=? 0 then
      throw (errors_New "schema version must be at least version 1 to change the encryption key")
    else
    let* key := new_encryption_key cmd in
    if bool_decide (key = "") then
      throw (errors_New "the new encryption key must not be blank")
    else if strlen key <? 20 then
      throw (errors_New "the new encryption key must be at least 20 characters")
    else
    let* _ := SchemaEncryptionChangeKey key in
    Printf ("Completed the encryption key change. Please adjust your configuration to use the new key." +:+ nl)).

(** *** authelia storage user webauthn list (no arguments) *)

Definition webauthn_line (device : WebauthnDevice) : string :=
  pretty (wd_ID device) +:+ tab +:+ wd_KID device +:+ tab +:+
  wd_Description device +:+ tab +:+ wd_Username device +:+ nl.

(** The body of [for page := 0; true; page++]; [output] is the
    [strings.Builder]. *)
Fixpoint StorageWebauthnListAll_loop (fuel : nat) (limit page : Z) (output : string)
    : M W string :=
  match fuel with
  | O => out_of_fuel
  | S fuel' =>
    let* devices :=
      wrapErr (fun e => fmt_Errorf_w "failed to list devices: " e "")
              (LoadWebauthnDevices limit page) in
    if (page =? 0) && (len devices =? 0) then
      throw (errors_New "no webauthn devices in database")
    else
    let output := fold_left (fun out device => out +:+ webauthn_line device) devices output in
    if len devices <? limit then ret output
    else StorageWebauthnListAll_loop fuel' limit (int_add page 1) output
  end.

Definition StorageWebauthnListAllRunE (fuel : nat) (cmd : FlagSet) (args : list string)
    : M W unit :=
  defer Close (
    let* _ := wrapErr storageWrapCheckSchemaErr CheckSchemaVersion in
    let limit := 10 in
    let* output := StorageWebauthnListAll_loop fuel limit 0 "" in
    let* _ := Printf ("Webauthn Devices:" +:+ nl +:+ nl +:+ "ID" +:+ tab +:+ "KID" +:+ tab +:+
                      "Description" +:+ tab +:+ "Username" +:+ nl) in
    Printf (output +:+ nl)).

(** *** authelia storage user totp export *)

Definition totp_csv_line (c : TOTPConfiguration) : string :=
  tc_Issuer c +:+ "," +:+ tc_Username c +:+ "," +:+ tc_Algorithm c +:+ "," +:+
  pretty (tc_Digits c) +:+ "," +:+ pretty (tc_Period c) +:+ "," +:+ tc_Secret c +:+ nl.

(** The [switch format] of the export loop, for one configuration. *)
Definition export_configuration (format dir : string) (c : TOTPConfiguration) : M W unit :=
  if bool_decide (format = storageTOTPExportFormatCSV) then
    Printf (totp_csv_line c)
  else if bool_decide (format = storageTOTPExportFormatURI) then
    Printf (totp_URI c +:+ nl)
  else if bool_decide (format = storageTOTPExportFormatPNG) then
    let path := filepath_Join dir (tc_Username c +:+ ".png") in
    let file_close : M W unit :=
      fun s => (Ok tt, mkSt (file_Close path (world s)) (trace s ++ [FileClose path])) in
    let* _ := (fun s => (Ok tt, mkSt (os_Create path (world s)) (trace s ++ [OsCreate path]))) in
    match totp_Image c 256 256 with
    | Failure e => let* _ := file_close in throw e
    | Success img =>
      let* r := attempt (call (fun r => PngEncode path (failure_of r)) (png_Encode path img)) in
      match r with
      | Failure e => let* _ := file_close in throw e
      | Success _ => file_close
      end
    end
  else ret tt.

Fixpoint StorageTOTPExport_loop (fuel : nat) (format dir : string) (limit page : Z)
    : M W unit :=
  match fuel with
  | O => out_of_fuel
  | S fuel' =>
    let* configurations := LoadTOTPConfigurations limit page in
    let* _ :=
      if (page =? 0) && bool_decide (format = storageTOTPExportFormatCSV) then
        Printf ("issuer,username,algorithm,digits,period,secret" +:+ nl)
      else ret tt in
    let* _ := range configurations (fun _ c => export_configuration format dir c) tt in
    if len configurations <? limit then ret tt
    else StorageTOTPExport_loop fuel' format dir limit (int_add page 1)
  end.

Definition StorageTOTPExportRunE (fuel : nat) (cmd : FlagSet) (args : list string)
    : M W unit :=
  defer Close (
    let* _ := wrapErr storageWrapCheckSchemaErr CheckSchemaVersion in
    let* '(format, dir) := propagate (flagsGetTOTPExportOptions cmd) in
    let limit := 10 in
    let* _ := StorageTOTPExport_loop fuel format dir limit 0 in
    if bool_decide (format = storageTOTPExportFormatPNG) then
      Printf ("Exported TOTP QR codes in PNG format in the '" +:+ dir +:+ "' directory" +:+ nl)
    else ret tt).

(** *** authelia storage migrate up / down *)

Definition NewStorageMigrationRunE (up : bool) (cmd : FlagSet) (args : list string)
    : M W unit :=
  defer Close (
    let* target := propagate (GetInt cmd cmdFlagNameTarget) in
    if up then
      if Changed cmd cmdFlagNameTarget then SchemaMigrate true target
      else SchemaMigrate true SchemaLatest
    else
      if negb (Changed cmd cmdFlagNameTarget) then
        throw (errors_New "you must set a target version")
      else
      let* confirmed :=
        termReadConfirmation cmd cmdFlagNameDestroyData
          "Schema Down Migrations may DESTROY data, type 'DESTROY' and press return to continue: "
          "DESTROY" in
      if negb confirmed then
        throw (errors_New "cancelling down migration due to user not accepting data destruction")
      else SchemaMigrate false target).

(** *** authelia storage user identifiers import *)


(** *** authelia storage user identifiers generate *)

(** The body of the innermost loop; [counts] is [(added, duplicates)]. *)
Definition generate_one (identifiers : list UserOpaqueIdentifier)
    (service sector username : string) (counts : Z * Z) : M W (Z * Z) :=
  let '(added, duplicates) := counts in
  let identifier := {| Service := service; SectorID := sector;
                       Username := username; Identifier := uuid_Nil |} in
  if containsIdentifier identifier identifiers then
    ret (added, int_add duplicates 1)
  else
  let* u := wrapErr (fun e => fmt_Errorf_w "failed to generate a uuid: " e "")
                    uuid_NewRandom in
  let identifier := {| Service := service; SectorID := sector;
                       Username := username; Identifier := u |} in
  let* _ := wrapErr (fun e => fmt_Errorf_w "failed to save identifier: " e "")
                    (SaveUserOpaqueIdentifier identifier) in
  ret (int_add added 1, duplicates).

(** The same body on a tuple of the product. *)
Definition generate_tuple (identifiers : list UserOpaqueIdentifier)
    (counts : Z * Z) (t : string * string * string) : M W (Z * Z) :=
  generate_one identifiers t.1.1 t.1.2 t.2 counts.

Definition StorageUserIdentifiersGenerateRunE (cmd : FlagSet) (args : list string)
    : M W unit :=
  defer Close (
    let* _ := wrapErr storageWrapCheckSchemaErr CheckSchemaVersion in
    let* '(identifiers, err) := LoadUserOpaqueIdentifiers in
    let* _ :=
      match err with
      | Some e =>
        if negb (errors_Is e sql_ErrNoRows) then
          throw (fmt_Errorf_w "can't load the existing identifiers: " e "")
        else ret tt
      | None => ret tt
      end in
    let* '(users, services, sectors) :=
      propagate (flagsGetUserIdentifiersGenerateOptions cmd) in
    if len users =? 0 then
      throw (errors_New "must supply at least one user")
    else
    let sectors := if len sectors =? 0 then (sectors ++ [""])%list else sectors in
    if negb (IsStringSliceContainsAll services validIdentifierServices) then
      throw (errors_New ("one or more the service names '" +:+ strings_Join services "', '" +:+
                         "' is invalid, the valid values are: '" +:+
                         strings_Join validIdentifierServices "', '" +:+ "'"))
    else
    let* '(added, duplicates) :=
      range services (fun counts service =>
        range sectors (fun counts sector =>
          range users (fun counts username =>
            generate_one identifiers service sector username counts) counts) counts)
        (0, 0) in
    Printf ("Successfully added " +:+ pretty added +:+ " opaque identifiers and " +:+
            pretty duplicates +:+ " duplicates were skipped" +:+ nl)).

(** *** authelia storage user identifiers add *)

(** The service of the new identifier: the flag, defaulted when empty and
    validated otherwise. *)
Definition add_service (cmd : FlagSet) : M W string :=
  let* service := propagate (GetString cmd cmdFlagNameService) in
  if bool_decide (service = "") then ret identifierServiceOpenIDConnect
  else if negb (IsStringInSlice service validIdentifierServices) then
    throw (errors_New ("the service name '" +:+ service +:+
                       "' is invalid, the valid values are: '" +:+
                       strings_Join validIdentifierServices "', '" +:+ "'"))
  else ret service.

(** The value of [opaqueID.Identifier]: the flag when it was given, parsed
    and checked, a random UUID otherwise. *)
Definition add_identifier (cmd : FlagSet) : M W UUID :=
  if Changed cmd cmdFlagNameIdentifier then
    let* identifierStr := propagate (GetString cmd cmdFlagNameIdentifier) in
    let* u :=
      wrapErr (fun e => fmt_Errorf_w
                 ("the identifier provided '" +:+ identifierStr +:+
                  "' is invalid as it must be a version 4 UUID but parsing it had an error: ")
                 e "")
              (propagate (uuid_Parse identifierStr)) in
    if negb (Version u =? 4) then
      throw (errors_New ("the identifier providerd '" +:+ identifierStr +:+
                         "' is a version " +:+ pretty (Version u) +:+
                         " UUID but only version 4 UUID's accepted as identifiers"))
    else ret u
  else uuid_NewRandom.

Definition StorageUserIdentifiersAddRunE (cmd : FlagSet) (args : list string)
    : M W unit :=
  let* service := add_service cmd in
  let* sector := propagate (GetString cmd cmdFlagNameSector) in
  let* username := index args 0 in
  let* identifier := add_identifier cmd in
  let opaqueID := {| Service := service; SectorID := sector;
                     Username := username; Identifier := identifier |} in
  defer Close (
    let* _ := wrapErr storageWrapCheckSchemaErr CheckSchemaVersion in
    let* _ := SaveUserOpaqueIdentifier opaqueID in
    Printf ("Added User Opaque Identifier:" +:+ nl +:+ tab +:+ "Service: " +:+ Service opaqueID +:+
            nl +:+ tab +:+ "Sector: " +:+ SectorID opaqueID +:+ nl +:+ tab +:+ "Username: " +:+
            Username opaqueID +:+ nl +:+ tab +:+ "Identifier: " +:+
            uuid_String (Identifier opaqueID) +:+ nl +:+ nl)).

End Commands.

(** ** Observations on a run *)

Definition is_Err {A} (r : Outcome A) : Prop := exists e, r = Err e.

(** The single-record saves of a trace, in order, with their outcome. *)
Definition saves (t : list Event) : list (UserOpaqueIdentifier * option error) :=
  omap (fun ev => match ev with
                  | CallSaveUserOpaqueIdentifier id err => Some (id, err)
                  | _ => None
                  end) t.

(** The event of a save that succeeded. *)
Definition saved (id : UserOpaqueIdentifier) : Event :=
  CallSaveUserOpaqueIdentifier id None.

(** The schema migrations applied in a trace. *)
Definition migrations (t : list Event) : list (bool * Z) :=
  omap (fun ev => match ev with
                  | CallSchemaMigrate up target _ => Some (up, target)
                  | _ => None
                  end) t.

(** The key rotations requested in a trace. *)
Definition rotations (t : list Event) : list string :=
  omap (fun ev => match ev with
                  | CallSchemaEncryptionChangeKey key _ => Some key
                  | _ => None
                  end) t.

(** The page fetches of a trace, as [(limit, page)]. *)
Definition fetches (t : list Event) : list (Z * Z) :=
  omap (fun ev => match ev with
                  | CallLoadWebauthnDevices limit page => Some (limit, page)
                  | CallLoadTOTPConfigurations limit page => Some (limit, page)
                  | _ => None
                  end) t.

(** What a trace printed. *)
Definition printed (t : list Event) : list string :=
  omap (fun ev => match ev with EvPrint s => Some s | _ => None end) t.

(** The full Cartesian product in the order of the three nested loops. *)
Definition product (services sectors users : list string)
    : list (string * string * string) :=
  service ← services; sector ← sectors; username ← users;
  [(service, sector, username)].

Definition key_of (t : string * string * string) : UserOpaqueIdentifier :=
  {| Service := t.1.1; SectorID := t.1.2; Username := t.2; Identifier := uuid_Nil |}.

Definition natural_key (id : UserOpaqueIdentifier) : string * string * string :=
  (Service id, SectorID id, Username id).

(** The prompt of the down-migration confirmation. *)
Definition confirmation_prompt : string :=
  "Schema Down Migrations may DESTROY data, type 'DESTROY' and press return to continue: ".

(** The page [page] of a collection under page length [limit]. *)
Definition page_of {A} (coll : list A) (limit page : Z) : list A :=
  take (Z.to_nat limit) (drop (Z.to_nat (limit * page)) coll).

(** Modelled from the spec: the storage backend is an external collaborator;
    its paginated loads, "given a page size L and a zero-based page index",
    "fetch up to L records": page [p] holds the records [p·L, p·L + L) of
    the collection, in the backend's order.  [stable] describes the machine
    states in which the backend holds the collection [coll]; the operations
    an export invokes keep the machine in such a state. *)
Definition serves_devices {W} `{Machine W}
    (coll : list WebauthnDevice) (stable : W -> Prop) : Prop :=
  (forall w, stable w -> stable (ctx_CheckSchemaVersion w).2) /\
  (forall limit page w, stable w ->
     (provider_LoadWebauthnDevices limit page w).1 = Success (page_of coll limit page) /\
     stable (provider_LoadWebauthnDevices limit page w).2).

(** Modelled from the spec: the same for the paginated load of the TOTP
    configurations, which the storage backend (outside storage_run.go)
    implements; the file operations of the image export leave the
    collection in place too. *)
Definition serves_configurations {W} `{Machine W}
    (coll : list TOTPConfiguration) (stable : W -> Prop) : Prop :=
  (forall w, stable w -> stable (ctx_CheckSchemaVersion w).2) /\
  (forall limit page w, stable w ->
     (provider_LoadTOTPConfigurations limit page w).1 = Success (page_of coll limit page) /\
     stable (provider_LoadTOTPConfigurations limit page w).2) /\
  (forall path img w, stable w ->
     stable (os_Create path w) /\ stable (png_Encode path img w).2 /\
     stable (file_Close path w)).

(** The text the listing accumulates for a sequence of devices. *)
Definition webauthn_lines (devices : list WebauthnDevice) : string :=
  fold_right (fun device acc => webauthn_line device +:+ acc) "" devices.

Definition webauthn_header : string :=
  "Webauthn Devices:" +:+ nl +:+ nl +:+ "ID" +:+ tab +:+ "KID" +:+ tab +:+
  "Description" +:+ tab +:+ "Username" +:+ nl.

(** The fetches of pages [0 .. n - 1] with page length 10. *)
Definition pages (n : Z) : list (Z * Z) := (fun p => (10, p)) <$> seqZ 0 n.

(** The events by which an export delivers records: printed text and
    written image files. *)
Definition is_emission (ev : Event) : bool :=
  match ev with
  | EvPrint _ | OsCreate _ | PngEncode _ _ | FileClose _ => true
  | _ => false
  end.

Definition emissions (t : list Event) : list Event :=
  filter (fun ev => is_emission ev) t.

Definition totp_header : string :=
  "issuer,username,algorithm,digits,period,secret" +:+ nl.

(** What the TOTP export delivers for one configuration in each format: a
    delimited row, a URI line, or an image file created, encoded and
    closed. *)
Definition export_events `{Consts} (format dir : string) (c : TOTPConfiguration)
    : list Event :=
  if bool_decide (format = storageTOTPExportFormatCSV) then
    [EvPrint (totp_csv_line c)]
  else if bool_decide (format = storageTOTPExportFormatURI) then
    [EvPrint (totp_URI c +:+ nl)]
  else if bool_decide (format = storageTOTPExportFormatPNG) then
    let path := filepath_Join dir (tc_Username c +:+ ".png") in
    [OsCreate path; PngEncode path None; FileClose path]
  else [].

(** What the whole TOTP export delivers over a collection. *)
Definition export_output `{Consts} (format dir : string) (coll : list TOTPConfiguration)
    : list Event :=
  ((if bool_decide (format = storageTOTPExportFormatCSV) then [EvPrint totp_header] else []) ++
   (coll ≫= export_events format dir) ++
   (if bool_decide (format = storageTOTPExportFormatPNG)
    then [EvPrint ("Exported TOTP QR codes in PNG format in the '" +:+ dir +:+
                   "' directory" +:+ nl)]
    else []))%list.

(** The tuples of a bulk generation that the existing identifiers already
    cover by natural key, and those they do not. *)
Definition is_duplicate (existing : list UserOpaqueIdentifier)
    (t : string * string * string) : bool :=
  containsIdentifier (key_of t) existing.

Definition duplicate_tuples (existing : list UserOpaqueIdentifier)
    (tuples : list (string * string * string)) : list (string * string * string) :=
  filter (fun t => is_duplicate existing t = true) tuples.

Definition fresh_tuples (existing : list UserOpaqueIdentifier)
    (tuples : list (string * string * string)) : list (string * string * string) :=
  filter (fun t => is_duplicate existing t = false) tuples.

(** The operations by which the bulk generation adds the identifiers [ids]:
    for each, one read of the entropy source and one successful save. *)
Definition generate_events (ids : list UserOpaqueIdentifier) : list Event :=
  ids ≫= fun id => [CallRandRead None; saved id].

(** The report of a bulk generation. *)
Definition generate_report (added duplicates : Z) : string :=
  "Successfully added " +:+ pretty added +:+ " opaque identifiers and " +:+
  pretty duplicates +:+ " duplicates were skipped" +:+ nl.

(** How the allocation of a bulk generation ends: every tuple was served, or
    the generation of an identifier failed, or a save did. *)
Inductive Allocation : Type :=
| Allocated
| GenerationFailed (e : error)
| SaveFailed (id : UserOpaqueIdentifier) (e : error).

(** The identifier of a tuple, around 16 bytes of entropy. *)
Definition fresh_identifier (t : string * string * string) (u : UUID)
    : UserOpaqueIdentifier :=
  {| Service := t.1.1; SectorID := t.1.2; Username := t.2; Identifier := set_version4 u |}.

(** The allocation as the specification words it, on the tuples that are
    not duplicates: "for every other tuple it saves one freshly generated
    identifier".  For each tuple in order, 16 bytes are read from the
    entropy source and the identifier of the tuple around them is saved;
    the first read or save that fails ends the allocation.  The result is
    the identifiers saved, how the allocation ended and the state of the
    machine after it. *)
Fixpoint allocate {W} `{Machine W} (ts : list (string * string * string)) (w : W)
    : list UserOpaqueIdentifier * Allocation * W :=
  match ts with
  | [] => ([], Allocated, w)
  | t :: ts' =>
    match rand_Read w with
    | (Failure e, w1) => ([], GenerationFailed e, w1)
    | (Success u, w1) =>
      let id := fresh_identifier t u in
      match provider_SaveUserOpaqueIdentifier id w1 with
      | (Failure e, w2) => ([], SaveFailed id e, w2)
      | (Success _, w2) =>
        let '(ids, ending, w') := allocate ts' w2 in (id :: ids, ending, w')
      end
    end
  end.

(** The characters of a key as the specification counts them: the code
    points of its UTF-8 encoding, that is, the bytes that do not continue a
    code point (a continuation byte is 10xxxxxx). *)
Definition is_continuation (c : ascii) : bool :=
  let n := Z.of_nat (Ascii.nat_of_ascii c) in (128 <=? n) && (n <? 192).

Fixpoint characters (s : string) : Z :=
  match s with
  | EmptyString => 0
  | String c rest => (if is_continuation c then 0 else 1) + characters rest
  end.

(** Ceiling of the quotient. *)
Definition ceil_div (m l : Z) : Z := (m + l - 1) / l.

(** ** A reference environment

    An in-memory store, a scripted terminal and a scripted entropy source,
    with the constants of the commands package, on which the commands can be
    evaluated. *)
Module Ref.

Record World : Type := {
  schema_version : Z;
  schema_latest : Z;
  encryption_key : string;
  identifiers : list UserOpaqueIdentifier;
  devices : list WebauthnDevice;
  configurations : list TOTPConfiguration;
  stdin : list string;
  entropy : list UUID;
  files : list (string * string);
  closed : bool;
}.

Definition set_version (v : Z) (w : World) : World :=
  {| schema_version := v; schema_latest := schema_latest w;
     encryption_key := encryption_key w; identifiers := identifiers w;
     devices := devices w; configurations := configurations w; stdin := stdin w;
     entropy := entropy w; files := files w; closed := closed w |}.

Definition set_key (k : string) (w : World) : World :=
  {| schema_version := schema_version w; schema_latest := schema_latest w;
     encryption_key := k; identifiers := identifiers w;
     devices := devices w; configurations := configurations w; stdin := stdin w;
     entropy := entropy w; files := files w; closed := closed w |}.

Definition set_identifiers (l : list UserOpaqueIdentifier) (w : World) : World :=
  {| schema_version := schema_version w; schema_latest := schema_latest w;
     encryption_key := encryption_key w; identifiers := l;
     devices := devices w; configurations := configurations w; stdin := stdin w;
     entropy := entropy w; files := files w; closed := closed w |}.

Definition set_stdin (l : list string) (w : World) : World :=
  {| schema_version := schema_version w; schema_latest := schema_latest w;
     encryption_key := encryption_key w; identifiers := identifiers w;
     devices := devices w; configurations := configurations w; stdin := l;
     entropy := entropy w; files := files w; closed := closed w |}.

Definition set_entropy (l : list UUID) (w : World) : World :=
  {| schema_version := schema_version w; schema_latest := schema_latest w;
     encryption_key := encryption_key w; identifiers := identifiers w;
     devices := devices w; configurations := configurations w; stdin := stdin w;
     entropy := l; files := files w; closed := closed w |}.

Definition set_files (l : list (string * string)) (w : World) : World :=
  {| schema_version := schema_version w; schema_latest := schema_latest w;
     encryption_key := encryption_key w; identifiers := identifiers w;
     devices := devices w; configurations := configurations w; stdin := stdin w;
     entropy := entropy w; files := l; closed := closed w |}.

Definition set_closed (w : World) : World :=
  {| schema_version := schema_version w; schema_latest := schema_latest w;
     encryption_key := encryption_key w; identifiers := identifiers w;
     devices := devices w; configurations := configurations w; stdin := stdin w;
     entropy := entropy w; files := files w; closed := true |}.

Definition read_line (w : World) : result string * World :=
  match stdin w with
  | [] => (Failure (errors_New "stdin is not a terminal"), w)
  | line :: rest => (Success line, set_stdin rest w)
  end.

Definition check_schema (w : World) : result unit * World :=
  if schema_version w =? schema_latest w then (Success tt, w)
  else (Failure (errors_New "schema version is not the latest"), w).

(** The store enforces the uniqueness of the natural key. *)
Definition save (id : UserOpaqueIdentifier) (w : World) : result unit * World :=
  if containsIdentifier id (identifiers w) then
    (Failure (errors_New "UNIQUE constraint failed"), w)
  else (Success tt, set_identifiers (identifiers w ++ [id])%list w).

Definition lookup_file (path : string) (w : World) : option string :=
  (fun f => f.2.2) <$> list_find (fun f => f.1 = path) (files w).

#[global] Instance machine : Machine World := {|
  provider_Close := set_closed;
  provider_SchemaVersion := fun w => (Success (schema_version w), w);
  provider_SchemaMigrate := fun up target w => (Success tt, set_version target w);
  provider_SchemaEncryptionChangeKey := fun key w => (Success tt, set_key key w);
  provider_LoadWebauthnDevices := fun limit page w =>
    (Success (page_of (devices w) limit page), w);
  provider_LoadTOTPConfigurations := fun limit page w =>
    (Success (page_of (configurations w) limit page), w);
  provider_LoadUserOpaqueIdentifiers := fun w => ((identifiers w, None), w);
  provider_SaveUserOpaqueIdentifier := save;
  ctx_CheckSchemaVersion := check_schema;
  terminal_ReadLine := fun _ => read_line;
  terminal_ReadPassword := fun _ _ => read_line;
  rand_Read := fun w =>
    match entropy w with
    | [] => (Failure (errors_New "EOF"), w)
    | u :: rest => (Success u, set_entropy rest w)
    end;
  os_Stat := fun path w =>
    match lookup_file path w with
    | Some _ => (Success {| IsDir := false |}, w)
    | None => (Failure (errors_New "no such file or directory"), w)
    end;
  os_ReadFile := fun path w =>
    match lookup_file path w with
    | Some data => (Success data, w)
    | None => (Failure (errors_New "no such file or directory"), w)
    end;
  os_Create := fun path w => set_files ((path, "") :: files w) w;
  png_Encode := fun path img w => (Success tt, set_files ((path, img) :: files w) w);
  file_Close := fun _ w => w;
|}.

(** [uuid.Parse] on the canonical 36-character form. *)
Definition hex_value (c : ascii) : option Z :=
  let n := Z.of_nat (Ascii.nat_of_ascii c) in
  if (48 <=? n) && (n <=? 57) then Some (n - 48)
  else if (97 <=? n) && (n <=? 102) then Some (n - 87)
  else if (65 <=? n) && (n <=? 70) then Some (n - 55)
  else None.

Fixpoint parse_hex_bytes (s : list ascii) : option (list Z) :=
  match s with
  | [] => Some []
  | hi :: lo :: rest =>
    h ← hex_value hi; l ← hex_value lo; bs ← parse_hex_bytes rest;
    Some (h * 16 + l :: bs)
  | _ => None
  end.

Definition is_dash (c : ascii) : bool := bool_decide (c = "-"%char).

Definition parse (s : string) : result UUID :=
  let cs := String.list_ascii_of_string s in
  let invalid := Failure (errors_New "invalid UUID format") in
  if negb (bool_decide (length cs = 36%nat)) then
    Failure (errors_New ("invalid UUID length: " +:+ pretty (len cs)))
  else if negb (forallb (fun i => from_option is_dash false (cs !! i)) [8; 13; 18; 23]%nat)
  then invalid
  else
    match parse_hex_bytes (filter (fun c => c ≠ "-"%char) cs) with
    | Some [b0; b1; b2; b3; b4; b5; b6; b7; b8; b9; b10; b11; b12; b13; b14; b15] =>
      Success [# b0; b1; b2; b3; b4; b5; b6; b7; b8; b9; b10; b11; b12; b13; b14; b15]
    | _ => invalid
    end.

Definition GetStringSlice (fs : FlagSet) (name : string) : result (list string) :=
  match fs !! name with
  | None => Failure (flag_undefined name)
  | Some f => match value f with
              | FStringSlice l => Success l
              | v => Failure (flag_mismatch "stringSlice" v)
              end
  end.

Definition generate_options (fs : FlagSet)
    : result (list string * list string * list string) :=
  match GetStringSlice fs "users", GetStringSlice fs "services", GetStringSlice fs "sectors" with
  | Success users, Success services, Success sectors =>
    Success (users, services, sectors)
  | Failure e, _, _ | _, Failure e, _ | _, _, Failure e => Failure e
  end.

Definition export_options (fs : FlagSet) : result (string * string) :=
  match GetString fs "format", GetString fs "dir" with
  | Success format, Success dir => Success (format, dir)
  | Failure e, _ | _, Failure e => Failure e
  end.

Definition john : UserOpaqueIdentifier :=
  {| Service := "openid"; SectorID := ""; Username := "john";
     Identifier := [# 18; 52; 86; 120; 154; 188; 77; 239; 129; 35; 69; 103; 137; 171; 205; 239] |}.

Definition harry : UserOpaqueIdentifier :=
  {| Service := "openid"; SectorID := "example.com"; Username := "harry";
     Identifier := [# 1; 2; 3; 4; 5; 6; 71; 8; 137; 10; 11; 12; 13; 14; 15; 16] |}.

(** The documents the reference decoder understands. *)
Definition documents : list (string * UserOpaqueIdentifiersExport) :=
  [ ("identifiers: []", {| Identifiers := [] |});
    ("identifiers: [john]", {| Identifiers := [john] |});
    ("identifiers: [john, harry]", {| Identifiers := [john; harry] |});
    ("identifiers: [john, harry, john, harry]",
     {| Identifiers := [john; harry; john; harry] |}) ].

Definition unmarshal (data : string) : result UserOpaqueIdentifiersExport :=
  match list_find (fun d => d.1 = data) documents with
  | Some (_, d) => Success d.2
  | None => Failure (errors_New "yaml: unmarshal errors")
  end.

#[global] Instance consts : Consts := {|
  cmdFlagNameTarget := "target";
  cmdFlagNameDestroyData := "destroy-data";
  cmdFlagNameNewEncryptionKey := "new-encryption-key";
  cmdFlagNameService := "service";
  cmdFlagNameSector := "sector";
  cmdFlagNameIdentifier := "identifier";
  cmdFlagNameFile := "file";
  identifierServiceOpenIDConnect := "openid";
  validIdentifierServices := ["openid"];
  SchemaLatest := 2147483647;
  storageTOTPExportFormatCSV := "csv";
  storageTOTPExportFormatURI := "uri";
  storageTOTPExportFormatPNG := "png";
  storageWrapCheckSchemaErr := fun e => fmt_Errorf_w "command requires the use of a up to date schema version: " e "";
  flagsGetUserIdentifiersGenerateOptions := generate_options;
  flagsGetTOTPExportOptions := export_options;
  uuid_Parse := parse;
  yaml_Unmarshal := unmarshal;
  totp_URI := fun c => "otpauth://totp/" +:+ tc_Issuer c +:+ ":" +:+ tc_Username c;
  totp_Image := fun c _ _ => Success ("png:" +:+ tc_Username c);
  filepath_Join := fun dir name => dir +:+ "/" +:+ name;
|}.

Definition flag (v : FlagValue) (is_changed : bool) : Flag :=
  {| value := v; changed := is_changed |}.

Definition empty : World := {|
  schema_version := 7; schema_latest := 7; encryption_key := "";
  identifiers := []; devices := []; configurations := [];
  stdin := []; entropy := []; files := []; closed := false |}.

End Ref.

(** ** Reference inputs *)

Module Inputs.
Import Ref.

(** [authelia storage migrate down --target 3] *)
Definition migrate_down_3 : FlagSet := {[ "target" := flag (FInt 3) true ]}.

(** [authelia storage migrate down] and [up] without the flag: pflag holds
    the default value, unchanged. *)
Definition migrate_no_target : FlagSet := {[ "target" := flag (FInt 0) false ]}.

(** [authelia storage encryption change-key --new-encryption-key ...] *)
Definition change_key (key : string) : FlagSet :=
  {[ "new-encryption-key" := flag (FString key) true ]}.

(** The same without the flag: the key is asked for at the terminal. *)
Definition change_key_prompted : FlagSet :=
  {[ "new-encryption-key" := flag (FString "") false ]}.

(** A store whose schema is at version 0 and up to date. *)
Definition version_zero : World := {|
  schema_version := 0; schema_latest := 0; encryption_key := "";
  identifiers := []; devices := []; configurations := [];
  stdin := []; entropy := []; files := []; closed := false |}.

Definition long_key : string := "correct horse battery staple".

(** The letter e with an acute accent: one character, the two bytes C3 A9. *)
Definition e_acute : string :=
  String (Ascii.ascii_of_nat 195) (String (Ascii.ascii_of_nat 169) EmptyString).

(** A key of ten characters in twenty bytes. *)
Definition accented_key : string :=
  e_acute +:+ e_acute +:+ e_acute +:+ e_acute +:+ e_acute +:+
  e_acute +:+ e_acute +:+ e_acute +:+ e_acute +:+ e_acute.

(** [authelia storage user identifiers generate --users ... --services ... --sectors ...] *)
Definition generate (users services sectors : list string) : FlagSet :=
  {[ "users" := flag (FStringSlice users) true;
     "services" := flag (FStringSlice services) true;
     "sectors" := flag (FStringSlice sectors) true ]}.


(** [authelia storage user identifiers add <username> --service ... --sector ...] *)
Definition add (service sector : string) : FlagSet :=
  {[ "service" := flag (FString service) true;
     "sector" := flag (FString sector) true;
     "identifier" := flag (FString "") false ]}.

(** The same with [--identifier ...]. *)
Definition add_with (service sector identifier : string) : FlagSet :=
  {[ "service" := flag (FString service) true;
     "sector" := flag (FString sector) true;
     "identifier" := flag (FString identifier) true ]}.


(** [authelia storage user identifiers import --file ids.yml] *)
Definition import : FlagSet := {[ "file" := flag (FString "ids.yml") true ]}.

Definition with_file (content : string) : World :=
  set_files [("ids.yml", content)] empty.


Definition device (n : Z) : WebauthnDevice :=
  {| wd_ID := n; wd_KID := "kid"; wd_Description := "key"; wd_Username := "john" |}.

(** A store holding [n] registered devices. *)
Definition with_devices (n : Z) : World :=
  {| schema_version := 7; schema_latest := 7; encryption_key := "";
     identifiers := []; devices := device <$> seqZ 1 n; configurations := [];
     stdin := []; entropy := []; files := []; closed := false |}.

Definition configuration (n : Z) : TOTPConfiguration :=
  {| tc_Issuer := "authelia.com"; tc_Username := "user" +:+ pretty n;
     tc_Algorithm := "SHA1"; tc_Digits := 6; tc_Period := 30; tc_Secret := "secret" |}.

(** A store holding [n] TOTP configurations. *)
Definition with_configurations (n : Z) : World :=
  {| schema_version := 7; schema_latest := 7; encryption_key := "";
     identifiers := []; devices := []; configurations := configuration <$> seqZ 1 n;
     stdin := []; entropy := []; files := []; closed := false |}.

(** [authelia storage user totp export --format ... --dir ...] *)
Definition totp_export (format dir : string) : FlagSet :=
  {[ "format" := flag (FString format) true; "dir" := flag (FString dir) true ]}.


(** A store holding 23 devices and 10 TOTP configurations. *)
Definition store : World :=
  {| schema_version := 7; schema_latest := 7; encryption_key := "";
     identifiers := []; devices := device <$> seqZ 1 23;
     configurations := configuration <$> seqZ 1 10;
     stdin := []; entropy := []; files := []; closed := false |}.

(** The machine states that hold the collections of [store]. *)
Definition holds_store (w : World) : Prop :=
  devices w = devices store /\ configurations w = configurations store.


(** A store that already holds the identifier of john. *)
Definition with_john : World :=
  set_entropy [Identifier harry] (set_identifiers [john] empty).

End Inputs.

(** * The other commands of storage_run.go

    The commands below use further operations of the storage provider and
    of the command context.  Their traces are over [XEvent], a larger event
    type that embeds [Event]; the operations and the commands of the first
    part run unchanged inside them. *)

(** ** Data of the model and storage packages, as far as the commands use it *)

(** [model.Migration]; [Applied] is a time, printed with [Time.Format]. *)
Record Migration : Type := {
  m_ID : Z;
  m_Applied : Z;
  m_Before : Z;
  m_After : Z;
  m_Version : string;
}.

(** [model.SchemaMigration] *)
Record SchemaMigration : Type := {
  sm_Version : Z;
  sm_Name : string;
}.

(** [storage.EncryptionValidationTableResult] *)
Record EncryptionValidationTableResult : Type := {
  tr_Invalid : Z;
  tr_Total : Z;
}.

(** [storage.EncryptionValidationResult] *)
Record EncryptionValidationResult : Type := {
  Tables : gmap string EncryptionValidationTableResult;
}.

(** [ctx.config.TOTP], as far as the generation reads it. *)
Record TOTPOptions : Type := {
  to_Algorithm : string;
  to_Digits : Z;
  to_Period : Z;
  to_SecretSize : Z;
}.

(** [FlagSet.GetBool] *)
Definition GetBool (fs : FlagSet) (name : string) : result bool :=
  match fs !! name with
  | None => Failure (flag_undefined name)
  | Some f => match value f with
              | FBool b => Success b
              | v => Failure (flag_mismatch "bool" v)
              end
  end.

(** [fmt.Errorf("%+v: %w", err, e)] *)
Definition Errorf_colon (err e : error) : error :=
  fmt_Errorf_w (Error err +:+ ": ") e "".

(** [fmt.Errorf("%w, %v", err, e)]; a nil [err] is printed as a bad verb. *)
Definition Errorf_comma (err : option error) (e : error) : error :=
  match err with
  | Some err => fmt_Errorf_w "" err (", " +:+ Error e)
  | None => errors_New ("%!w(<nil>), " +:+ Error e)
  end.

(** [sort.Strings]: the increasing order of Go's string comparison (byte by
    byte), here by merge sort. *)
Definition string_le (a b : string) : Prop := String.leb a b = true.

#[global] Instance string_le_dec : RelDecision string_le.
Proof. intros a b. unfold string_le. apply _. Defined.

Definition sort_Strings (l : list string) : list string :=
  merge_sort string_le l.

(** ** Events *)

Inductive XEvent : Type :=
| Base (ev : Event)
| CallLoadTrustedCertificates
| SetStorageProvider
| CallValidateStorage
| CallValidateTOTP
| CallSchemaEncryptionCheckKey (verbose : bool)
| CallLoadWebauthnDevicesByUsername (username : string)
| CallDeleteWebauthnDevice (kid : string) (err : option error)
| CallDeleteWebauthnDeviceByUsername (username description : string) (err : option error)
| CallLoadTOTPConfiguration (username : string) (err : option error)
| CallGenerateCustom (username : string) (err : option error)
| CallSaveTOTPConfiguration (c : TOTPConfiguration) (err : option error)
| CallDeleteTOTPConfiguration (username : string) (err : option error)
| CallSchemaMigrationHistory
| CallSchemaMigrationsUp (version : Z)
| CallSchemaMigrationsDown (version : Z)
| CallSchemaTables
| CallSchemaLatestVersion
| OsCreateFile (path : string) (err : option error)
| OsWriteFile (path data : string) (err : option error).

(** ** The environment of the other commands *)

(** Further constants and pure helpers that are declared elsewhere: the
    sentinel errors of the storage package, a flag name, the flag helpers
    of two commands, [os.IsNotExist], [yaml.Marshal], [Time.Format] with
    the layout of the history listing, the methods of the encryption
    validation results, the TOTP options of the configuration, the order
    in which a [range] statement visits the keys of a map (which Go leaves
    unspecified), the package constant [invalid] and
    [storage.SchemaVersionToString]. *)
Class XConsts : Type := {
  ErrNoWebauthnDevice : error;
  ErrNoTOTPConfiguration : error;
  ErrNoAvailableMigrations : error;
  ErrMigrateCurrentVersionSameAsTarget : error;
  ErrSchemaEncryptionVersionUnsupported : error;
  ErrSchemaEncryptionInvalidKey : error;
  cmdFlagNameVerbose : string;
  storageWebauthnDeleteRunEOptsFromFlags :
    FlagSet -> list string -> result (bool * bool * string * string * string);
  storageTOTPGenerateRunEOptsFromFlags : FlagSet -> result (bool * string * string);
  os_IsNotExist : error -> bool;
  yaml_Marshal : UserOpaqueIdentifiersExport -> result string;
  time_Format : Z -> string;
  result_Success : EncryptionValidationResult -> bool;
  table_ResultDescriptor : EncryptionValidationTableResult -> string;
  config_TOTP : TOTPOptions;
  range_order : gmap string EncryptionValidationTableResult -> list string;
  invalid : string;
  SchemaVersionToString : Z -> string;
}.

(** Further external operations as transitions of the machine state.
    [provider_SchemaVersion_both] is [SchemaVersion] with both of its
    results, for the caller that reads the version beside an error. *)
Class XMachine (W : Type) : Type := {
  ctx_LoadTrustedCertificates : W -> (list error * list error) * W;
  ctx_setStorageProvider : W -> W;
  validator_Errors : W -> list error;
  validator_ValidateStorage : W -> W;
  validator_ValidateTOTP : W -> W;
  provider_SchemaEncryptionCheckKey : bool -> W -> result EncryptionValidationResult * W;
  provider_LoadWebauthnDevicesByUsername :
    string -> W -> (list WebauthnDevice * option error) * W;
  provider_DeleteWebauthnDevice : string -> W -> result unit * W;
  provider_DeleteWebauthnDeviceByUsername : string -> string -> W -> result unit * W;
  provider_LoadTOTPConfiguration : string -> W -> result TOTPConfiguration * W;
  provider_SaveTOTPConfiguration : TOTPConfiguration -> W -> result unit * W;
  provider_DeleteTOTPConfiguration : string -> W -> result unit * W;
  provider_SchemaMigrationHistory : W -> result (list Migration) * W;
  provider_SchemaMigrationsUp : Z -> W -> (list SchemaMigration * option error) * W;
  provider_SchemaMigrationsDown : Z -> W -> (list SchemaMigration * option error) * W;
  provider_SchemaVersion_both : W -> (Z * option error) * W;
  provider_SchemaTables : W -> result (list string) * W;
  provider_SchemaLatestVersion : W -> result Z * W;
  totp_GenerateCustom :
    string -> string -> string -> Z -> Z -> Z -> W -> result TOTPConfiguration * W;
  os_CreateFile : string -> W -> result unit * W;
  os_WriteFile : string -> string -> W -> result unit * W;
}.

(** ** The monad over the larger traces *)

Record XSt (W : Type) : Type := mkXSt { xworld : W; xtrace : list XEvent }.
Arguments mkXSt {W} xworld xtrace.
Arguments xworld {W} _.
Arguments xtrace {W} _.

Definition XM (W A : Type) : Type := XSt W -> Outcome A * XSt W.

Definition xret {W A} (a : A) : XM W A := fun s => (Ok a, s).

Definition xbind {W A B} (m : XM W A) (k : A -> XM W B) : XM W B :=
  fun s =>
    match m s with
    | (Ok a, s') => k a s'
    | (Err e, s') => (Err e, s')
    | (Panic, s') => (Panic, s')
    | (OutOfFuel, s') => (OutOfFuel, s')
    end.

Notation "'let+' x ':=' c1 'in' c2" := (xbind c1 (fun x => c2))
  (at level 10, x name, c1 at level 100, c2 at level 200).
Notation "'let+' ' pat ':=' c1 'in' c2" :=
  (xbind c1 (fun x => match x with pat => c2 end))
  (at level 10, pat pattern, c1 at level 100, c2 at level 200).

Definition xthrow {W A} (e : error) : XM W A := fun s => (Err e, s).

Definition xpanic {W A} : XM W A := fun s => (Panic, s).

(** [if x, err = f(); err != nil { return err }] for a pure [f]. *)
Definition xpropagate {W A} (r : result A) : XM W A :=
  match r with
  | Success a => xret a
  | Failure e => xthrow e
  end.

(** [if ...; err != nil { return wrap(err) }] *)
Definition xwrapErr {W A} (wrap : error -> error) (m : XM W A) : XM W A :=
  fun s =>
    match m s with
    | (Err e, s') => (Err (wrap e), s')
    | r => r
    end.

(** An external operation that returns [(T, error)] or [error]. *)
Definition xcall {W A} (ev : result A -> XEvent) (op : W -> result A * W) : XM W A :=
  fun s =>
    let '(r, w) := op (xworld s) in
    let s' := mkXSt w (xtrace s ++ [ev r]) in
    match r with
    | Success a => (Ok a, s')
    | Failure e => (Err e, s')
    end.

(** An external operation whose results the caller inspects itself. *)
Definition xcall_raw {W A} (ev : XEvent) (op : W -> A * W) : XM W A :=
  fun s =>
    let '(a, w) := op (xworld s) in (Ok a, mkXSt w (xtrace s ++ [ev])).

(** An external operation without a result. *)
Definition xdo {W} (ev : XEvent) (op : W -> W) : XM W unit :=
  fun s => (Ok tt, mkXSt (op (xworld s)) (xtrace s ++ [ev])).

(** A computation of the first part, run on the machine; its events are
    appended to the trace. *)
Definition lift {W A} (m : M W A) : XM W A :=
  fun s =>
    let '(r, s') := m (mkSt (xworld s) []) in
    (r, mkXSt (world s') (xtrace s ++ (Base <$> trace s'))).

(** [defer]: the deferred call runs when the body returns or panics. *)
Definition xdefer {W A} (deferred : XM W unit) (body : XM W A) : XM W A :=
  fun s =>
    match body s with
    | (OutOfFuel, s') => (OutOfFuel, s')
    | (r, s') => (r, snd (deferred s'))
    end.

(** [for _, x := range l { body }] *)
Fixpoint xrange {W A S} (l : list A) (body : S -> A -> XM W S) (acc : S) : XM W S :=
  match l with
  | [] => xret acc
  | x :: l' => let+ acc' := body acc x in xrange l' body acc'
  end.

Definition xrun {W A} (m : XM W A) (w : W) : Outcome A * XSt W := m (mkXSt w []).

(** Runs [m] and hands its error, if any, to the caller as a value. *)
Definition xattempt {W A} (m : XM W A) : XM W (result A) :=
  fun s =>
    match m s with
    | (Ok a, s') => (Ok (Success a), s')
    | (Err e, s') => (Ok (Failure e), s')
    | (Panic, s') => (Panic, s')
    | (OutOfFuel, s') => (OutOfFuel, s')
    end.

(** [return err], for an [err] that may be nil. *)
Definition xreturn {W} (err : option error) : XM W unit :=
  match err with
  | Some e => xthrow e
  | None => xret tt
  end.

(** [args[i]]: an index out of range panics. *)
Definition xindex {W} (args : list string) (i : nat) : XM W string :=
  match args !! i with
  | Some a => xret a
  | None => xpanic
  end.

(** The loop that folds the validator's errors into one:
    [for i, e = range errs { if i == 0 { err = e; continue };
    err = fmt.Errorf("%w, %v", err, e) }]. *)
Fixpoint join_errors (i : nat) (errs : list error) (err : option error) : option error :=
  match errs with
  | [] => err
  | e :: rest =>
    if (i =? 0)%nat then join_errors (S i) rest (Some e)
    else join_errors (S i) rest (Some (Errorf_comma err e))
  end.

(** The zero value of [storage.EncryptionValidationTableResult]. *)
Definition table_zero : EncryptionValidationTableResult :=
  {| tr_Invalid := 0; tr_Total := 0 |}.

Section XCommands.
Context `{Consts} `{XConsts} {W : Type} `{Machine W} `{XMachine W}.

(** *** The operations *)

Definition xClose : XM W unit := lift Close.
Definition xCheckSchemaVersion : XM W unit := lift CheckSchemaVersion.
Definition xSchemaVersion : XM W Z := lift SchemaVersion.
Definition xPrintf (s : string) : XM W unit := lift (Printf s).
Definition xLoadUserOpaqueIdentifiers : XM W (list UserOpaqueIdentifier * option error) :=
  lift LoadUserOpaqueIdentifiers.
Definition xos_Stat (path : string) : XM W FileInfo :=
  lift (call (fun _ => OsStat path) (os_Stat path)).
Definition xpng_Encode (path img : string) : XM W unit :=
  lift (call (fun r => PngEncode path (failure_of r)) (png_Encode path img)).
Definition xfile_Close (path : string) : XM W unit :=
  lift (fun s => (Ok tt, mkSt (file_Close path (world s)) (trace s ++ [FileClose path]))).

Definition LoadTrustedCertificates : XM W (list error * list error) :=
  xcall_raw CallLoadTrustedCertificates ctx_LoadTrustedCertificates.

Definition SchemaEncryptionCheckKey (verbose : bool)
    : XM W (result EncryptionValidationResult) :=
  xcall_raw (CallSchemaEncryptionCheckKey verbose)
            (provider_SchemaEncryptionCheckKey verbose).

Definition LoadWebauthnDevicesByUsername (username : string)
    : XM W (list WebauthnDevice * option error) :=
  xcall_raw (CallLoadWebauthnDevicesByUsername username)
            (provider_LoadWebauthnDevicesByUsername username).

Definition DeleteWebauthnDevice (kid : string) : XM W unit :=
  xcall (fun r => CallDeleteWebauthnDevice kid (failure_of r))
        (provider_DeleteWebauthnDevice kid).

Definition DeleteWebauthnDeviceByUsername (username description : string) : XM W unit :=
  xcall (fun r => CallDeleteWebauthnDeviceByUsername username description (failure_of r))
        (provider_DeleteWebauthnDeviceByUsername username description).

Definition LoadTOTPConfiguration (username : string) : XM W TOTPConfiguration :=
  xcall (fun r => CallLoadTOTPConfiguration username (failure_of r))
        (provider_LoadTOTPConfiguration username).

Definition SaveTOTPConfiguration (c : TOTPConfiguration) : XM W unit :=
  xcall (fun r => CallSaveTOTPConfiguration c (failure_of r))
        (provider_SaveTOTPConfiguration c).

Definition DeleteTOTPConfiguration (username : string) : XM W unit :=
  xcall (fun r => CallDeleteTOTPConfiguration username (failure_of r))
        (provider_DeleteTOTPConfiguration username).

Definition SchemaMigrationHistory : XM W (list Migration) :=
  xcall (fun _ => CallSchemaMigrationHistory) provider_SchemaMigrationHistory.

Definition SchemaMigrationsUp (version : Z) : XM W (list SchemaMigration * option error) :=
  xcall_raw (CallSchemaMigrationsUp version) (provider_SchemaMigrationsUp version).

Definition SchemaMigrationsDown (version : Z) : XM W (list SchemaMigration * option error) :=
  xcall_raw (CallSchemaMigrationsDown version) (provider_SchemaMigrationsDown version).

Definition SchemaVersion_both : XM W (Z * option error) :=
  xcall_raw (Base CallSchemaVersion) provider_SchemaVersion_both.

Definition SchemaTables : XM W (list string) :=
  xcall (fun _ => CallSchemaTables) provider_SchemaTables.

Definition SchemaLatestVersion : XM W Z :=
  xcall (fun _ => CallSchemaLatestVersion) provider_SchemaLatestVersion.

(** [totp.NewTimeBasedProvider(ctx.config.TOTP).GenerateCustom] *)
Definition GenerateCustom (username algorithm secret : string) (digits period size : Z)
    : XM W TOTPConfiguration :=
  xcall (fun r => CallGenerateCustom username (failure_of r))
        (totp_GenerateCustom username algorithm secret digits period size).

Definition os_Create_checked (path : string) : XM W unit :=
  xcall (fun r => OsCreateFile path (failure_of r)) (os_CreateFile path).

Definition WriteFile (path data : string) : XM W unit :=
  xcall (fun r => OsWriteFile path data (failure_of r)) (os_WriteFile path data).

(** *** LoadProvidersStorageRunE *)

Definition LoadProvidersStorageRunE (cmd : FlagSet) (args : list string) : XM W unit :=
  let+ '(warns, errs) := LoadTrustedCertificates in
  if negb (len errs =? 0) then
    let err := errors_New "had the following errors loading the trusted certificates" in
    xthrow (fold_left Errorf_colon errs err)
  else if negb (len warns =? 0) then
    let err := errors_New "had the following warnings loading the trusted certificates" in
    xthrow (fold_left Errorf_colon errs err)
  else
    xdo SetStorageProvider ctx_setStorageProvider.

(** *** ConfigValidateStoragePersistentPreRunE *)

(** [ctx.cconfig.validator.Errors()] *)
Definition validator_errors : XM W (list error) :=
  fun s => (Ok (validator_Errors (xworld s)), s).

Definition ConfigValidateStoragePersistentPreRunE (cmd : FlagSet) (args : list string)
    : XM W unit :=
  let+ errs := validator_errors in
  if negb (len errs =? 0) then xreturn (join_errors 0 errs None)
  else
  let+ _ := xdo CallValidateStorage validator_ValidateStorage in
  let+ _ := xdo CallValidateTOTP validator_ValidateTOTP in
  let+ errs := validator_errors in
  if negb (len errs =? 0) then xreturn (join_errors 0 errs None)
  else xret tt.

(** *** authelia storage encryption check *)

Definition table_line (result : EncryptionValidationResult) (name : string) : string :=
  let table := default table_zero (Tables result !! name) in
  nl +:+ nl +:+ tab +:+ "Table (" +:+ name +:+ "): " +:+ table_ResultDescriptor table +:+
  nl +:+ tab +:+ tab +:+ "Invalid Rows: " +:+ pretty (tr_Invalid table) +:+
  nl +:+ tab +:+ tab +:+ "Total Rows: " +:+ pretty (tr_Total table).

Definition StorageSchemaEncryptionCheckRunE (cmd : FlagSet) (args : list string)
    : XM W unit :=
  xdefer xClose (
    let+ _ := xwrapErr storageWrapCheckSchemaErr xCheckSchemaVersion in
    let+ verbose := xpropagate (GetBool cmd cmdFlagNameVerbose) in
    let+ r := SchemaEncryptionCheckKey verbose in
    match r with
    | Failure err =>
      if errors_Is err ErrSchemaEncryptionVersionUnsupported then
        xPrintf ("Storage Encryption Key Validation: FAILURE" +:+ nl +:+ nl +:+ tab +:+
                 "Cause: The schema version doesn't support encryption." +:+ nl)
      else
        xPrintf ("Storage Encryption Key Validation: UNKNOWN" +:+ nl +:+ nl +:+ tab +:+
                 "Cause: " +:+ Error err +:+ "." +:+ nl)
    | Success result =>
      let+ _ :=
        if result_Success result then
          xPrintf ("Storage Encryption Key Validation: SUCCESS" +:+ nl)
        else
          xPrintf ("Storage Encryption Key Validation: FAILURE" +:+ nl +:+ nl +:+ tab +:+
                   "Cause: " +:+ Error ErrSchemaEncryptionInvalidKey +:+ "." +:+ nl) in
      if verbose then
        let+ _ := xPrintf (nl +:+ "Tables:") in
        let tables := sort_Strings (range_order (Tables result)) in
        let+ _ := xrange tables (fun _ name => xPrintf (table_line result name)) tt in
        xPrintf nl
      else xret tt
    end).

(** *** authelia storage user webauthn list *)

Definition webauthn_user_line (device : WebauthnDevice) : string :=
  pretty (wd_ID device) +:+ tab +:+ wd_KID device +:+ tab +:+ wd_Description device.

Definition StorageWebauthnListRunE (fuel : nat) (cmd : FlagSet) (args : list string)
    : XM W unit :=
  if (len args =? 0) || bool_decide (args !! 0%nat = Some "") then
    lift (StorageWebauthnListAllRunE fuel cmd args)
  else
  xdefer xClose (
    let+ _ := xwrapErr storageWrapCheckSchemaErr xCheckSchemaVersion in
    let+ user := xindex args 0 in
    let+ '(devices, err) := LoadWebauthnDevicesByUsername user in
    if (len devices =? 0) ||
       match err with Some e => errors_Is e ErrNoWebauthnDevice | None => false end then
      xthrow (errors_New ("user '" +:+ user +:+ "' has no webauthn devices"))
    else
    match err with
    | Some e => xthrow (fmt_Errorf_w ("can't list devices for user '" +:+ user +:+ "': ") e "")
    | None =>
      let+ _ := xPrintf ("Webauthn Devices for user '" +:+ user +:+ "':" +:+ nl +:+ nl) in
      let+ _ := xPrintf ("ID" +:+ tab +:+ "KID" +:+ tab +:+ "Description" +:+ nl) in
      xrange devices (fun _ device => xPrintf (webauthn_user_line device)) tt
    end).

(** *** authelia storage user webauthn delete *)

Definition StorageWebauthnDeleteRunE (cmd : FlagSet) (args : list string) : XM W unit :=
  xdefer xClose (
    let+ _ := xwrapErr storageWrapCheckSchemaErr xCheckSchemaVersion in
    let+ '(all, byKID, description, kid, user) :=
      xpropagate (storageWebauthnDeleteRunEOptsFromFlags cmd args) in
    if byKID then
      let+ _ := xwrapErr (fun e => fmt_Errorf_w ("failed to delete WebAuthn device with kid '" +:+
                                                 kid +:+ "': ") e "")
                         (DeleteWebauthnDevice kid) in
      xPrintf ("Deleted WebAuthn device with kid '" +:+ kid +:+ "'")
    else
      let+ r := xattempt (DeleteWebauthnDeviceByUsername user description) in
      if all then
        match r with
        | Failure e =>
          xthrow (fmt_Errorf_w ("failed to delete all WebAuthn devices with username '" +:+
                                user +:+ "': ") e "")
        | Success _ => xPrintf ("Deleted all WebAuthn devices for user '" +:+ user +:+ "'")
        end
      else
        match r with
        | Failure e =>
          xthrow (fmt_Errorf_w ("failed to delete WebAuthn device with username '" +:+ user +:+
                                "' and description '" +:+ description +:+ "': ") e "")
        | Success _ =>
          xPrintf ("Deleted WebAuthn device with username '" +:+ user +:+
                   "' and description '" +:+ description +:+ "'")
        end).

(** *** authelia storage user totp generate *)

Definition StorageTOTPGenerateRunE (cmd : FlagSet) (args : list string) : XM W unit :=
  xdefer xClose (
    let+ _ := xwrapErr storageWrapCheckSchemaErr xCheckSchemaVersion in
    let+ '(force, filename, secret) :=
      xpropagate (storageTOTPGenerateRunEOptsFromFlags cmd) in
    let+ username := xindex args 0 in
    let+ r := xattempt (LoadTOTPConfiguration username) in
    let+ _ :=
      match r with
      | Success _ =>
        if negb force then
          xthrow (errors_New (username +:+
                              " already has a TOTP configuration, use --force to overwrite"))
        else xret tt
      | Failure err =>
        if negb (errors_Is err ErrNoTOTPConfiguration) then xthrow err else xret tt
      end in
    let+ c := GenerateCustom username (to_Algorithm config_TOTP) secret
                (to_Digits config_TOTP) (to_Period config_TOTP)
                (to_SecretSize config_TOTP) in
    let save_and_report (extraInfo : string) : XM W unit :=
      let+ _ := SaveTOTPConfiguration c in
      xPrintf ("Generated TOTP configuration for user '" +:+ username +:+ "' with URI '" +:+
               totp_URI c +:+ "'" +:+ extraInfo +:+ nl) in
    if negb (bool_decide (filename = "")) then
      let+ st := xattempt (xos_Stat filename) in
      if match st with Success _ => true | Failure e => negb (os_IsNotExist e) end then
        xthrow (errors_New "image output filepath already exists")
      else
      let+ _ := os_Create_checked filename in
      xdefer (xfile_Close filename) (
        let+ img := xpropagate (totp_Image c 256 256) in
        let+ _ := xpng_Encode filename img in
        save_and_report (" and saved it as a PNG image at the path '" +:+ filename +:+ "'"))
    else save_and_report "").

(** *** authelia storage user totp delete *)

Definition StorageTOTPDeleteRunE (cmd : FlagSet) (args : list string) : XM W unit :=
  let+ user := xindex args 0 in
  let cant_delete (e : error) : error :=
    errors_New ("can't delete configuration for user '" +:+ user +:+ "': " +:+ Error e) in
  xdefer xClose (
    let+ _ := xwrapErr storageWrapCheckSchemaErr xCheckSchemaVersion in
    let+ _ := xwrapErr cant_delete (LoadTOTPConfiguration user) in
    let+ _ := xwrapErr cant_delete (DeleteTOTPConfiguration user) in
    xPrintf ("Deleted TOTP configuration for user '" +:+ user +:+ "'.")).

(** *** authelia storage migrate history *)

Definition history_line (m : Migration) : string :=
  pretty (m_ID m) +:+ tab +:+ time_Format (m_Applied m) +:+ tab +:+ pretty (m_Before m) +:+
  tab +:+ pretty (m_After m) +:+ tab +:+ m_Version m +:+ nl.

Definition StorageMigrateHistoryRunE (cmd : FlagSet) (args : list string) : XM W unit :=
  xdefer xClose (
    let+ version := xSchemaVersion in
    if version <=? 0 then
      xPrintf ("No migration history is available for schemas that not version 1 or above." +:+ nl)
    else
    let+ migrations := SchemaMigrationHistory in
    if len migrations =? 0 then
      xthrow (errors_New "no migration history found which may indicate a broken schema")
    else
    let+ _ := xPrintf ("Migration History:" +:+ nl +:+ nl +:+ "ID" +:+ tab +:+ "Date" +:+ tab +:+
                       tab +:+ tab +:+ tab +:+ "Before" +:+ tab +:+ "After" +:+ tab +:+
                       "Authelia Version" +:+ nl) in
    xrange migrations (fun _ m => xPrintf (history_line m)) tt).

(** *** authelia storage migrate list-up / list-down *)

Definition NewStorageMigrateListRunE (up : bool) (cmd : FlagSet) (args : list string)
    : XM W unit :=
  xdefer xClose (
    let+ '(migrations, err) :=
      if up then SchemaMigrationsUp 0 else SchemaMigrationsDown 0 in
    let directionStr := if up then "Up" else "Down" in
    let+ _ :=
      match err with
      | Some e =>
        if negb (errors_Is e ErrNoAvailableMigrations) &&
           negb (errors_Is e ErrMigrateCurrentVersionSameAsTarget) then xthrow e
        else xret tt
      | None => xret tt
      end in
    if len migrations =? 0 then
      xPrintf ("Storage Schema Migration List (" +:+ directionStr +:+ ")" +:+ nl +:+ nl +:+
               "No Migrations Available" +:+ nl)
    else
      let+ _ := xPrintf ("Storage Schema Migration List (" +:+ directionStr +:+ ")" +:+ nl +:+
                         nl +:+ "Version" +:+ tab +:+ tab +:+ "Description" +:+ nl) in
      xrange migrations
             (fun _ m => xPrintf (pretty (sm_Version m) +:+ tab +:+ tab +:+ sm_Name m +:+ nl))
             tt).

(** *** authelia storage schema-info *)

(** The status of the encryption key, from the results of
    [SchemaEncryptionCheckKey]. *)
Definition encryption_status (r : result EncryptionValidationResult) : string :=
  match r with
  | Failure err =>
    if errors_Is err ErrSchemaEncryptionVersionUnsupported then "unsupported (schema version)"
    else invalid
  | Success result =>
    if negb (result_Success result) then invalid else "valid"
  end.

Definition schema_info (version latest : Z) (tables : list string)
    (r : result EncryptionValidationResult) : string :=
  let tablesStr := if len tables =? 0 then "N/A" else strings_Join tables ", " in
  let upgradeStr := if version <? latest then "yes - version " +:+ pretty latest else "no" in
  "Schema Version: " +:+ SchemaVersionToString version +:+ nl +:+
  "Schema Upgrade Available: " +:+ upgradeStr +:+ nl +:+
  "Schema Tables: " +:+ tablesStr +:+ nl +:+
  "Schema Encryption Key: " +:+ encryption_status r +:+ nl.

Definition StorageSchemaInfoRunE (cmd : FlagSet) (args : list string) : XM W unit :=
  xdefer xClose (
    let+ '(version, err) := SchemaVersion_both in
    let+ _ :=
      match err with
      | Some e =>
        if negb (bool_decide (Error e = "unknown schema state")) then xthrow e else xret tt
      | None => xret tt
      end in
    let+ tables := SchemaTables in
    let+ latest := SchemaLatestVersion in
    let+ r := SchemaEncryptionCheckKey false in
    xPrintf (schema_info version latest tables r)).

(** *** authelia storage user identifiers export *)

Definition StorageUserIdentifiersExportRunE (cmd : FlagSet) (args : list string)
    : XM W unit :=
  let+ file := xpropagate (GetString cmd cmdFlagNameFile) in
  let+ st := xattempt (xos_Stat file) in
  let+ _ :=
    match st with
    | Success _ =>
      xthrow (errors_New ("must specify a file that doesn't exist but '" +:+ file +:+
                          "' exists"))
    | Failure err =>
      if negb (os_IsNotExist err) then
        xthrow (fmt_Errorf_w ("error occurred opening '" +:+ file +:+ "': ") err "")
      else xret tt
    end in
  xdefer xClose (
    let+ _ := xwrapErr storageWrapCheckSchemaErr xCheckSchemaVersion in
    let+ '(identifiers, err) := xLoadUserOpaqueIdentifiers in
    let+ _ := xreturn err in
    if len identifiers =? 0 then xthrow (errors_New "no data to export")
    else
    let export := {| Identifiers := identifiers |} in
    let+ data := xwrapErr (fun e => fmt_Errorf_w "error occurred marshalling data to YAML: " e "")
                          (xpropagate (yaml_Marshal export)) in
    let+ _ := xwrapErr (fun e => fmt_Errorf_w ("error occurred writing to file '" +:+ file +:+
                                               "': ") e "")
                       (WriteFile file data) in
    xPrintf ("Exported " +:+ pretty (len identifiers) +:+ " User Opaque Identifiers to " +:+
             file +:+ nl)).

End XCommands.

(** ** Observations on the larger traces *)

(** The text of the errors a certificate loading error lists. *)
Definition listed (errs : list error) : string :=
  fold_right (fun e acc => ": " +:+ Error e +:+ acc) "" errs.

(** What a trace printed. *)
Definition xprinted (t : list XEvent) : list string :=
  omap (fun ev => match ev with Base (EvPrint s) => Some s | _ => None end) t.

(** The event of a printed string. *)
Definition print (s : string) : XEvent := Base (EvPrint s).

(** The error the validation loop builds from a first error and the errors
    after it. *)
Definition comma_fold (errs : list error) (first : error) : error :=
  fold_left (fun acc e => Errorf_comma (Some acc) e) errs first.

(** The deletions of devices a trace attempted. *)
Definition is_delete (ev : XEvent) : bool :=
  match ev with
  | CallDeleteWebauthnDevice _ _ | CallDeleteWebauthnDeviceByUsername _ _ _ => true
  | _ => false
  end.

Definition deletes (t : list XEvent) : list XEvent := filter (fun ev => is_delete ev = true) t.

(** The deletion [StorageWebauthnDeleteRunE] asks for, given its options. *)
Definition requested_delete (byKID : bool) (description kid user : string)
    (err : option error) : XEvent :=
  if byKID then CallDeleteWebauthnDevice kid err
  else CallDeleteWebauthnDeviceByUsername user description err.

(** ** A reference environment for the other commands

    The store of the first part, with the state the other commands read:
    the outcome of loading the certificates, the errors the validator
    holds and those the two validations find, the result of the key check,
    the migration history and the migrations that can be listed. *)
Module XRef.

#[global] Instance identifier_eq_dec : EqDecision UserOpaqueIdentifier.
Proof. solve_decision. Defined.

#[global] Instance export_eq_dec : EqDecision UserOpaqueIdentifiersExport.
Proof. solve_decision. Defined.

Record World : Type := {
  base : Ref.World;
  certificates : list error * list error;
  provider_set : bool;
  validation : list error;
  storage_problems : list error;
  totp_problems : list error;
  key_check : result EncryptionValidationResult;
  history : list Migration;
  pending_up : list SchemaMigration * option error;
  pending_down : list SchemaMigration * option error;
  schema_state : option error;
  tables : list string;
}.

Definition set_base (b : Ref.World) (w : World) : World :=
  {| base := b; certificates := certificates w; provider_set := provider_set w;
     validation := validation w; storage_problems := storage_problems w;
     totp_problems := totp_problems w; key_check := key_check w; history := history w;
     pending_up := pending_up w; pending_down := pending_down w;
     schema_state := schema_state w; tables := tables w |}.

Definition set_provider (w : World) : World :=
  {| base := base w; certificates := certificates w; provider_set := true;
     validation := validation w; storage_problems := storage_problems w;
     totp_problems := totp_problems w; key_check := key_check w; history := history w;
     pending_up := pending_up w; pending_down := pending_down w;
     schema_state := schema_state w; tables := tables w |}.

Definition set_validation (errs : list error) (w : World) : World :=
  {| base := base w; certificates := certificates w; provider_set := provider_set w;
     validation := errs; storage_problems := storage_problems w;
     totp_problems := totp_problems w; key_check := key_check w; history := history w;
     pending_up := pending_up w; pending_down := pending_down w;
     schema_state := schema_state w; tables := tables w |}.

Definition set_devices (l : list WebauthnDevice) (b : Ref.World) : Ref.World :=
  {| Ref.schema_version := Ref.schema_version b; Ref.schema_latest := Ref.schema_latest b;
     Ref.encryption_key := Ref.encryption_key b; Ref.identifiers := Ref.identifiers b;
     Ref.devices := l; Ref.configurations := Ref.configurations b;
     Ref.stdin := Ref.stdin b; Ref.entropy := Ref.entropy b; Ref.files := Ref.files b;
     Ref.closed := Ref.closed b |}.

Definition set_configurations (l : list TOTPConfiguration) (b : Ref.World) : Ref.World :=
  {| Ref.schema_version := Ref.schema_version b; Ref.schema_latest := Ref.schema_latest b;
     Ref.encryption_key := Ref.encryption_key b; Ref.identifiers := Ref.identifiers b;
     Ref.devices := Ref.devices b; Ref.configurations := l;
     Ref.stdin := Ref.stdin b; Ref.entropy := Ref.entropy b; Ref.files := Ref.files b;
     Ref.closed := Ref.closed b |}.

(** An operation of the first part, on the store inside. *)
Definition on_base {A} (op : Ref.World -> A * Ref.World) (w : World) : A * World :=
  let '(a, b) := op (base w) in (a, set_base b w).

#[global] Instance machine : Machine World := {|
  provider_Close := fun w => set_base (provider_Close (base w)) w;
  provider_SchemaVersion := on_base provider_SchemaVersion;
  provider_SchemaMigrate := fun up target => on_base (provider_SchemaMigrate up target);
  provider_SchemaEncryptionChangeKey := fun key => on_base (provider_SchemaEncryptionChangeKey key);
  provider_LoadWebauthnDevices := fun limit page => on_base (provider_LoadWebauthnDevices limit page);
  provider_LoadTOTPConfigurations :=
    fun limit page => on_base (provider_LoadTOTPConfigurations limit page);
  provider_LoadUserOpaqueIdentifiers := on_base provider_LoadUserOpaqueIdentifiers;
  provider_SaveUserOpaqueIdentifier := fun id => on_base (provider_SaveUserOpaqueIdentifier id);
  ctx_CheckSchemaVersion := on_base ctx_CheckSchemaVersion;
  terminal_ReadLine := fun prompt => on_base (terminal_ReadLine prompt);
  terminal_ReadPassword := fun prompt fd => on_base (terminal_ReadPassword prompt fd);
  rand_Read := on_base rand_Read;
  os_Stat := fun path => on_base (os_Stat path);
  os_ReadFile := fun path => on_base (os_ReadFile path);
  os_Create := fun path w => set_base (os_Create path (base w)) w;
  png_Encode := fun path img => on_base (png_Encode path img);
  file_Close := fun path w => set_base (file_Close path (base w)) w;
|}.

Definition no_device : error := errors_New "no webauthn devices found".
Definition no_configuration : error := errors_New "no TOTP configuration for user".
Definition no_file : error := errors_New "no such file or directory".

Definition devices_of (username : string) (w : World) : list WebauthnDevice :=
  filter (fun d => wd_Username d = username) (Ref.devices (base w)).

Definition load_devices (username : string) (w : World)
    : (list WebauthnDevice * option error) * World :=
  match devices_of username w with
  | [] => (([], Some no_device), w)
  | ds => ((ds, None), w)
  end.

Definition delete_device (kid : string) (w : World) : result unit * World :=
  let kept := filter (fun d => wd_KID d ≠ kid) (Ref.devices (base w)) in
  if bool_decide (length kept = length (Ref.devices (base w))) then (Failure no_device, w)
  else (Success tt, set_base (set_devices kept (base w)) w).

(** An empty description stands for every device of the user. *)
Definition delete_devices_of (username description : string) (w : World)
    : result unit * World :=
  let kept :=
    filter (fun d => wd_Username d ≠ username \/
                     (description ≠ "" /\ wd_Description d ≠ description))
           (Ref.devices (base w)) in
  if bool_decide (length kept = length (Ref.devices (base w))) then (Failure no_device, w)
  else (Success tt, set_base (set_devices kept (base w)) w).

Definition load_configuration (username : string) (w : World)
    : result TOTPConfiguration * World :=
  match list_find (fun c => tc_Username c = username) (Ref.configurations (base w)) with
  | Some (_, c) => (Success c, w)
  | None => (Failure no_configuration, w)
  end.

Definition without_configuration (username : string) (w : World) : list TOTPConfiguration :=
  filter (fun c => tc_Username c ≠ username) (Ref.configurations (base w)).

Definition save_configuration (c : TOTPConfiguration) (w : World) : result unit * World :=
  (Success tt,
   set_base (set_configurations (without_configuration (tc_Username c) w ++ [c])%list (base w)) w).

Definition delete_configuration (username : string) (w : World) : result unit * World :=
  (Success tt, set_base (set_configurations (without_configuration username w) (base w)) w).

Definition generate (username algorithm secret : string) (digits period size : Z) (w : World)
    : result TOTPConfiguration * World :=
  (Success {| tc_Issuer := "authelia.com"; tc_Username := username; tc_Algorithm := algorithm;
              tc_Digits := digits; tc_Period := period; tc_Secret := secret |}, w).

Definition write_file (path data : string) (w : World) : result unit * World :=
  (Success tt, set_base (Ref.set_files ((path, data) :: Ref.files (base w)) (base w)) w).

#[global] Instance xmachine : XMachine World := {|
  ctx_LoadTrustedCertificates := fun w => (certificates w, w);
  ctx_setStorageProvider := set_provider;
  validator_Errors := validation;
  validator_ValidateStorage := fun w => set_validation (validation w ++ storage_problems w)%list w;
  validator_ValidateTOTP := fun w => set_validation (validation w ++ totp_problems w)%list w;
  provider_SchemaEncryptionCheckKey := fun _ w => (key_check w, w);
  provider_LoadWebauthnDevicesByUsername := load_devices;
  provider_DeleteWebauthnDevice := delete_device;
  provider_DeleteWebauthnDeviceByUsername := delete_devices_of;
  provider_LoadTOTPConfiguration := load_configuration;
  provider_SaveTOTPConfiguration := save_configuration;
  provider_DeleteTOTPConfiguration := delete_configuration;
  provider_SchemaMigrationHistory := fun w => (Success (history w), w);
  provider_SchemaMigrationsUp := fun _ w => (pending_up w, w);
  provider_SchemaMigrationsDown := fun _ w => (pending_down w, w);
  provider_SchemaVersion_both :=
    fun w => ((Ref.schema_version (base w), schema_state w), w);
  provider_SchemaTables := fun w => (Success (tables w), w);
  provider_SchemaLatestVersion := fun w => (Success (Ref.schema_latest (base w)), w);
  totp_GenerateCustom := generate;
  os_CreateFile := fun path => write_file path "";
  os_WriteFile := write_file;
|}.

(** [yaml.Marshal], on the documents of the reference decoder. *)
Definition marshal (export : UserOpaqueIdentifiersExport) : result string :=
  match list_find (fun d => d.2 = export) Ref.documents with
  | Some (_, d) => Success d.1
  | None => Failure (errors_New "yaml: cannot marshal")
  end.

Definition delete_options (fs : FlagSet) (args : list string)
    : result (bool * bool * string * string * string) :=
  match GetBool fs "all", GetString fs "kid", GetString fs "description" with
  | Success all, Success kid, Success description =>
    Success (all, Changed fs "kid", description, kid, default "" (args !! 0%nat))
  | Failure e, _, _ | _, Failure e, _ | _, _, Failure e => Failure e
  end.

Definition generate_options (fs : FlagSet) : result (bool * string * string) :=
  match GetBool fs "force", GetString fs "path", GetString fs "secret" with
  | Success force, Success filename, Success secret => Success (force, filename, secret)
  | Failure e, _, _ | _, Failure e, _ | _, _, Failure e => Failure e
  end.

Definition all_valid (r : EncryptionValidationResult) : bool :=
  forallb (fun t => tr_Invalid t.2 =? 0) (map_to_list (Tables r)).

#[global] Instance consts : XConsts := {|
  ErrNoWebauthnDevice := no_device;
  ErrNoTOTPConfiguration := no_configuration;
  ErrNoAvailableMigrations := errors_New "no available migrations";
  ErrMigrateCurrentVersionSameAsTarget :=
    errors_New "current version is same as migration target, no action being taken";
  ErrSchemaEncryptionVersionUnsupported :=
    errors_New "schema version doesn't support encryption";
  ErrSchemaEncryptionInvalidKey := errors_New "the configured encryption key is not valid";
  cmdFlagNameVerbose := "verbose";
  storageWebauthnDeleteRunEOptsFromFlags := delete_options;
  storageTOTPGenerateRunEOptsFromFlags := generate_options;
  os_IsNotExist := fun e => bool_decide (e = no_file);
  yaml_Marshal := marshal;
  time_Format := fun t => "1970-01-01 00:00:" +:+ pretty t +:+ " +0000";
  result_Success := all_valid;
  table_ResultDescriptor := fun t => if tr_Invalid t =? 0 then "SUCCESS" else "FAILURE";
  config_TOTP := {| to_Algorithm := "SHA1"; to_Digits := 6; to_Period := 30;
                    to_SecretSize := 32 |};
  range_order := fun m => reverse (map_to_list m).*1;
  invalid := "invalid";
  SchemaVersionToString := fun v => pretty v;
|}.

(** A state around a store of the first part: certificates loaded without
    remarks, a valid configuration, a valid key, no history. *)
Definition around (b : Ref.World) : World :=
  {| base := b; certificates := ([], []); provider_set := false;
     validation := []; storage_problems := []; totp_problems := [];
     key_check := Success {| Tables := ∅ |}; history := [];
     pending_up := ([], Some (errors_New "no available migrations"));
     pending_down := ([], None); schema_state := None; tables := [] |}.

End XRef.

(** ** Reference inputs of the other commands *)
Module XInputs.
Import Ref XRef.

Definition expired : error := errors_New "certificate has expired".
Definition unreadable : error := errors_New "could not read the certificate".
Definition malformed : error := errors_New "could not parse the certificate".

(** A state in which loading the certificates gave these warnings and errors. *)
Definition with_certificates (warns errs : list error) : World :=
  {| base := Ref.empty; certificates := (warns, errs); provider_set := false;
     validation := []; storage_problems := []; totp_problems := [];
     key_check := Success {| Tables := ∅ |}; history := [];
     pending_up := ([], None); pending_down := ([], None);
     schema_state := None; tables := [] |}.

Definition no_secret : error := errors_New "storage: option 'encryption_key' is required".
Definition short_secret : error :=
  errors_New "storage: option 'encryption_key' must be 20 characters or longer".
Definition bad_period : error := errors_New "totp: option 'period' must be 15 or more".

(** A state whose validator holds [held] and whose validations of the
    storage and of the TOTP configuration find [storage] and [totp]. *)
Definition with_validation (held storage totp : list error) : World :=
  {| base := Ref.empty; certificates := ([], []); provider_set := false;
     validation := held; storage_problems := storage; totp_problems := totp;
     key_check := Success {| Tables := ∅ |}; history := [];
     pending_up := ([], None); pending_down := ([], None);
     schema_state := None; tables := [] |}.

(** [authelia storage encryption check --verbose] *)
Definition verbose : FlagSet := {[ "verbose" := flag (FBool true) true ]}.

(** The result of a key check over three tables, one of them with rows
    that the key does not decrypt. *)
Definition checked : EncryptionValidationResult :=
  {| Tables := {[ "webauthn_devices" := {| tr_Invalid := 0; tr_Total := 4 |};
                  "totp_configurations" := {| tr_Invalid := 2; tr_Total := 5 |};
                  "oauth2_sessions" := {| tr_Invalid := 0; tr_Total := 0 |} ]} |}.

Definition with_check (r : result EncryptionValidationResult) : World :=
  {| base := Ref.empty; certificates := ([], []); provider_set := false;
     validation := []; storage_problems := []; totp_problems := [];
     key_check := r; history := [];
     pending_up := ([], None); pending_down := ([], None);
     schema_state := None; tables := ["totp_configurations"; "webauthn_devices"] |}.

(** Two devices of john and one of harry. *)
Definition key (n : Z) (username description : string) : WebauthnDevice :=
  {| wd_ID := n; wd_KID := "kid" +:+ pretty n; wd_Description := description;
     wd_Username := username |}.

Definition keys : World :=
  around (set_devices [key 1 "john" "yubikey"; key 2 "harry" "phone"; key 3 "john" "laptop"]
                      Ref.empty).

(** [authelia storage user totp generate <username> --path ... --force ...] *)
Definition totp_generate (force : bool) (path : string) : FlagSet :=
  {[ "force" := flag (FBool force) force;
     "path" := flag (FString path) (negb (bool_decide (path = "")));
     "secret" := flag (FString "") false ]}.

(** A store that holds ten TOTP configurations, of user1 to user10. *)
Definition configured : World := around (Inputs.with_configurations 10).

(** The same, with a file at the path qr.png. *)
Definition configured_with_image : World :=
  around (set_files [("qr.png", "png")] (Inputs.with_configurations 10)).

Definition migration (n : Z) : Migration :=
  {| m_ID := n; m_Applied := n; m_Before := n - 1; m_After := n; m_Version := "v4.38.0" |}.

(** A store at version [v] with the history [h]. *)
Definition with_history (v : Z) (h : list Migration) : World :=
  {| base := set_version v Ref.empty; certificates := ([], []); provider_set := false;
     validation := []; storage_problems := []; totp_problems := [];
     key_check := Success {| Tables := ∅ |}; history := h;
     pending_up := ([], None); pending_down := ([], None);
     schema_state := None; tables := [] |}.

(** [authelia storage user identifiers export --file ids.yml] on a store
    that holds the identifiers of john and of harry. *)
Definition identified : World := around (set_identifiers [john; harry] Ref.empty).

(** A store whose schema is in an unknown state. *)
Definition unknown_state : World :=
  {| base := Ref.empty; certificates := ([], []); provider_set := false;
     validation := []; storage_problems := []; totp_problems := [];
     key_check := Failure (errors_New "schema version doesn't support encryption");
     history := [];
     pending_up := ([], None); pending_down := ([], None);
     schema_state := Some (errors_New "unknown schema state");
     tables := ["totp_configurations"; "webauthn_devices"] |}.

(** [authelia storage user webauthn delete --kid ...] *)
Definition delete_kid (kid : string) : FlagSet :=
  {[ "all" := flag (FBool false) false;
     "kid" := flag (FString kid) true;
     "description" := flag (FString "") false ]}.

(** A store for which there is nothing to migrate up to. *)
Definition up_to_date : World :=
  {| base := Ref.empty; certificates := ([], []); provider_set := false;
     validation := []; storage_problems := []; totp_problems := [];
     key_check := Success {| Tables := ∅ |}; history := [];
     pending_up := ([], Some (errors_New "no available migrations"));
     pending_down := ([ {| sm_Version := 6; sm_Name := "OneTimeCode" |};
                        {| sm_Version := 5; sm_Name := "WebAuthn" |} ], None);
     schema_state := None; tables := [] |}.

End XInputs.

(** * Properties *)

(** Symbolic execution: unfolds the monad and the operations down to the
    transitions of the machine. *)
Ltac unfold_monad :=
  cbv beta iota zeta delta
    [run bind ret throw panic propagate wrapErr call defer Close attempt out_of_fuel
     Printf CheckSchemaVersion SchemaVersion SchemaMigrate SchemaEncryptionChangeKey
     LoadWebauthnDevices LoadTOTPConfigurations LoadUserOpaqueIdentifiers
     SaveUserOpaqueIdentifier termReadPasswordWithPrompt uuid_NewRandom
     termReadConfirmation index failure_of fst snd world trace].

Ltac unfold_monad_in H :=
  cbv beta iota zeta delta
    [run bind ret throw panic propagate wrapErr call defer Close attempt out_of_fuel
     Printf CheckSchemaVersion SchemaVersion SchemaMigrate SchemaEncryptionChangeKey
     LoadWebauthnDevices LoadTOTPConfigurations LoadUserOpaqueIdentifiers
     SaveUserOpaqueIdentifier termReadPasswordWithPrompt uuid_NewRandom
     termReadConfirmation index failure_of fst snd world trace] in H.

(** Closes [is_Err (Err e)]. *)
Ltac is_error := eexists; reflexivity.

(** Case analysis of a membership in an explicit list. *)
Ltac elem_cases H :=
  simpl in H; repeat rewrite elem_of_cons in H; rewrite elem_of_nil in H;
  intuition (try discriminate).

(** ** Schema migrations *)

Section Migration.
Context `{Consts} {W : Type} `{Machine W}.

(** C2: a down migration whose confirmation read does not deliver the exact
    literal DESTROY (no terminal, or another line) returns an error, never
    invokes [SchemaMigrate], and leaves the machine with nothing but the
    confirmation read and the deferred [Close]; [SchemaMigrate] appears in
    the trace only after a confirmation read that delivered DESTROY. *)
Theorem down_migration_gated_by_confirmation
    (cmd : FlagSet) (args : list string) (w : W) :
  let r := run (NewStorageMigrationRunE false cmd args) w in
  ((terminal_ReadLine confirmation_prompt w).1 ≠ Success "DESTROY" ->
   is_Err r.1 /\ migrations (trace r.2) = [] /\
   (trace r.2 = [CallClose] /\ world r.2 = provider_Close w \/
    trace r.2 = [TermReadLine confirmation_prompt; CallClose] /\
    world r.2 = provider_Close (terminal_ReadLine confirmation_prompt w).2)) /\
  (forall up target err, CallSchemaMigrate up target err ∈ trace r.2 ->
   (terminal_ReadLine confirmation_prompt w).1 = Success "DESTROY" /\
   GetInt cmd cmdFlagNameTarget = Success target /\
   trace r.2 = [TermReadLine confirmation_prompt;
                CallSchemaMigrate false target err; CallClose]).
Proof.
  intros r; subst r.
  unfold NewStorageMigrationRunE. fold confirmation_prompt. unfold_monad.
  destruct (GetInt cmd cmdFlagNameTarget) as [t|e].
  2:{ split; [intros _; split; [is_error|split; [done|by left]]|].
      intros up target err Hin. by elem_cases Hin. }
  destruct (Changed cmd cmdFlagNameTarget); simpl.
  2:{ split; [intros _; split; [is_error|split; [done|by left]]|].
      intros up target err Hin. by elem_cases Hin. }
  destruct (terminal_ReadLine confirmation_prompt w) as [[line|e] w'] eqn:Hrd; simpl.
  2:{ split; [intros _; split; [is_error|split; [done|by right]]|].
      intros up target err Hin. by elem_cases Hin. }
  case_bool_decide as Hl; simpl.
  - subst line. split; [done|].
    intros up target err Hin.
    destruct (provider_SchemaMigrate false t w') as [[[]|e] w'']; simpl in *;
      elem_cases Hin; simplify_eq; done.
  - split; [intros _; split; [is_error|split; [done|by right]]|].
    intros up target err Hin. by elem_cases Hin.
Qed.

(** C10: a down migration without an explicit target flag returns an error
    with nothing invoked but the deferred [Close]: no confirmation is read
    and no migration is applied.  Only the up direction falls back to the
    latest version. *)
Theorem down_migration_requires_target
    (cmd : FlagSet) (args : list string) (w : W) :
  Changed cmd cmdFlagNameTarget = false ->
  let down := run (NewStorageMigrationRunE false cmd args) w in
  let up := run (NewStorageMigrationRunE true cmd args) w in
  is_Err down.1 /\ trace down.2 = [CallClose] /\ world down.2 = provider_Close w /\
  forall target, GetInt cmd cmdFlagNameTarget = Success target ->
    down.1 = Err (errors_New "you must set a target version") /\
    migrations (trace up.2) = [(true, SchemaLatest)].
Proof.
  intros Hc down up; subst down up.
  unfold NewStorageMigrationRunE. unfold_monad. rewrite Hc.
  destruct (GetInt cmd cmdFlagNameTarget) as [t|e]; simpl.
  - split; [is_error|]. split; [done|]. split; [done|].
    intros target _. split; [done|].
    by destruct (provider_SchemaMigrate true SchemaLatest w) as [[[]|e] w'].
  - split; [is_error|]. split; [done|]. split; [done|]. by intros target.
Qed.

End Migration.

(** On the reference environment: typing [destroy] aborts the migration to
    version 3, typing [DESTROY] applies it. *)
Lemma down_migration_gated_by_confirmation_witness :
  let mistyped := Ref.set_stdin ["destroy"] Ref.empty in
  let typed := Ref.set_stdin ["DESTROY"] Ref.empty in
  (is_Err (run (NewStorageMigrationRunE false Inputs.migrate_down_3 []) mistyped).1 /\
   migrations (trace (run (NewStorageMigrationRunE false Inputs.migrate_down_3 []) mistyped).2) = []) /\
  trace (run (NewStorageMigrationRunE false Inputs.migrate_down_3 []) typed).2 =
    [TermReadLine confirmation_prompt; CallSchemaMigrate false 3 None; CallClose].
Proof.
  intros mistyped typed. split.
  - destruct (down_migration_gated_by_confirmation Inputs.migrate_down_3 [] mistyped)
      as [Hno _].
    destruct Hno as (He & Hm & _); [vm_compute; discriminate|]. by split.
  - destruct (down_migration_gated_by_confirmation Inputs.migrate_down_3 [] typed)
      as [_ Hyes].
    apply (Hyes false 3 None). apply list_elem_of_lookup_2 with 1%nat.
    vm_compute. reflexivity.
Defined.

(** On the reference environment: without [--target] nothing is read from
    the terminal, even when the operator is ready to confirm. *)
Lemma down_migration_requires_target_witness :
  is_Err (run (NewStorageMigrationRunE false Inputs.migrate_no_target [])
              (Ref.set_stdin ["DESTROY"] Ref.empty)).1 /\
  trace (run (NewStorageMigrationRunE false Inputs.migrate_no_target [])
             (Ref.set_stdin ["DESTROY"] Ref.empty)).2 = [CallClose].
Proof.
  destruct (down_migration_requires_target Inputs.migrate_no_target []
              (Ref.set_stdin ["DESTROY"] Ref.empty)) as (He & Ht & _).
  - vm_compute. reflexivity.
  - by split.
Defined.

(** ** Encryption key rotation *)

(** Closes the goals of a run that returned an error with nothing invoked. *)
Ltac aborted :=
  repeat match goal with
         | |- _ /\ _ => split
         | |- is_Err _ => is_error
         | |- forall _, _ => intro
         | Hin : _ ∈ _ |- _ => by elem_cases Hin
         | |- _ => done
         end.

Section ChangeKey.
Context `{Consts} {W : Type} `{Machine W}.

(** C4: the key change returns an error and requests no rotation when the
    schema version read from the provider is 0 or lower, and when the new
    key (from the flag or the terminal) is empty or has fewer than 20
    bytes, which is what Go's [len] counts; a rotation is requested only
    when the schema version check passed, the version is at least 1 and the
    key has at least 20 bytes.  The bound is not on the characters of the
    key: a key of fewer than 20 characters in 20 bytes or more is rotated
    to. *)
Theorem change_key_validated (cmd : FlagSet) (args : list string) (w : W) :
  let r := run (StorageSchemaEncryptionChangeKeyRunE cmd args) w in
  let w1 := (ctx_CheckSchemaVersion w).2 in
  let version := (provider_SchemaVersion w1).1 in
  let key := (run (new_encryption_key cmd) (provider_SchemaVersion w1).2).1 in
  (forall v, version = Success v -> v <= 0 ->
     is_Err r.1 /\ rotations (trace r.2) = []) /\
  (forall k, key = Ok k -> k = "" \/ strlen k < 20 ->
     is_Err r.1 /\ rotations (trace r.2) = []) /\
  (forall k err, CallSchemaEncryptionChangeKey k err ∈ trace r.2 ->
     (ctx_CheckSchemaVersion w).1 = Success tt /\
     (exists v, version = Success v /\ 1 <= v) /\
     key = Ok k /\ k ≠ "" /\ 20 <= strlen k).
Proof.
  intros r w1 version key; subst r w1 version key.
  unfold StorageSchemaEncryptionChangeKeyRunE, new_encryption_key. unfold_monad.
  destruct (ctx_CheckSchemaVersion w) as [[[]|e0] w1]; simpl.
  2:{ aborted. }
  destruct (provider_SchemaVersion w1) as [[v|e1] w2]; simpl.
  2:{ aborted. }
  destruct (Z.leb_spec v 0) as [Hv|Hv]; simpl.
  { aborted. }
  split; [intros v' [= <-] ?; lia|].
  assert (Hver : exists v0, Success v = Success v0 /\ 1 <= v0) by (exists v; split; [done|lia]).
  destruct (Changed cmd cmdFlagNameNewEncryptionKey); simpl.
  - destruct (GetString cmd cmdFlagNameNewEncryptionKey) as [k0|e2]; simpl.
    2:{ aborted. }
    case_bool_decide as Hk0; simpl.
    + destruct (terminal_ReadPassword _ _ w2) as [[k1|e3] w3]; simpl.
      2:{ aborted. }
      case_bool_decide as Hk1; simpl.
      { aborted. }
      destruct (Z.ltb_spec (strlen k1) 20) as [Hl|Hl]; simpl.
      { aborted. }
      split; [intros k [= <-] [?|?]; [done|lia]|].
      intros k err Hin.
      destruct (provider_SchemaEncryptionChangeKey k1 w3) as [[[]|e4] w4];
        elem_cases Hin; simplify_eq; done.
    + case_bool_decide as Hk1; simpl; [done|].
      destruct (Z.ltb_spec (strlen k0) 20) as [Hl|Hl]; simpl.
      { aborted. }
      split; [intros k [= <-] [?|?]; [done|lia]|].
      intros k err Hin.
      destruct (provider_SchemaEncryptionChangeKey k0 w2) as [[[]|e4] w4];
        elem_cases Hin; simplify_eq; done.
  - destruct (terminal_ReadPassword _ _ w2) as [[k1|e3] w3]; simpl.
    2:{ aborted. }
    case_bool_decide as Hk1; simpl.
    { aborted. }
    destruct (Z.ltb_spec (strlen k1) 20) as [Hl|Hl]; simpl.
    { aborted. }
    split; [intros k [= <-] [?|?]; [done|lia]|].
    intros k err Hin.
    destruct (provider_SchemaEncryptionChangeKey k1 w3) as [[[]|e4] w4];
      elem_cases Hin; simplify_eq; done.
Qed.

End ChangeKey.

(** On the reference environment: a schema at version 0, a key of 19
    characters and an empty key typed at the prompt are refused; a key of
    28 characters is rotated to. *)
Lemma change_key_validated_witness :
  (is_Err (run (StorageSchemaEncryptionChangeKeyRunE (Inputs.change_key Inputs.long_key) [])
               Inputs.version_zero).1 /\
   rotations (trace (run (StorageSchemaEncryptionChangeKeyRunE
                            (Inputs.change_key Inputs.long_key) []) Inputs.version_zero).2) = []) /\
  (is_Err (run (StorageSchemaEncryptionChangeKeyRunE (Inputs.change_key "nineteen characters") [])
               Ref.empty).1 /\
   rotations (trace (run (StorageSchemaEncryptionChangeKeyRunE
                            (Inputs.change_key "nineteen characters") []) Ref.empty).2) = []) /\
  (is_Err (run (StorageSchemaEncryptionChangeKeyRunE Inputs.change_key_prompted [])
               (Ref.set_stdin [""] Ref.empty)).1 /\
   rotations (trace (run (StorageSchemaEncryptionChangeKeyRunE Inputs.change_key_prompted [])
                         (Ref.set_stdin [""] Ref.empty)).2) = []) /\
  20 <= strlen Inputs.long_key.
Proof.
  split; [|split; [|split]].
  - destruct (change_key_validated (Inputs.change_key Inputs.long_key) [] Inputs.version_zero)
      as (Hv & _ & _).
    apply (Hv 0); [vm_compute; reflexivity|lia].
  - destruct (change_key_validated (Inputs.change_key "nineteen characters") [] Ref.empty)
      as (_ & Hk & _).
    apply (Hk "nineteen characters"); [vm_compute; reflexivity|right; vm_compute; reflexivity].
  - destruct (change_key_validated Inputs.change_key_prompted [] (Ref.set_stdin [""] Ref.empty))
      as (_ & Hk & _).
    apply (Hk ""); [vm_compute; reflexivity|by left].
  - destruct (change_key_validated (Inputs.change_key Inputs.long_key) [] Ref.empty)
      as (_ & _ & Hr).
    apply (Hr Inputs.long_key None). apply list_elem_of_lookup_2 with 2%nat.
    vm_compute. reflexivity.
Defined.

(** A character is at least one byte. *)
Lemma characters_le_strlen (s : string) : 0 <= characters s <= strlen s.
Proof.
  unfold strlen. induction s as [|c s IH]; [done|].
  cbn [characters String.length]. destruct (is_continuation c); lia.
Qed.

(** The bound of the key is on its bytes, not on its characters: on the
    reference environment, a key of ten two-byte characters passes the
    length check and is rotated to. *)
Lemma change_key_characters_counterexample :
  let key := Inputs.accented_key in
  let r := run (StorageSchemaEncryptionChangeKeyRunE (Inputs.change_key key) []) Ref.empty in
  characters key = 10 /\ strlen key = 20 /\
  r.1 = Ok tt /\ rotations (trace r.2) = [key] /\ Ref.encryption_key (world r.2) = key.
Proof. vm_compute. repeat split. Qed.

(** ** Bulk generation of opaque identifiers: validation *)

Lemma IsStringSliceContainsAll_true (needles haystack : list string) :
  IsStringSliceContainsAll needles haystack = true <->
  forall n, n ∈ needles -> n ∈ haystack.
Proof.
  unfold IsStringSliceContainsAll, IsStringInSlice.
  rewrite forallb_forall. split.
  - intros Hall n Hn. apply list_elem_of_In in Hn. apply Hall in Hn.
    by apply bool_decide_eq_true in Hn.
  - intros Hall n Hn. apply bool_decide_eq_true, Hall. by apply list_elem_of_In.
Qed.

Lemma IsStringSliceContainsAll_false (needles haystack : list string) (s : string) :
  s ∈ needles -> s ∉ haystack -> IsStringSliceContainsAll needles haystack = false.
Proof.
  intros Hin Hout. apply not_true_is_false. rewrite IsStringSliceContainsAll_true.
  intros Hall. by apply Hout, Hall.
Qed.

Section GenerateValidation.
Context `{Consts} {W : Type} `{Machine W}.

(** C9: a bulk generation with an empty username set returns an error, and
    nothing is invoked but the schema version check, the load of the existing
    identifiers and the deferred [Close]: no identifier is generated or
    saved, whatever the services and sectors are. *)
Theorem generate_requires_users
    (cmd : FlagSet) (args : list string) (w : W) (services sectors : list string) :
  flagsGetUserIdentifiersGenerateOptions cmd = Success ([], services, sectors) ->
  let r := run (StorageUserIdentifiersGenerateRunE cmd args) w in
  is_Err r.1 /\ saves (trace r.2) = [] /\
  (trace r.2 = [CallCheckSchemaVersion; CallClose] \/
   trace r.2 = [CallCheckSchemaVersion; CallLoadUserOpaqueIdentifiers; CallClose]) /\
  ((ctx_CheckSchemaVersion w).1 = Success tt ->
   (provider_LoadUserOpaqueIdentifiers (ctx_CheckSchemaVersion w).2).1.2 = None ->
   r.1 = Err (errors_New "must supply at least one user")).
Proof.
  intros Hopt r; subst r.
  unfold StorageUserIdentifiersGenerateRunE. unfold_monad. rewrite Hopt.
  destruct (ctx_CheckSchemaVersion w) as [[[]|e0] w1]; simpl.
  2:{ split; [is_error|]. split; [done|]. split; [by left|done]. }
  destruct (provider_LoadUserOpaqueIdentifiers w1) as [[ids [e1|]] w2]; simpl.
  - destruct (errors_Is e1 sql_ErrNoRows); simpl;
      (split; [is_error|]; split; [done|]; split; [by right|done]).
  - split; [is_error|]. split; [done|]. split; [by right|done].
Qed.

(** C6: a bulk generation in which some requested service name is not one of
    the valid service identifiers returns an error, and nothing is invoked
    but the schema version check, the load of the existing identifiers and the
    deferred [Close]: no identifier is generated or saved. *)
Theorem generate_rejects_invalid_service
    (cmd : FlagSet) (args : list string) (w : W)
    (users services sectors : list string) (service : string) :
  flagsGetUserIdentifiersGenerateOptions cmd = Success (users, services, sectors) ->
  service ∈ services -> service ∉ validIdentifierServices ->
  let r := run (StorageUserIdentifiersGenerateRunE cmd args) w in
  is_Err r.1 /\ saves (trace r.2) = [] /\
  (trace r.2 = [CallCheckSchemaVersion; CallClose] \/
   trace r.2 = [CallCheckSchemaVersion; CallLoadUserOpaqueIdentifiers; CallClose]).
Proof.
  intros Hopt Hin Hout r; subst r.
  unfold StorageUserIdentifiersGenerateRunE. unfold_monad. rewrite Hopt.
  rewrite (IsStringSliceContainsAll_false services validIdentifierServices service Hin Hout).
  destruct (ctx_CheckSchemaVersion w) as [[[]|e0] w1]; simpl.
  2:{ split; [is_error|]. split; [done|]. by left. }
  destruct (provider_LoadUserOpaqueIdentifiers w1) as [[ids [e1|]] w2]; simpl.
  - destruct (errors_Is e1 sql_ErrNoRows); simpl.
    + destruct (len users =? 0); simpl; (split; [is_error|]; split; [done|]; by right).
    + split; [is_error|]. split; [done|]. by right.
  - destruct (len users =? 0); simpl; (split; [is_error|]; split; [done|]; by right).
Qed.

End GenerateValidation.

(** On the reference environment: no user, one valid service, one sector. *)
Lemma generate_requires_users_witness :
  is_Err (run (StorageUserIdentifiersGenerateRunE (Inputs.generate [] ["openid"] ["example.com"]) [])
              Ref.empty).1 /\
  saves (trace (run (StorageUserIdentifiersGenerateRunE
                       (Inputs.generate [] ["openid"] ["example.com"]) []) Ref.empty).2) = [].
Proof.
  destruct (generate_requires_users (Inputs.generate [] ["openid"] ["example.com"]) []
              Ref.empty ["openid"] ["example.com"]) as (He & Hs & _).
  - vm_compute. reflexivity.
  - by split.
Defined.

(** On the reference environment: the valid service that precedes the
    invalid one is not processed either. *)
Lemma generate_rejects_invalid_service_witness :
  is_Err (run (StorageUserIdentifiersGenerateRunE
                 (Inputs.generate ["john"] ["openid"; "saml"] []) [])
              (Ref.set_entropy [Identifier Ref.john] Ref.empty)).1 /\
  saves (trace (run (StorageUserIdentifiersGenerateRunE
                       (Inputs.generate ["john"] ["openid"; "saml"] []) [])
                    (Ref.set_entropy [Identifier Ref.john] Ref.empty)).2) = [].
Proof.
  destruct (generate_rejects_invalid_service
              (Inputs.generate ["john"] ["openid"; "saml"] []) []
              (Ref.set_entropy [Identifier Ref.john] Ref.empty)
              ["john"] ["openid"; "saml"] [] "saml") as (He & Hs & _).
  - vm_compute. reflexivity.
  - apply list_elem_of_lookup_2 with 1%nat. reflexivity.
  - intros Hin. by elem_cases Hin.
  - by split.
Defined.

(** ** Adding a single opaque identifier *)

Lemma Version_set_version4 (u : UUID) : Version (set_version4 u) = 4.
Proof.
  unfold Version, set_version4.
  rewrite vlookup_insert_ne by done. rewrite vlookup_insert.
  rewrite Z.shiftr_lor, Z.shiftr_land. change (Z.shiftr 15 4) with 0.
  by rewrite Z.land_0_r.
Qed.

Section Add.
Context `{Consts} {W : Type} `{Machine W}.

(** The service stage touches nothing and either yields a service or an
    error. *)
Lemma add_service_cases (cmd : FlagSet) :
  (exists service, forall s : St W, add_service cmd s = (Ok service, s)) \/
  (exists e, forall s : St W, add_service cmd s = (Err e, s)).
Proof.
  unfold add_service. unfold_monad.
  destruct (GetString cmd cmdFlagNameService) as [service|e]; [|right; by eexists].
  case_bool_decide; [left; by eexists|].
  destruct (IsStringInSlice service validIdentifierServices); simpl;
    [left|right]; by eexists.
Qed.

(** C5: when the identifier flag is given, a string that does not parse as a
    UUID, and a string that parses as a UUID of a version other than 4, make
    the command end without success and with nothing invoked at all (no
    save, the machine untouched); with a username argument, this end is an
    error, and when the service and sector are valid it is the parse error,
    respectively the error that names the offending version.  Every
    identifier that is saved is the parsed flag, of version 4, or, when the
    flag is not given, a freshly generated UUID, of version 4. *)
Theorem add_validates_identifier (cmd : FlagSet) (args : list string) (w : W) :
  let r := run (StorageUserIdentifiersAddRunE cmd args) w in
  let fields_valid e :=
    forall service sector username,
      (run (add_service cmd) w).1 = Ok service ->
      GetString cmd cmdFlagNameSector = Success sector ->
      args !! 0%nat = Some username ->
      r.1 = Err e in
  (forall identifierStr,
     Changed cmd cmdFlagNameIdentifier = true ->
     GetString cmd cmdFlagNameIdentifier = Success identifierStr ->
     (forall e, uuid_Parse identifierStr = Failure e ->
        r.1 ≠ Ok tt /\ r.2 = mkSt w [] /\ (args ≠ [] -> is_Err r.1) /\
        fields_valid
          (fmt_Errorf_w
             ("the identifier provided '" +:+ identifierStr +:+
              "' is invalid as it must be a version 4 UUID but parsing it had an error: ")
             e "")) /\
     (forall u, uuid_Parse identifierStr = Success u -> Version u ≠ 4 ->
        r.1 ≠ Ok tt /\ r.2 = mkSt w [] /\ (args ≠ [] -> is_Err r.1) /\
        fields_valid
          (errors_New ("the identifier providerd '" +:+ identifierStr +:+
                       "' is a version " +:+ pretty (Version u) +:+
                       " UUID but only version 4 UUID's accepted as identifiers"))) /\
     (forall id err, CallSaveUserOpaqueIdentifier id err ∈ trace r.2 ->
        uuid_Parse identifierStr = Success (Identifier id) /\
        Version (Identifier id) = 4)) /\
  (Changed cmd cmdFlagNameIdentifier = false ->
   forall id err, CallSaveUserOpaqueIdentifier id err ∈ trace r.2 ->
     exists u, (rand_Read w).1 = Success u /\ Identifier id = set_version4 u /\
               Version (Identifier id) = 4).
Proof.
  intros r fields_valid; subst fields_valid.
  assert (Hr : r = run (StorageUserIdentifiersAddRunE cmd args) w) by done.
  clearbody r. unfold StorageUserIdentifiersAddRunE, run, bind in Hr.
  unfold run.
  destruct (add_service_cases cmd) as [[service Hs]|[e Hs]]; rewrite !Hs in *.
  2:{ subst r. split; [intros identifierStr _ _|intros _]; aborted. }
  unfold propagate at 1 in Hr.
  destruct (GetString cmd cmdFlagNameSector) as [sector|e]; unfold_monad_in Hr.
  2:{ subst r. split; [intros identifierStr _ _|intros _]; aborted. }
  destruct args as [|username args]; simpl in Hr.
  { subst r. split; [intros identifierStr _ _|intros _]; aborted. }
  unfold add_identifier in Hr.
  destruct (Changed cmd cmdFlagNameIdentifier); unfold_monad_in Hr.
  - split; [|done]. intros identifierStr _ Hflag. rewrite Hflag in Hr.
    destruct (uuid_Parse identifierStr) as [u|e].
    2:{ subst r. split; [intros e' [= <-]|split; [done|]]; aborted. }
    split; [done|].
    destruct (Z.eqb_spec (Version u) 4) as [Hv|Hv]; simpl in Hr.
    2:{ subst r. split; [intros u' [= <-] _|]; aborted. }
    split; [intros u' [= <-] ?; done|].
    intros id err Hin.
    destruct (ctx_CheckSchemaVersion w) as [[[]|e0] w1]; subst r.
    2:{ by elem_cases Hin. }
    destruct (provider_SaveUserOpaqueIdentifier _ w1) as [[[]|e1] w2];
      elem_cases Hin; simplify_eq; done.
  - split; [done|]. intros _ id err Hin.
    destruct (rand_Read w) as [[u|e] w0]; subst r.
    2:{ by elem_cases Hin. }
    destruct (ctx_CheckSchemaVersion w0) as [[[]|e0] w1].
    2:{ by elem_cases Hin. }
    exists u. split; [done|].
    destruct (provider_SaveUserOpaqueIdentifier _ w1) as [[[]|e1] w2];
      elem_cases Hin; simplify_eq; first [done|apply Version_set_version4].
Qed.

End Add.

Lemma saves_app (t1 t2 : list Event) : saves (t1 ++ t2) = (saves t1 ++ saves t2)%list.
Proof. apply omap_app. Qed.

Lemma elem_of_saves (t : list Event) (id : UserOpaqueIdentifier) (err : option error) :
  CallSaveUserOpaqueIdentifier id err ∈ t <-> (id, err) ∈ saves t.
Proof.
  unfold saves. rewrite list_elem_of_omap. split.
  - intros Hin. by exists (CallSaveUserOpaqueIdentifier id err).
  - intros (ev & Hin & Hev). destruct ev; simplify_eq. done.
Qed.

Section AddService.
Context `{Consts} {W : Type} `{Machine W}.

(** The identifier stage saves nothing. *)
Lemma add_identifier_saves (cmd : FlagSet) (s s' : St W) (o : Outcome UUID) :
  add_identifier cmd s = (o, s') -> saves (trace s') = saves (trace s).
Proof.
  unfold add_identifier. unfold_monad. destruct s as [w t].
  destruct (Changed cmd cmdFlagNameIdentifier).
  - destruct (GetString cmd cmdFlagNameIdentifier) as [str|e]; [|by intros [= <- <-]].
    destruct (uuid_Parse str) as [u|e]; [|by intros [= <- <-]].
    destruct (negb (Version u =? 4)); by intros [= <- <-].
  - destruct (rand_Read w) as [[u|e] w']; intros [= <- <-]; simpl;
      by rewrite saves_app, app_nil_r.
Qed.

(** C8: with an empty service flag the service stage does not fail but
    yields the OpenID Connect service identifier, every identifier the
    command saves carries it, and the command does save one when its other
    stages succeed; the service stage fails exactly on a non-empty name
    outside the valid set, and then the command returns the error with
    nothing invoked. *)
Theorem add_defaults_empty_service (cmd : FlagSet) (args : list string) (w : W) :
  let r := run (StorageUserIdentifiersAddRunE cmd args) w in
  (GetString cmd cmdFlagNameService = Success "" ->
     run (add_service cmd) w = (Ok identifierServiceOpenIDConnect, mkSt w []) /\
     (forall id err, CallSaveUserOpaqueIdentifier id err ∈ trace r.2 ->
        Service id = identifierServiceOpenIDConnect) /\
     (forall sector username u s1,
        GetString cmd cmdFlagNameSector = Success sector ->
        args !! 0%nat = Some username ->
        run (add_identifier cmd) w = (Ok u, s1) ->
        (ctx_CheckSchemaVersion (world s1)).1 = Success tt ->
        exists err,
          saves (trace r.2) =
            [({| Service := identifierServiceOpenIDConnect; SectorID := sector;
                 Username := username; Identifier := u |}, err)])) /\
  (forall service, GetString cmd cmdFlagNameService = Success service ->
     (is_Err (run (add_service cmd) w).1 <->
      service ≠ "" /\ service ∉ validIdentifierServices) /\
     (service ≠ "" -> service ∉ validIdentifierServices ->
      r = (Err (errors_New ("the service name '" +:+ service +:+
                            "' is invalid, the valid values are: '" +:+
                            strings_Join validIdentifierServices "', '" +:+ "'")),
           mkSt w []))).
Proof.
  intros r.
  assert (Hr : r = run (StorageUserIdentifiersAddRunE cmd args) w) by done.
  clearbody r. unfold StorageUserIdentifiersAddRunE, run, bind in Hr.
  unfold run. unfold add_service in *. unfold_monad. unfold_monad_in Hr.
  split.
  - intros Hflag. rewrite Hflag in *. rewrite bool_decide_eq_true_2 in * by done.
    split; [done|].
    destruct (GetString cmd cmdFlagNameSector) as [sector|e].
    2:{ subst r. aborted. }
    destruct args as [|username args]; simpl in Hr.
    { subst r. aborted. }
    destruct (add_identifier cmd {| world := w; trace := [] |}) as [o [w1 t1]] eqn:Hid.
    pose proof (add_identifier_saves _ _ _ _ Hid) as Ht1. simpl in Ht1.
    assert (Hnone : forall t, saves (t1 ++ t) = saves t)
      by (intros t; by rewrite saves_app, Ht1).
    destruct o as [u| | |]; subst r.
    2-4: split; [intros id err Hin|by intros ? ? ? ? [= <-] [= <-] [=]].
    2-4: by (apply elem_of_saves in Hin; simpl in Hin; rewrite Ht1 in Hin;
             elem_cases Hin).
    destruct (ctx_CheckSchemaVersion w1) as [[[]|e0] w2] eqn:Hgate.
    + destruct (provider_SaveUserOpaqueIdentifier _ w2) as [[[]|e1] w3] eqn:Hsave; simpl.
      * rewrite <- !(assoc_L app). split.
        -- intros id err Hin. apply elem_of_saves in Hin. rewrite Hnone in Hin.
           elem_cases Hin; by simplify_eq.
        -- intros ? ? ? ? [= <-] [= <-] [= <- <-] _. rewrite Hnone. by eexists.
      * rewrite <- !(assoc_L app). split.
        -- intros id err Hin. apply elem_of_saves in Hin. rewrite Hnone in Hin.
           elem_cases Hin; by simplify_eq.
        -- intros ? ? ? ? [= <-] [= <-] [= <- <-] _. rewrite Hnone. by eexists.
    + simpl. rewrite <- !(assoc_L app). split.
      * intros id err Hin. apply elem_of_saves in Hin. rewrite Hnone in Hin.
        by elem_cases Hin.
      * intros ? ? ? ? [= <-] [= <-] [= <- <-]. simpl. rewrite Hgate. done.
  - intros service Hflag. rewrite Hflag in *. split.
    + unfold IsStringInSlice. repeat case_bool_decide; simpl; split;
        try (intros [e [=]]); try (intros [? ?]; done); try is_error; try done.
    + intros Hne Hout. rewrite bool_decide_eq_false_2 in Hr by done.
      unfold IsStringInSlice in Hr. rewrite bool_decide_eq_false_2 in Hr by done.
      done.
Qed.
End AddService.

(** On the reference environment: a string that is no UUID, a version 1
    UUID, and the version 4 UUID of john. *)
Lemma add_validates_identifier_witness :
  let malformed :=
    run (StorageUserIdentifiersAddRunE (Inputs.add_with "openid" "" "not-a-uuid") ["john"])
        Ref.empty in
  let version1 :=
    run (StorageUserIdentifiersAddRunE
           (Inputs.add_with "openid" "" "12345678-9abc-1def-8123-456789abcdef") ["john"])
        Ref.empty in
  (is_Err malformed.1 /\ malformed.2 = mkSt Ref.empty []) /\
  (is_Err version1.1 /\ version1.2 = mkSt Ref.empty []) /\
  Version (Identifier Ref.john) = 4.
Proof.
  intros malformed version1. split; [|split].
  - destruct (add_validates_identifier (Inputs.add_with "openid" "" "not-a-uuid") ["john"]
                Ref.empty) as [Hgiven _].
    destruct (Hgiven "not-a-uuid") as (Hbad & _ & _);
      [vm_compute; reflexivity|vm_compute; reflexivity|].
    destruct (Hbad (errors_New "invalid UUID length: 10")) as (_ & Hst & Herr & _);
      [vm_compute; reflexivity|].
    split; [apply Herr; discriminate|exact Hst].
  - destruct (add_validates_identifier
                (Inputs.add_with "openid" "" "12345678-9abc-1def-8123-456789abcdef") ["john"]
                Ref.empty) as [Hgiven _].
    destruct (Hgiven "12345678-9abc-1def-8123-456789abcdef") as (_ & Hversion & _);
      [vm_compute; reflexivity|vm_compute; reflexivity|].
    destruct (Hversion [# 18; 52; 86; 120; 154; 188; 29; 239; 129; 35; 69; 103; 137;
                          171; 205; 239]) as (_ & Hst & Herr & _);
      [vm_compute; reflexivity|vm_compute; discriminate|].
    split; [apply Herr; discriminate|exact Hst].
  - destruct (add_validates_identifier
                (Inputs.add_with "openid" "" "12345678-9abc-4def-8123-456789abcdef") ["john"]
                Ref.empty) as [Hgiven _].
    destruct (Hgiven "12345678-9abc-4def-8123-456789abcdef") as (_ & _ & Hsaved);
      [vm_compute; reflexivity|vm_compute; reflexivity|].
    apply (Hsaved Ref.john None). apply list_elem_of_lookup_2 with 1%nat.
    vm_compute. reflexivity.
Defined.

(** On the reference environment: the empty service is saved as [openid],
    the service [saml] is refused. *)
Lemma add_defaults_empty_service_witness :
  (exists err,
     saves (trace (run (StorageUserIdentifiersAddRunE (Inputs.add "" "example.com") ["harry"])
                       (Ref.set_entropy [Identifier Ref.harry] Ref.empty)).2) =
       [(Ref.harry, err)]) /\
  is_Err (run (StorageUserIdentifiersAddRunE (Inputs.add "saml" "example.com") ["harry"])
              (Ref.set_entropy [Identifier Ref.harry] Ref.empty)).1.
Proof.
  split.
  - destruct (add_defaults_empty_service (Inputs.add "" "example.com") ["harry"]
                (Ref.set_entropy [Identifier Ref.harry] Ref.empty)) as [Hempty _].
    destruct Hempty as (_ & _ & Hsave); [vm_compute; reflexivity|].
    apply (Hsave "example.com" "harry" (Identifier Ref.harry)
                 (mkSt Ref.empty [CallRandRead None]));
      vm_compute; reflexivity.
  - destruct (add_defaults_empty_service (Inputs.add "saml" "example.com") ["harry"]
                (Ref.set_entropy [Identifier Ref.harry] Ref.empty)) as [_ Hname].
    destruct (Hname "saml") as [_ Hreject]; [vm_compute; reflexivity|].
    rewrite Hreject.
    + is_error.
    + discriminate.
    + intros Hin. by elem_cases Hin.
Defined.

(** ** Import of opaque identifiers *)

Section ImportIdentifiers.
Context `{Consts} {W : Type} `{Machine W}.




End ImportIdentifiers.


(** ** Paginated exports *)

Lemma string_app_assoc (a b c : string) : (a +:+ b) +:+ c = a +:+ (b +:+ c).
Proof.
  induction a as [|ch a IH]; [reflexivity|].
  change (String ch ((a +:+ b) +:+ c) = String ch (a +:+ (b +:+ c))). by rewrite IH.
Qed.

Lemma string_app_empty_r (a : string) : a +:+ "" = a.
Proof.
  induction a as [|ch a IH]; [reflexivity|].
  change (String ch (a +:+ "") = String ch a). by rewrite IH.
Qed.

Lemma webauthn_lines_cons (d : WebauthnDevice) (l : list WebauthnDevice) :
  webauthn_lines (d :: l) = webauthn_line d +:+ webauthn_lines l.
Proof. reflexivity. Qed.

Lemma webauthn_lines_app (l1 l2 : list WebauthnDevice) :
  webauthn_lines (l1 ++ l2) = webauthn_lines l1 +:+ webauthn_lines l2.
Proof.
  induction l1 as [|d l1 IH]; [done|].
  rewrite <- app_comm_cons, !webauthn_lines_cons, IH. by rewrite string_app_assoc.
Qed.

Lemma fold_left_webauthn_lines (devices : list WebauthnDevice) (output : string) :
  fold_left (fun out device => out +:+ webauthn_line device) devices output =
  output +:+ webauthn_lines devices.
Proof.
  revert output. induction devices as [|d devices IH]; intros output.
  - cbn [fold_left]. change (webauthn_lines []) with "". by rewrite string_app_empty_r.
  - cbn [fold_left]. by rewrite IH, webauthn_lines_cons, string_app_assoc.
Qed.

(** *** Pages of a collection *)

Section Pages.
Context {A : Type} (coll : list A) (limit : Z) (Hlimit : 0 < limit).

Lemma page_of_full (page : Z) :
  0 <= page < len coll / limit ->
  len (page_of coll limit page) = limit /\
  drop (Z.to_nat (limit * page)) coll =
    (page_of coll limit page ++ drop (Z.to_nat (limit * (page + 1))) coll)%list.
Proof.
  intros [H0 Hp]. unfold page_of, len in *.
  assert (limit * (page + 1) <= Z.of_nat (length coll)).
  { transitivity (limit * (Z.of_nat (length coll) / limit)); [nia|].
    apply Z.mul_div_le. lia. }
  split.
  - rewrite length_take, length_drop. nia.
  - replace (Z.to_nat (limit * (page + 1)))
      with (Z.to_nat (limit * page) + Z.to_nat limit)%nat by nia.
    rewrite <- drop_drop. by rewrite take_drop.
Qed.

Lemma page_of_last :
  let page := len coll / limit in
  len (page_of coll limit page) < limit /\
  drop (Z.to_nat (limit * page)) coll = page_of coll limit page.
Proof.
  intros page. unfold page_of, len in *. subst page.
  pose proof (Z.mul_div_le (Z.of_nat (length coll)) limit Hlimit).
  pose proof (Z.mul_succ_div_gt (Z.of_nat (length coll)) limit Hlimit).
  split.
  - rewrite length_take, length_drop. nia.
  - rewrite take_ge; [done|]. rewrite length_drop. nia.
Qed.

End Pages.

Lemma int_add_small (a b : Z) :
  - 2 ^ 63 <= a + b < 2 ^ 63 -> int_add a b = a + b.
Proof.
  intros Hr. unfold int_add, int_wrap. rewrite Z.mod_small; lia.
Qed.

Lemma fetches_app (t1 t2 : list Event) :
  fetches (t1 ++ t2) = (fetches t1 ++ fetches t2)%list.
Proof. apply omap_app. Qed.

Lemma printed_app (t1 t2 : list Event) :
  printed (t1 ++ t2) = (printed t1 ++ printed t2)%list.
Proof. apply omap_app. Qed.

(** *** The WebAuthn listing *)

Section WebauthnList.
Context `{Consts} {W : Type} `{Machine W}.
Context (coll : list WebauthnDevice) (stable : W -> Prop).
Context (Hserves : serves_devices coll stable).

Lemma LoadWebauthnDevices_run (limit page : Z) (s : St W) :
  stable (world s) ->
  exists w',
    LoadWebauthnDevices limit page s =
      (Ok (page_of coll limit page),
       mkSt w' (trace s ++ [CallLoadWebauthnDevices limit page])) /\
    stable w'.
Proof.
  intros Hst. destruct Hserves as [_ Hload].
  destruct (Hload limit page (world s) Hst) as [Hres Hst'].
  unfold LoadWebauthnDevices, call.
  destruct (provider_LoadWebauthnDevices limit page (world s)) as [r w'].
  simpl in Hres, Hst'. subst r. by exists w'.
Qed.

Lemma fetches_loads (limit : Z) (ps : list Z) :
  fetches (CallLoadWebauthnDevices limit <$> ps) = (fun p => (limit, p)) <$> ps.
Proof. induction ps as [|p ps IH]; [done|]. simpl. f_equal. exact IH. Qed.

Lemma printed_loads (limit : Z) (ps : list Z) :
  printed (CallLoadWebauthnDevices limit <$> ps) = [].
Proof. induction ps as [|p ps IH]; [done|]. exact IH. Qed.

(** From page [p], the loop fetches the pages [p .. len coll / limit], once
    each and in increasing order, and appends the lines of all the records
    from [p * limit] on. *)
Lemma StorageWebauthnListAll_loop_run (limit : Z) :
  0 < limit -> len coll / limit + 1 < 2 ^ 63 ->
  forall (k : nat) (page : Z) (fuel : nat) (output : string) (s : St W),
    0 <= page -> page + Z.of_nat k = len coll / limit -> (k < fuel)%nat ->
    stable (world s) -> (page = 0 -> coll ≠ []) ->
    exists s',
      StorageWebauthnListAll_loop fuel limit page output s =
        (Ok (output +:+ webauthn_lines (drop (Z.to_nat (limit * page)) coll)), s') /\
      trace s' = (trace s ++ (CallLoadWebauthnDevices limit <$>
                              seqZ page (Z.of_nat k + 1)))%list /\
      stable (world s').
Proof.
  intros Hlimit Hbound k.
  induction k as [|k IH]; intros page fuel output s Hpage Hk Hfuel Hst Hne;
    (destruct fuel as [|fuel]; [lia|]); cbn [StorageWebauthnListAll_loop];
    unfold bind, wrapErr;
    destruct (LoadWebauthnDevices_run limit page s Hst) as (w' & -> & Hst').
  - assert (page = len coll / limit) as -> by lia.
    destruct (page_of_last coll limit Hlimit) as [Hlen Hdrop]. cbv zeta in Hlen, Hdrop.
    rewrite Hdrop.
    assert ((len coll / limit =? 0) && (len (page_of coll limit (len coll / limit)) =? 0)
            = false) as ->.
    { apply andb_false_iff. destruct (Z.eqb_spec (len coll / limit) 0) as [Hq|]; [|by left].
      right. apply Z.eqb_neq. intros Hz. apply Hne; [done|].
      rewrite Hq, Z.mul_0_r in Hdrop. change (Z.to_nat 0) with 0%nat in Hdrop.
      rewrite drop_0 in Hdrop. rewrite Hq in Hz.
      apply (f_equal length) in Hdrop. unfold len in Hz.
      apply nil_length_inv. lia. }
    apply Z.ltb_lt in Hlen. rewrite Hlen. rewrite fold_left_webauthn_lines.
    eexists. split; [reflexivity|]. cbn [trace world]. split; [|done].
    change (Z.of_nat 0 + 1) with 1. rewrite seqZ_cons by lia.
    by rewrite seqZ_nil by lia.
  - destruct (page_of_full coll limit Hlimit page) as [Hlen Hdrop]; [lia|].
    assert ((page =? 0) && (len (page_of coll limit page) =? 0) = false) as ->.
    { apply andb_false_iff. right. apply Z.eqb_neq. lia. }
    assert ((len (page_of coll limit page) <? limit) = false) as ->
      by (apply Z.ltb_ge; lia).
    rewrite fold_left_webauthn_lines. rewrite int_add_small by lia.
    edestruct (IH (page + 1) fuel) as (s' & Hrun & Ht & Hst''); [lia|lia|lia| |lia|].
    2:{ rewrite Hrun. eexists. split; [|split; [|exact Hst'']].
        - rewrite Hdrop, webauthn_lines_app, string_app_assoc. reflexivity.
        - rewrite Ht. cbn [trace world]. rewrite <- (assoc_L app). f_equal.
          rewrite (seqZ_cons page) by lia. rewrite fmap_cons. cbn [app].
          do 3 f_equal; lia. }
    done.
Qed.

(** The listing over a non-empty collection. *)
Lemma StorageWebauthnListAllRunE_run
    (fuel : nat) (cmd : FlagSet) (args : list string) (w : W) :
  stable w -> (ctx_CheckSchemaVersion w).1 = Success tt ->
  len coll < 2 ^ 63 -> len coll / 10 < Z.of_nat fuel ->
  let r := run (StorageWebauthnListAllRunE fuel cmd args) w in
  fetches (trace r.2) = pages (len coll / 10 + 1) /\
  (coll ≠ [] ->
   r.1 = Ok tt /\ printed (trace r.2) = [webauthn_header; webauthn_lines coll +:+ nl]) /\
  (coll = [] -> r.1 = Err (errors_New "no webauthn devices in database")).
Proof.
  intros Hst Hgate Hbound Hfuel r.
  assert (Hr : r = run (StorageWebauthnListAllRunE fuel cmd args) w) by done.
  clearbody r. unfold StorageWebauthnListAllRunE, run in Hr.
  unfold defer, bind at 1, wrapErr, CheckSchemaVersion, call in Hr. cbn [world trace] in Hr.
  destruct Hserves as [Hgate_stable _]. specialize (Hgate_stable w Hst).
  destruct (ctx_CheckSchemaVersion w) as [[[]|e] w1]; [|done]. cbn [snd] in Hgate_stable.
  assert (Hq : 0 <= len coll / 10) by (apply Z.div_pos; unfold len; lia).
  destruct (decide (coll = [])) as [Hnil|Hne].
  - destruct fuel as [|fuel]; [lia|]. unfold bind at 1 in Hr.
    cbn [StorageWebauthnListAll_loop] in Hr. unfold bind at 1, wrapErr in Hr.
    destruct (LoadWebauthnDevices_run 10 0 (mkSt w1 ([] ++ [CallCheckSchemaVersion])))
      as (w' & Hload & _); [done|].
    rewrite Hload in Hr. rewrite Hnil in Hr. subst r. rewrite Hnil. done.
  - unfold bind at 1 in Hr.
    assert (Hsmall : len coll / 10 + 1 < 2 ^ 63).
    { assert (0 < len coll) by (unfold len; destruct coll; [done|simpl; lia]).
      pose proof (Z.div_lt (len coll) 10). lia. }
    destruct (StorageWebauthnListAll_loop_run 10 ltac:(lia) Hsmall
                (Z.to_nat (len coll / 10)) 0 fuel ""
                (mkSt w1 ([] ++ [CallCheckSchemaVersion])))
      as (s' & Hrun & Ht & _); [lia|lia|lia|done|done|].
    rewrite Hrun in Hr. unfold bind, Printf in Hr. subst r. unfold Close.
    cbn [fst snd trace world]. rewrite Ht. cbn [trace].
    change (Z.to_nat (10 * 0)) with 0%nat. rewrite drop_0.
    split; [|split; [|done]].
    + rewrite !fetches_app, fetches_loads. rewrite Z2Nat.id by lia.
      cbn [fetches omap list_omap app]. by rewrite !app_nil_r.
    + intros _. split; [done|].
      rewrite !printed_app, printed_loads. done.
Qed.

End WebauthnList.

(** *** The TOTP export *)

Lemma emissions_app (t1 t2 : list Event) :
  emissions (t1 ++ t2) = (emissions t1 ++ emissions t2)%list.
Proof. apply filter_app. Qed.

Lemma emissions_load (limit page : Z) :
  emissions [CallLoadTOTPConfigurations limit page] = [].
Proof. reflexivity. Qed.

Section TOTPExport.
Context `{Consts} {W : Type} `{Machine W}.
Context (coll : list TOTPConfiguration) (stable : W -> Prop).
Context (Hserves : serves_configurations coll stable).
Context (Hencode : forall path img w, stable w -> (png_Encode path img w).1 = Success tt).

Lemma LoadTOTPConfigurations_run (limit page : Z) (s : St W) :
  stable (world s) ->
  exists w',
    LoadTOTPConfigurations limit page s =
      (Ok (page_of coll limit page),
       mkSt w' (trace s ++ [CallLoadTOTPConfigurations limit page])) /\
    stable w'.
Proof.
  intros Hst. destruct Hserves as (_ & Hload & _).
  destruct (Hload limit page (world s) Hst) as [Hres Hst'].
  unfold LoadTOTPConfigurations, call.
  destruct (provider_LoadTOTPConfigurations limit page (world s)) as [r w'].
  simpl in Hres, Hst'. subst r. by exists w'.
Qed.

Lemma export_events_projections (format dir : string) (cs : list TOTPConfiguration) :
  fetches (cs ≫= export_events format dir) = [] /\
  emissions (cs ≫= export_events format dir) = cs ≫= export_events format dir.
Proof.
  induction cs as [|c cs [IHf IHe]]; [done|].
  rewrite bind_cons, fetches_app, emissions_app, IHf, IHe.
  unfold export_events. by repeat case_bool_decide.
Qed.

(** One configuration whose image renders is exported by exactly its
    events. *)
Lemma export_configuration_run (format dir : string) (c : TOTPConfiguration) (s : St W) :
  stable (world s) -> (exists img, totp_Image c 256 256 = Success img) ->
  exists s',
    export_configuration format dir c s = (Ok tt, s') /\
    trace s' = (trace s ++ export_events format dir c)%list /\
    stable (world s').
Proof.
  intros Hst [img Himg]. unfold export_configuration, export_events.
  destruct Hserves as (_ & _ & Hfiles). destruct s as [w0 t0]. cbn [world trace] in *.
  repeat case_bool_decide.
  - eexists. split; [reflexivity|]. by split.
  - eexists. split; [reflexivity|]. by split.
  - rewrite Himg. unfold_monad.
    set (path := filepath_Join dir (tc_Username c +:+ ".png")).
    destruct (Hfiles path img w0 Hst) as (Hcreate & _ & _).
    pose proof (Hencode path img _ Hcreate) as Henc.
    destruct (Hfiles path img _ Hcreate) as (_ & Hstenc & _).
    destruct (png_Encode path img (os_Create path w0)) as [r w'].
    simpl in Henc, Hstenc. subst r.
    destruct (Hfiles path img w' Hstenc) as (_ & _ & Hclose).
    eexists. split; [reflexivity|]. cbn [trace world]. split; [|done].
    by rewrite <- !(assoc_L app).
  - eexists. split; [reflexivity|]. cbn [trace world]. split; [|done].
    by rewrite app_nil_r.
Qed.

Lemma range_export_run (format dir : string) (cs : list TOTPConfiguration) (s : St W) :
  stable (world s) ->
  (forall c, c ∈ cs -> exists img, totp_Image c 256 256 = Success img) ->
  exists s',
    range cs (fun _ c => export_configuration format dir c) tt s = (Ok tt, s') /\
    trace s' = (trace s ++ (cs ≫= export_events format dir))%list /\
    stable (world s').
Proof.
  revert s. induction cs as [|c cs IH]; intros s Hst Himg.
  - exists s. split; [done|]. split; [|done]. by rewrite app_nil_r.
  - cbn [range]. unfold bind.
    destruct (export_configuration_run format dir c s Hst) as (s1 & -> & Ht1 & Hst1).
    { apply Himg. by left. }
    destruct (IH s1 Hst1) as (s' & Hrun & Ht & Hst').
    { intros c' Hc'. apply Himg. by right. }
    exists s'. split; [done|]. split; [|done].
    rewrite Ht, Ht1, bind_cons. by rewrite <- (assoc_L app).
Qed.

Lemma page_of_subseteq {A} (l : list A) (limit page : Z) : page_of l limit page ⊆ l.
Proof. unfold page_of. etrans; [apply subseteq_take|apply subseteq_drop]. Qed.

(** From page [p], the loop fetches the pages [p .. len coll / limit], once
    each and in increasing order, and delivers all the records from
    [p * limit] on, after the header when it starts at page 0 in the
    delimited format. *)
Lemma StorageTOTPExport_loop_run (format dir : string) (limit : Z) :
  0 < limit -> len coll / limit + 1 < 2 ^ 63 ->
  (forall c, c ∈ coll -> exists img, totp_Image c 256 256 = Success img) ->
  forall (k : nat) (page : Z) (fuel : nat) (s : St W),
    0 <= page -> page + Z.of_nat k = len coll / limit -> (k < fuel)%nat ->
    stable (world s) ->
    exists s',
      StorageTOTPExport_loop fuel format dir limit page s = (Ok tt, s') /\
      fetches (trace s') =
        (fetches (trace s) ++ ((fun p => (limit, p)) <$> seqZ page (Z.of_nat k + 1)))%list /\
      emissions (trace s') =
        (emissions (trace s) ++
         (if (page =? 0) && bool_decide (format = storageTOTPExportFormatCSV)
          then [EvPrint totp_header] else []) ++
         (drop (Z.to_nat (limit * page)) coll ≫= export_events format dir))%list /\
      stable (world s').
Proof.
  intros Hlimit Hbound Himg k.
  induction k as [|k IH]; intros page fuel s Hpage Hk Hfuel Hst;
    (destruct fuel as [|fuel]; [lia|]); cbn [StorageTOTPExport_loop];
    unfold bind at 1;
    destruct (LoadTOTPConfigurations_run limit page s Hst) as (w1 & -> & Hst1);
    unfold bind at 1;
    set (header := if (page =? 0) && bool_decide (format = storageTOTPExportFormatCSV)
                   then [EvPrint totp_header] else []);
    assert (Hheader : exists s2,
              (if (page =? 0) && bool_decide (format = storageTOTPExportFormatCSV)
               then Printf ("issuer,username,algorithm,digits,period,secret" +:+ nl)
               else ret tt)
                (mkSt w1 (trace s ++ [CallLoadTOTPConfigurations limit page])) = (Ok tt, s2) /\
              trace s2 = ((trace s ++ [CallLoadTOTPConfigurations limit page]) ++ header)%list /\
              stable (world s2))
      by (subst header;
          destruct ((page =? 0) && bool_decide (format = storageTOTPExportFormatCSV));
          eexists; (split; [reflexivity|]); cbn [trace world]; (split; [|done]);
          [done|by rewrite app_nil_r]);
    destruct Hheader as (s2 & -> & Ht2 & Hst2);
    unfold bind at 1;
    destruct (range_export_run format dir (page_of coll limit page) s2 Hst2)
      as (s3 & -> & Ht3 & Hst3);
    try (intros c Hc; apply Himg; by apply (page_of_subseteq coll limit page)).
  - assert (page = len coll / limit) as -> by lia.
    destruct (page_of_last coll limit Hlimit) as [Hlen Hdrop]. cbv zeta in Hlen, Hdrop.
    apply Z.ltb_lt in Hlen. rewrite Hlen. rewrite Hdrop.
    exists s3. split; [done|]. rewrite Ht3, Ht2.
    destruct (export_events_projections format dir
                (page_of coll limit (len coll / limit))) as [Hf He].
    split; [|split; [|done]].
    + rewrite !fetches_app, Hf. change (Z.of_nat 0 + 1) with 1.
      rewrite seqZ_cons by lia. rewrite seqZ_nil by lia.
      assert (fetches header = []) as ->
        by (subst header; by destruct (_ && _)).
      by rewrite !app_nil_r.
    + rewrite !emissions_app, He.
      assert (emissions header = header) as ->
        by (subst header; by destruct (_ && _)).
      rewrite emissions_load, app_nil_r. by rewrite <- !(assoc_L app).
  - destruct (page_of_full coll limit Hlimit page) as [Hlen Hdrop]; [lia|].
    assert ((len (page_of coll limit page) <? limit) = false) as ->
      by (apply Z.ltb_ge; lia).
    rewrite int_add_small by lia.
    destruct (IH (page + 1) fuel s3) as (s' & Hrun & Hf' & He' & Hst'); [lia|lia|lia|done|].
    exists s'. split; [done|]. rewrite Hf', He', Ht3, Ht2.
    destruct (export_events_projections format dir (page_of coll limit page)) as [Hf He].
    split; [|split; [|done]].
    + rewrite !fetches_app, Hf.
      assert (fetches header = []) as ->
        by (subst header; by destruct (_ && _)).
      rewrite !app_nil_r. rewrite (seqZ_cons page) by lia. rewrite fmap_cons.
      cbn [fetches omap list_omap]. rewrite <- (assoc_L app). cbn [app].
      do 4 f_equal; lia.
    + rewrite !emissions_app, He.
      assert (emissions header = header) as ->
        by (subst header; by destruct (_ && _)).
      assert ((page + 1 =? 0) = false) as -> by (apply Z.eqb_neq; lia).
      rewrite emissions_load, app_nil_r, Hdrop, bind_app. cbn [andb app].
      by rewrite <- !(assoc_L app).
Qed.

End TOTPExport.

Section TOTPExportRun.
Context `{Consts} {W : Type} `{Machine W}.
Context (coll : list TOTPConfiguration) (stable : W -> Prop).
Context (Hserves : serves_configurations coll stable).
Context (Hencode : forall path img w, stable w -> (png_Encode path img w).1 = Success tt).

Lemma StorageTOTPExportRunE_run
    (fuel : nat) (cmd : FlagSet) (args : list string) (w : W) (format dir : string) :
  stable w -> (ctx_CheckSchemaVersion w).1 = Success tt ->
  flagsGetTOTPExportOptions cmd = Success (format, dir) ->
  (forall c, c ∈ coll -> exists img, totp_Image c 256 256 = Success img) ->
  len coll < 2 ^ 63 -> len coll / 10 < Z.of_nat fuel ->
  let r := run (StorageTOTPExportRunE fuel cmd args) w in
  r.1 = Ok tt /\
  fetches (trace r.2) = pages (len coll / 10 + 1) /\
  emissions (trace r.2) = export_output format dir coll.
Proof.
  intros Hst Hgate Hopt Himg Hbound Hfuel r.
  assert (Hr : r = run (StorageTOTPExportRunE fuel cmd args) w) by done.
  clearbody r. unfold StorageTOTPExportRunE, run in Hr.
  unfold defer, bind at 1, wrapErr, CheckSchemaVersion, call in Hr. cbn [world trace] in Hr.
  destruct Hserves as [Hgate_stable _]. specialize (Hgate_stable w Hst).
  destruct (ctx_CheckSchemaVersion w) as [[[]|e] w1]; [|done]. cbn [snd] in Hgate_stable.
  rewrite Hopt in Hr. unfold bind at 1, propagate, ret in Hr. unfold bind at 1 in Hr.
  assert (Hq : 0 <= len coll / 10) by (apply Z.div_pos; unfold len; lia).
  assert (Hsmall : len coll / 10 + 1 < 2 ^ 63).
  { destruct (decide (len coll = 0)) as [->|]; [done|].
    pose proof (Z.div_lt (len coll) 10). unfold len in *. lia. }
  destruct (StorageTOTPExport_loop_run coll stable Hserves Hencode format dir 10
              ltac:(lia) Hsmall Himg (Z.to_nat (len coll / 10)) 0 fuel
              (mkSt w1 ([] ++ [CallCheckSchemaVersion])))
    as (s' & Hrun & Hf & He & _); [lia|lia|lia|done|].
  rewrite Hrun in Hr. rewrite Z2Nat.id in Hf by lia.
  change (Z.to_nat (10 * 0)) with 0%nat in He. rewrite drop_0 in He.
  change (0 =? 0) with true in He. cbn [andb] in He.
  unfold export_output. destruct s' as [w' t']. cbn [trace] in Hf, He.
  repeat case_bool_decide; subst r; unfold Close, Printf, ret;
    cbn [fst snd trace world];
    (split; [done|]); rewrite ?fetches_app, ?emissions_app, Hf, He;
    (split; [by rewrite ?app_nil_r|]); cbn [app]; by rewrite ?app_nil_r.
Qed.

End TOTPExportRun.

(** *** Both exports *)

Section PaginatedExport.
Context `{Consts} {W : Type} `{Machine W}.

(** C3, as amended: over a backend that serves the pages of a collection of
    M records, both exports (page length 10) fetch the pages
    0, 1, ..., ⌊M/10⌋ in this order, each once: ⌊M/10⌋ + 1 fetches, the
    last one being the first to return fewer than 10 records.  The TOTP
    export succeeds and delivers every record once, in the backend's order;
    the WebAuthn listing does so for a non-empty collection and returns an
    error for an empty one. *)
Theorem paginated_export_fetches
    (devices : list WebauthnDevice) (configurations : list TOTPConfiguration)
    (stable : W -> Prop) (fuel : nat) (cmd : FlagSet) (args : list string) (w : W)
    (format dir : string) :
  serves_devices devices stable ->
  serves_configurations configurations stable ->
  (forall path img w, stable w -> (png_Encode path img w).1 = Success tt) ->
  (forall c, c ∈ configurations -> exists img, totp_Image c 256 256 = Success img) ->
  stable w -> (ctx_CheckSchemaVersion w).1 = Success tt ->
  flagsGetTOTPExportOptions cmd = Success (format, dir) ->
  len devices < 2 ^ 63 -> len configurations < 2 ^ 63 ->
  len devices / 10 < Z.of_nat fuel -> len configurations / 10 < Z.of_nat fuel ->
  let list := run (StorageWebauthnListAllRunE fuel cmd args) w in
  let export := run (StorageTOTPExportRunE fuel cmd args) w in
  (fetches (trace list.2) = pages (len devices / 10 + 1) /\
   len (fetches (trace list.2)) = len devices / 10 + 1 /\
   (forall page, 0 <= page < len devices / 10 -> len (page_of devices 10 page) = 10) /\
   len (page_of devices 10 (len devices / 10)) < 10 /\
   (devices ≠ [] ->
    list.1 = Ok tt /\
    printed (trace list.2) = [webauthn_header; webauthn_lines devices +:+ nl]) /\
   (devices = [] -> list.1 = Err (errors_New "no webauthn devices in database"))) /\
  (export.1 = Ok tt /\
   fetches (trace export.2) = pages (len configurations / 10 + 1) /\
   len (fetches (trace export.2)) = len configurations / 10 + 1 /\
   (forall page, 0 <= page < len configurations / 10 ->
      len (page_of configurations 10 page) = 10) /\
   len (page_of configurations 10 (len configurations / 10)) < 10 /\
   emissions (trace export.2) = export_output format dir configurations).
Proof.
  intros Hdev Hconf Hencode Himg Hst Hgate Hopt Hbd Hbc Hfd Hfc list export.
  assert (Hpages : forall n, 0 <= n -> len (pages n) = n).
  { intros n Hn. unfold pages, len. rewrite length_fmap, length_seqZ. lia. }
  destruct (StorageWebauthnListAllRunE_run devices stable Hdev fuel cmd args w
              Hst Hgate Hbd Hfd) as (Hf & Hsome & Hnone).
  destruct (StorageTOTPExportRunE_run configurations stable Hconf Hencode fuel cmd args w
              format dir Hst Hgate Hopt Himg Hbc Hfc) as (Hok & Hf' & He).
  subst list export. split.
  - split; [done|]. split; [|split; [|split; [|done]]].
    + rewrite Hf. apply Hpages.
      assert (0 <= len devices / 10) by (apply Z.div_pos; unfold len; lia). lia.
    + intros page Hpage. by apply (page_of_full devices 10).
    + by apply (page_of_last devices 10).
  - split; [done|]. split; [done|]. split; [|split; [|split; [|done]]].
    + rewrite Hf'. apply Hpages.
      assert (0 <= len configurations / 10) by (apply Z.div_pos; unfold len; lia). lia.
    + intros page Hpage. by apply (page_of_full configurations 10).
    + by apply (page_of_last configurations 10).
Qed.

End PaginatedExport.

Lemma Ref_serves_devices : serves_devices (Ref.devices Inputs.store) Inputs.holds_store.
Proof.
  split.
  - intros w Hw. unfold ctx_CheckSchemaVersion, Ref.machine, Ref.check_schema.
    by destruct (_ =? _).
  - intros limit page w [Hd Hc]. split; [|done]. simpl. by rewrite Hd.
Qed.

Lemma Ref_serves_configurations :
  serves_configurations (Ref.configurations Inputs.store) Inputs.holds_store.
Proof.
  split; [|split].
  - intros w Hw. unfold ctx_CheckSchemaVersion, Ref.machine, Ref.check_schema.
    by destruct (_ =? _).
  - intros limit page w [Hd Hc]. split; [|done]. simpl. by rewrite Hc.
  - intros path img w Hw. done.
Qed.

(** On the reference environment: 23 devices take 3 fetches, 10
    configurations take 2. *)
Lemma paginated_export_fetches_witness :
  fetches (trace (run (StorageWebauthnListAllRunE 5 (Inputs.totp_export "csv" "") [])
                      Inputs.store).2) = [(10, 0); (10, 1); (10, 2)] /\
  fetches (trace (run (StorageTOTPExportRunE 5 (Inputs.totp_export "csv" "") [])
                      Inputs.store).2) = [(10, 0); (10, 1)].
Proof.
  destruct (paginated_export_fetches (Ref.devices Inputs.store)
              (Ref.configurations Inputs.store) Inputs.holds_store 5
              (Inputs.totp_export "csv" "") [] Inputs.store "csv" "")
    as ((Hlist & _) & (_ & Hexport & _)).
  - exact Ref_serves_devices.
  - exact Ref_serves_configurations.
  - intros path img w _. reflexivity.
  - intros c _. eexists. reflexivity.
  - split; reflexivity.
  - vm_compute. reflexivity.
  - vm_compute. reflexivity.
  - vm_compute. reflexivity.
  - vm_compute. reflexivity.
  - vm_compute. reflexivity.
  - vm_compute. reflexivity.
  - split; [exact Hlist|exact Hexport].
Defined.

(** C3, as stated, fails on the number of fetches: over exactly 10 devices
    the first page is full, so the listing fetches a second, empty page:
    2 fetches, where ⌈10/10⌉ = 1. *)
Lemma paginated_export_ceiling_counterexample :
  let r := run (StorageWebauthnListAllRunE 5 ∅ []) (Inputs.with_devices 10) in
  len (Ref.devices (Inputs.with_devices 10)) = 10 /\
  r.1 = Ok tt /\
  fetches (trace r.2) = [(10, 0); (10, 1)] /\
  len (fetches (trace r.2)) ≠ ceil_div (len (Ref.devices (Inputs.with_devices 10))) 10.
Proof. vm_compute. repeat split; discriminate. Qed.

(** ** Bulk generation of opaque identifiers: the loop *)

Section Range.
Context {W A S : Type}.

Lemma range_app (l1 l2 : list A) (body : S -> A -> M W S) (acc : S) (s : St W) :
  range (l1 ++ l2) body acc s = (let* acc' := range l1 body acc in range l2 body acc') s.
Proof.
  revert acc s. induction l1 as [|x l1 IH]; intros acc s; [done|].
  cbn [app range]. unfold bind.
  destruct (body acc x s) as [[acc'| | |] s']; first [done|apply IH].
Qed.

Lemma range_ext (l : list A) (f g : S -> A -> M W S) (acc : S) (s : St W) :
  (forall acc x s, f acc x s = g acc x s) -> range l f acc s = range l g acc s.
Proof.
  intros Hfg. revert acc s. induction l as [|x l IH]; intros acc s; [done|].
  cbn [range]. unfold bind. rewrite Hfg.
  destruct (g acc x s) as [[acc'| | |] s']; first [done|apply IH].
Qed.

(** A loop nested in a loop is a loop over the concatenation. *)
Lemma range_nested {B} (l : list B) (inner : B -> list A) (body : S -> A -> M W S)
    (acc : S) (s : St W) :
  range l (fun acc x => range (inner x) body acc) acc s =
  range (l ≫= inner) body acc s.
Proof.
  revert acc s. induction l as [|x l IH]; intros acc s; [done|].
  rewrite bind_cons, range_app. cbn [range]. unfold bind.
  destruct (range (inner x) body acc s) as [[acc'| | |] s']; first [done|apply IH].
Qed.

End Range.

Section GenerateLoop.
Context `{Consts} {W : Type} `{Machine W}.

(** The three nested loops visit the Cartesian product, service outermost
    and username innermost. *)
Lemma generate_loops_product (identifiers : list UserOpaqueIdentifier)
    (services sectors users : list string) (counts : Z * Z) (s : St W) :
  range services (fun counts service =>
    range sectors (fun counts sector =>
      range users (fun counts username =>
        generate_one identifiers service sector username counts) counts) counts)
    counts s =
  range (product services sectors users) (generate_tuple identifiers) counts s.
Proof.
  unfold product. rewrite <- range_nested. apply range_ext. intros c1 service s1.
  rewrite <- range_nested. apply range_ext. intros c2 sector s2.
  rewrite <- range_nested. apply range_ext. intros c3 username s3.
  cbn [range]. unfold bind, ret, generate_tuple. cbn [fst snd].
  by destruct (generate_one identifiers service sector username c3 s3) as [[c| | |] s'].
Qed.

(** The loop over a list of tuples is the allocation over those of them
    that are not duplicates: a duplicate is counted and costs no operation;
    for the other tuples, in order, the loop reads the entropy source and
    saves the identifier around what it read, until the list is exhausted
    or a read or a save fails.  The trace, the result and the state of the
    machine are those of the allocation. *)
Lemma generate_loop_run (existing : list UserOpaqueIdentifier) :
  forall (ts : list (string * string * string)) (a d : Z) (s : St W),
    0 <= a -> 0 <= d -> a + d + len ts < 2 ^ 63 ->
    let r := range ts (generate_tuple existing) (a, d) s in
    let fresh := fresh_tuples existing ts in
    let allocation := allocate fresh (world s) in
    let ids := allocation.1.1 in
    Forall (fun id => Version (Identifier id) = 4) ids /\
    world r.2 = allocation.2 /\
    match allocation.1.2 with
    | Allocated =>
      natural_key <$> ids = fresh /\
      r.1 = Ok (a + len fresh, d + len (duplicate_tuples existing ts)) /\
      trace r.2 = (trace s ++ generate_events ids)%list
    | GenerationFailed e =>
      (exists t rest, fresh = ((natural_key <$> ids) ++ t :: rest)%list) /\
      r.1 = Err (fmt_Errorf_w "failed to generate a uuid: " e "") /\
      trace r.2 = (trace s ++ generate_events ids ++ [CallRandRead (Some e)])%list
    | SaveFailed id e =>
      (exists rest, fresh = ((natural_key <$> ids) ++ natural_key id :: rest)%list) /\
      Version (Identifier id) = 4 /\
      r.1 = Err (fmt_Errorf_w "failed to save identifier: " e "") /\
      trace r.2 = (trace s ++ generate_events ids ++
                   [CallRandRead None; CallSaveUserOpaqueIdentifier id (Some e)])%list
    end.
Proof.
  induction ts as [|t ts IH]; intros a d s Ha Hd Hbound r fresh allocation ids.
  { subst ids allocation fresh r. cbn. rewrite !Z.add_0_r, app_nil_r. done. }
  assert (Hr : r = range (t :: ts) (generate_tuple existing) (a, d) s) by done.
  clearbody r. cbn [range] in Hr. unfold bind, generate_tuple at 1, generate_one in Hr.
  assert (Hlen : len (t :: ts) = len ts + 1) by (unfold len; cbn [length]; lia).
  assert (Hpos : 0 <= len ts) by (unfold len; lia).
  destruct t as [[service sector] username]. cbn [fst snd] in Hr.
  subst ids allocation fresh. unfold fresh_tuples, duplicate_tuples.
  destruct (containsIdentifier _ existing) eqn:Hdup.
  - (* a duplicate: counted, nothing invoked *)
    assert (Hdup' : is_duplicate existing (service, sector, username) = true) by exact Hdup.
    rewrite (filter_cons_False _ (service, sector, username)) by congruence.
    rewrite (filter_cons_True _ (service, sector, username)) by done.
    unfold ret in Hr. rewrite int_add_small in Hr by lia.
    specialize (IH a (d + 1) s Ha ltac:(lia) ltac:(lia)). cbv zeta in IH.
    rewrite <- Hr in IH. unfold fresh_tuples, duplicate_tuples in IH.
    replace (d + len ((service, sector, username) :: filter (fun t => is_duplicate existing t = true) ts))
      with (d + 1 + len (filter (fun t => is_duplicate existing t = true) ts))
      by (unfold len; cbn [length]; lia).
    exact IH.
  - (* a new tuple *)
    assert (Hdup' : is_duplicate existing (service, sector, username) = false) by exact Hdup.
    rewrite (filter_cons_True _ (service, sector, username)) by done.
    rewrite (filter_cons_False _ (service, sector, username)) by congruence.
    unfold_monad_in Hr. destruct s as [w t0]. cbn [world trace allocate].
    destruct (rand_Read w) as [[u|e] w1].
    2:{ subst r. cbn [fst snd world trace fmap list_fmap app generate_events].
        split; [done|]. split; [done|]. split; [by eexists _, _|]. done. }
    change {| Service := service; SectorID := sector; Username := username;
              Identifier := set_version4 u |}
      with (fresh_identifier (service, sector, username) u) in Hr.
    set (id := fresh_identifier (service, sector, username) u) in *.
    assert (Hid : Version (Identifier id) = 4) by apply Version_set_version4.
    destruct (provider_SaveUserOpaqueIdentifier id w1) as [[[]|e] w2].
    2:{ subst r. cbn [fst snd world trace fmap list_fmap app].
        split; [done|]. split; [done|]. split; [by eexists|]. split; [done|].
        split; [done|]. cbn. by rewrite <- !(assoc_L app). }
    rewrite int_add_small in Hr by lia.
    specialize (IH (a + 1) d (mkSt w2 ((t0 ++ [CallRandRead None]) ++ [CallSaveUserOpaqueIdentifier id None]))
                  ltac:(lia) Hd ltac:(lia)).
    cbv zeta in IH. rewrite <- Hr in IH. unfold fresh_tuples, duplicate_tuples in IH.
    cbn [world trace] in IH.
    destruct (allocate (filter (fun t => is_duplicate existing t = false) ts) w2)
      as [[ids ending] w'].
    cbn [fst snd] in *. destruct IH as (Hv & Hw & Hend).
    split; [by constructor|]. split; [done|].
    assert (Hevents : forall tail,
              (((t0 ++ [CallRandRead None]) ++ [CallSaveUserOpaqueIdentifier id None]) ++
               generate_events ids ++ tail)%list =
              (t0 ++ generate_events (id :: ids) ++ tail)%list).
    { intros tail. unfold generate_events. rewrite bind_cons. cbn [app].
      by rewrite <- !(assoc_L app). }
    destruct ending as [|e|id' e].
    + destruct Hend as (Hk & Hres & Ht). split; [by rewrite fmap_cons, Hk|]. split.
      * rewrite Hres. do 2 f_equal. unfold len. cbn [length]. lia.
      * rewrite Ht. specialize (Hevents []). by rewrite !app_nil_r in Hevents.
    + destruct Hend as ((t & rest & Hk) & Hres & Ht).
      split; [exists t, rest; by rewrite fmap_cons, Hk|]. split; [done|].
      rewrite Ht. apply Hevents.
    + destruct Hend as ((rest & Hk) & Hv' & Hres & Ht).
      split; [exists rest; by rewrite fmap_cons, Hk|]. split; [done|]. split; [done|].
      rewrite Ht. apply Hevents.
Qed.

End GenerateLoop.

(** A tuple is a duplicate exactly when it is the natural key of an existing
    identifier. *)
Lemma is_duplicate_natural_key (existing : list UserOpaqueIdentifier)
    (t : string * string * string) :
  is_duplicate existing t = true <-> t ∈ natural_key <$> existing.
Proof.
  unfold is_duplicate, containsIdentifier. rewrite existsb_exists, list_elem_of_fmap.
  destruct t as [[service sector] username].
  split.
  - intros (id & Hin & Hkey). exists id. split; [|by apply list_elem_of_In].
    unfold same_natural_key, key_of in Hkey. cbn [Service SectorID Username fst snd] in Hkey.
    apply andb_true_iff in Hkey as [Hkey Hu]. apply andb_true_iff in Hkey as [Hs Hr].
    apply bool_decide_eq_true in Hs, Hr, Hu. unfold natural_key. congruence.
  - intros (id & Hkey & Hin). exists id. split; [by apply list_elem_of_In|].
    unfold natural_key in Hkey. injection Hkey as -> -> ->.
    unfold same_natural_key, key_of. cbn [Service SectorID Username fst snd].
    by rewrite !bool_decide_eq_true_2.
Qed.

Lemma length_product (services sectors users : list string) :
  len (product services sectors users) = len services * len sectors * len users.
Proof.
  unfold product, len.
  assert (Hinner : forall service sector : string,
            length (users ≫= fun username => [(service, sector, username)]) = length users).
  { intros service sector. induction users as [|u us IH]; [done|].
    rewrite bind_cons. cbn [app length]. by rewrite IH. }
  assert (Hmid : forall service : string,
            length (sectors ≫= fun sector =>
                      users ≫= fun username => [(service, sector, username)]) =
            (length sectors * length users)%nat).
  { intros service. induction sectors as [|r rs IH]; [done|].
    rewrite bind_cons, length_app, Hinner, IH. cbn [length]. lia. }
  induction services as [|sv svs IH]; [done|].
  rewrite bind_cons, length_app, Hmid. cbn [length]. nia.
Qed.

Lemma length_fresh_duplicate (existing : list UserOpaqueIdentifier)
    (tuples : list (string * string * string)) :
  len (fresh_tuples existing tuples) + len (duplicate_tuples existing tuples) = len tuples.
Proof.
  unfold fresh_tuples, duplicate_tuples, len.
  induction tuples as [|t ts IH]; [done|].
  destruct (is_duplicate existing t) eqn:Hd.
  - rewrite (filter_cons_False _ t) by congruence. rewrite (filter_cons_True _ t) by done.
    cbn [length]. lia.
  - rewrite (filter_cons_True _ t) by done. rewrite (filter_cons_False _ t) by congruence.
    cbn [length]. lia.
Qed.

Lemma saves_generate_events (ids : list UserOpaqueIdentifier) :
  saves (generate_events ids) = (fun id => (id, None)) <$> ids.
Proof.
  induction ids as [|id ids IH]; [done|].
  unfold generate_events. rewrite bind_cons, saves_app. fold (generate_events ids).
  rewrite IH. done.
Qed.

Section Generate.
Context `{Consts} {W : Type} `{Machine W}.

(** C1: a bulk generation that passes the schema version check, loads the
    existing identifiers and has valid services and at least one username
    visits the full Cartesian product services × sectors × usernames (the
    sectors defaulting to the single empty sector), service outermost and
    username innermost.  The tuples whose natural key is among the
    identifiers loaded before the loop are skipped and counted as
    duplicates, with nothing invoked.  For the others the run is the
    allocation of the specification: in order, one read of the entropy
    source and one save of the identifier of the tuple around the bytes
    read, made a version 4 UUID; the identifiers saved, the operations
    invoked and the final state of the machine are those of the allocation.
    The command succeeds exactly when no read and no save of the allocation
    fails, and then reports the numbers added and skipped, whose sum is
    |S|·|R|·|U|; otherwise it returns the error of the first read or save
    that failed.  When every tuple is a duplicate it succeeds without a
    save. *)
Theorem generate_covers_product
    (cmd : FlagSet) (args : list string) (w : W)
    (users services sectors0 : list string) :
  (ctx_CheckSchemaVersion w).1 = Success tt ->
  let loading := provider_LoadUserOpaqueIdentifiers (ctx_CheckSchemaVersion w).2 in
  let loaded := loading.1 in
  (forall e, loaded.2 = Some e -> errors_Is e sql_ErrNoRows = true) ->
  flagsGetUserIdentifiersGenerateOptions cmd = Success (users, services, sectors0) ->
  users ≠ [] ->
  (forall service, service ∈ services -> service ∈ validIdentifierServices) ->
  let sectors := match sectors0 with [] => [""] | _ => sectors0 end in
  let tuples := product services sectors users in
  let fresh := fresh_tuples loaded.1 tuples in
  let duplicates := duplicate_tuples loaded.1 tuples in
  len services * len sectors * len users < 2 ^ 63 ->
  let r := run (StorageUserIdentifiersGenerateRunE cmd args) w in
  let before := [CallCheckSchemaVersion; CallLoadUserOpaqueIdentifiers] in
  let allocation := allocate fresh loading.2 in
  let ids := allocation.1.1 in
  (forall t, t ∈ duplicates <-> t ∈ tuples /\ t ∈ natural_key <$> loaded.1) /\
  (forall t, t ∈ fresh <-> t ∈ tuples /\ t ∉ natural_key <$> loaded.1) /\
  len fresh + len duplicates = len services * len sectors * len users /\
  Forall (fun id => Version (Identifier id) = 4) ids /\
  world r.2 = provider_Close allocation.2 /\
  saves (trace r.2) =
    (((fun id => (id, None)) <$> ids) ++
     match allocation.1.2 with SaveFailed id e => [(id, Some e)] | _ => [] end)%list /\
  (r.1 = Ok tt <-> allocation.1.2 = Allocated) /\
  match allocation.1.2 with
  | Allocated =>
    natural_key <$> ids = fresh /\
    r.1 = Ok tt /\
    trace r.2 = (before ++ generate_events ids ++
                 [EvPrint (generate_report (len fresh) (len duplicates));
                  CallClose])%list
  | GenerationFailed e =>
    (exists t rest, fresh = ((natural_key <$> ids) ++ t :: rest)%list) /\
    r.1 = Err (fmt_Errorf_w "failed to generate a uuid: " e "") /\
    trace r.2 = (before ++ generate_events ids ++
                 [CallRandRead (Some e); CallClose])%list
  | SaveFailed id e =>
    (exists rest, fresh = ((natural_key <$> ids) ++ natural_key id :: rest)%list) /\
    Version (Identifier id) = 4 /\
    r.1 = Err (fmt_Errorf_w "failed to save identifier: " e "") /\
    trace r.2 = (before ++ generate_events ids ++
                 [CallRandRead None; CallSaveUserOpaqueIdentifier id (Some e);
                  CallClose])%list
  end /\
  (fresh = [] -> r.1 = Ok tt /\ saves (trace r.2) = []).
Proof.
  intros Hgate loading loaded Hload Hopt Husers Hvalid sectors tuples fresh duplicates Hbound
         r before allocation ids.
  assert (Hcount : len fresh + len duplicates = len services * len sectors * len users).
  { subst fresh duplicates tuples. by rewrite length_fresh_duplicate, length_product. }
  split.
  { intros t. subst duplicates. unfold duplicate_tuples.
    rewrite list_elem_of_filter, is_duplicate_natural_key. tauto. }
  split.
  { intros t. subst fresh. unfold fresh_tuples.
    rewrite list_elem_of_filter, <- is_duplicate_natural_key.
    destruct (is_duplicate loaded.1 t); split; intros [? ?]; split; congruence. }
  split; [exact Hcount|].
  assert (Hr : r = run (StorageUserIdentifiersGenerateRunE cmd args) w) by done.
  clearbody r. unfold StorageUserIdentifiersGenerateRunE, run in Hr.
  unfold defer, bind at 1, wrapErr, CheckSchemaVersion, call in Hr. cbn [world trace] in Hr.
  subst ids allocation. subst loaded. subst loading.
  destruct (ctx_CheckSchemaVersion w) as [[[]|e0] w1]; [|done]. cbn [snd] in *.
  unfold bind at 1, LoadUserOpaqueIdentifiers in Hr. cbn [world trace] in Hr.
  destruct (provider_LoadUserOpaqueIdentifiers w1) as [[existing err] w2].
  cbn [fst snd] in *.
  unfold bind at 1 in Hr.
  assert (Hloaded : (match err with
                     | Some e => if negb (errors_Is e sql_ErrNoRows)
                                 then throw (fmt_Errorf_w "can't load the existing identifiers: " e "")
                                 else ret tt
                     | None => ret tt
                     end : M W unit)
                      (mkSt w2 (([] ++ [CallCheckSchemaVersion]) ++ [CallLoadUserOpaqueIdentifiers]))
                    = (Ok tt, mkSt w2 before)).
  { destruct err as [e|]; [|done]. by rewrite (Hload e eq_refl). }
  rewrite Hloaded in Hr. rewrite Hopt in Hr. unfold bind at 1, propagate, ret in Hr.
  assert ((len users =? 0) = false) as Hu.
  { apply Z.eqb_neq. unfold len. destruct users; [done|]. cbn [length]. lia. }
  rewrite Hu in Hr.
  assert ((if len sectors0 =? 0 then (sectors0 ++ [""])%list else sectors0) = sectors) as Hsec.
  { subst sectors. destruct sectors0; [done|]. unfold len. cbn [length].
    destruct (Z.eqb_spec (Z.of_nat (S (length sectors0))) 0); [lia|done]. }
  cbv zeta in Hr. rewrite Hsec in Hr.
  rewrite (proj2 (IsStringSliceContainsAll_true services validIdentifierServices) Hvalid) in Hr.
  cbn [negb] in Hr. unfold bind at 1 in Hr.
  rewrite generate_loops_product in Hr. fold tuples in Hr.
  pose proof (generate_loop_run existing tuples 0 0 (mkSt w2 before)
                ltac:(lia) ltac:(lia)) as Hloop.
  cbv zeta in Hloop. fold fresh duplicates in Hloop. cbn [world trace] in Hloop.
  destruct (range tuples (generate_tuple existing) (0, 0) (mkSt w2 before)) as [o s'].
  destruct (allocate fresh w2) as [[ids ending] w'].
  cbn [fst snd] in Hloop |- *.
  destruct Hloop as (Hv & Hw & Hend).
  { subst tuples. rewrite length_product. lia. }
  split; [exact Hv|].
  assert (Hsaves : forall tail,
            saves (before ++ generate_events ids ++ tail) =
            (((fun id => (id, None)) <$> ids) ++ saves tail)%list).
  { intros tail. rewrite !saves_app, saves_generate_events. done. }
  destruct ending as [|e|id e].
  - destruct Hend as (Hk & Hres & Ht). subst o. rewrite !Z.add_0_l in Hr.
    unfold Printf, Close in Hr. subst r. cbn [fst snd trace world].
    rewrite Hw, Ht, <- !(assoc_L app). rewrite Hsaves.
    split; [done|]. split; [done|]. split; [done|]. split; [done|].
    intros Hnil. split; [done|]. rewrite Hnil in Hk. apply fmap_nil_inv in Hk. by subst ids.
  - destruct Hend as (Hk & Hres & Ht). subst o r. unfold Close. cbn [fst snd trace world].
    rewrite Hw, Ht, <- !(assoc_L app). rewrite Hsaves.
    split; [done|]. split; [done|]. split; [done|]. split; [done|].
    intros Hnil. destruct Hk as (t & rest & Hk). rewrite Hnil in Hk. by destruct ids.
  - destruct Hend as (Hk & Hv' & Hres & Ht). subst o r. unfold Close.
    cbn [fst snd trace world].
    rewrite Hw, Ht, <- !(assoc_L app). rewrite Hsaves.
    split; [done|]. split; [done|]. split; [done|]. split; [done|].
    intros Hnil. destruct Hk as (rest & Hk). rewrite Hnil in Hk. by destruct ids.
Qed.

End Generate.

(** On the reference environment, whose store holds john and whose entropy
    source yields the bytes of harry's UUID: a request for john and harry
    skips john, reads the entropy once and saves harry around the bytes
    read; a second request for john alone succeeds without a save. *)
Lemma generate_covers_product_witness :
  let cmd := Inputs.generate ["john"; "harry"] ["openid"] [] in
  let r := run (StorageUserIdentifiersGenerateRunE cmd []) Inputs.with_john in
  let rerun := run (StorageUserIdentifiersGenerateRunE (Inputs.generate ["john"] ["openid"] []) [])
                   Inputs.with_john in
  let harry := fresh_identifier ("openid", "", "harry") (Identifier Ref.harry) in
  (r.1 = Ok tt /\
   saves (trace r.2) = [(harry, None)] /\
   trace r.2 = [CallCheckSchemaVersion; CallLoadUserOpaqueIdentifiers;
                CallRandRead None; saved harry;
                EvPrint (generate_report 1 1); CallClose] /\
   Ref.identifiers (world r.2) = [Ref.john; harry] /\
   Ref.entropy (world r.2) = []) /\
  (rerun.1 = Ok tt /\ saves (trace rerun.2) = []).
Proof.
  intros cmd r rerun harry. split.
  - destruct (generate_covers_product cmd [] Inputs.with_john ["john"; "harry"] ["openid"] [])
      as (_ & _ & _ & _ & Hworld & Hsaves & Hok & Hrun & _).
    + vm_compute. reflexivity.
    + intros e [=].
    + vm_compute. reflexivity.
    + discriminate.
    + intros service Hin. exact Hin.
    + vm_compute. reflexivity.
    + fold r in Hworld, Hsaves, Hok, Hrun.
      change (allocate (fresh_tuples [Ref.john] (product ["openid"] [""] ["john"; "harry"]))
                       Inputs.with_john)
        with ([harry], Allocated,
              Ref.set_entropy [] (Ref.set_identifiers [Ref.john; harry] Inputs.with_john))
        in Hworld, Hsaves, Hok, Hrun.
      cbn [fst snd] in Hworld, Hsaves, Hok, Hrun.
      destruct Hrun as (_ & _ & Htrace).
      split; [by apply Hok|]. split; [exact Hsaves|]. split; [exact Htrace|].
      rewrite Hworld. split; reflexivity.
  - destruct (generate_covers_product (Inputs.generate ["john"] ["openid"] []) []
                Inputs.with_john ["john"] ["openid"] [])
      as (_ & _ & _ & _ & _ & _ & _ & _ & Hdup).
    + vm_compute. reflexivity.
    + intros e [=].
    + vm_compute. reflexivity.
    + discriminate.
    + intros service Hin. exact Hin.
    + vm_compute. reflexivity.
    + apply Hdup. vm_compute. reflexivity.
Defined.

(** * Properties of the other commands *)

(** Symbolic execution over the larger traces. *)
Ltac unfold_x :=
  cbv beta iota zeta delta
    [xrun xbind xret xthrow xpanic xpropagate xwrapErr xcall xcall_raw xdo lift xdefer
     xattempt xreturn xindex xClose xCheckSchemaVersion xSchemaVersion xPrintf
     xLoadUserOpaqueIdentifiers xos_Stat xpng_Encode xfile_Close LoadTrustedCertificates
     SchemaEncryptionCheckKey LoadWebauthnDevicesByUsername DeleteWebauthnDevice
     DeleteWebauthnDeviceByUsername LoadTOTPConfiguration SaveTOTPConfiguration
     DeleteTOTPConfiguration SchemaMigrationHistory SchemaMigrationsUp
     SchemaMigrationsDown SchemaVersion_both SchemaTables SchemaLatestVersion
     GenerateCustom os_Create_checked WriteFile validator_errors
     run bind ret throw panic propagate wrapErr call defer Close attempt
     Printf CheckSchemaVersion SchemaVersion LoadUserOpaqueIdentifiers
     failure_of fst snd world trace xworld xtrace].

Ltac unfold_x_in H :=
  cbv beta iota zeta delta
    [xrun xbind xret xthrow xpanic xpropagate xwrapErr xcall xcall_raw xdo lift xdefer
     xattempt xreturn xindex xClose xCheckSchemaVersion xSchemaVersion xPrintf
     xLoadUserOpaqueIdentifiers xos_Stat xpng_Encode xfile_Close LoadTrustedCertificates
     SchemaEncryptionCheckKey LoadWebauthnDevicesByUsername DeleteWebauthnDevice
     DeleteWebauthnDeviceByUsername LoadTOTPConfiguration SaveTOTPConfiguration
     DeleteTOTPConfiguration SchemaMigrationHistory SchemaMigrationsUp
     SchemaMigrationsDown SchemaVersion_both SchemaTables SchemaLatestVersion
     GenerateCustom os_Create_checked WriteFile validator_errors
     run bind ret throw panic propagate wrapErr call defer Close attempt
     Printf CheckSchemaVersion SchemaVersion LoadUserOpaqueIdentifiers
     failure_of fst snd world trace xworld xtrace] in H.

(** ** Loading the trusted certificates *)

Lemma Error_fold_Errorf_colon (errs : list error) (err : error) :
  Error (fold_left Errorf_colon errs err) = Error err +:+ listed errs.
Proof.
  revert err. induction errs as [|e errs IH]; intros err.
  - cbn [fold_left listed fold_right]. by rewrite string_app_empty_r.
  - cbn [fold_left]. rewrite IH. unfold Errorf_colon. cbn [Error listed fold_right].
    rewrite string_app_empty_r. by rewrite !string_app_assoc.
Qed.

Lemma errors_Is_fold_Errorf_colon (errs : list error) (last err target : error) :
  errors_Is (fold_left Errorf_colon (errs ++ [last]) err) target = true <->
  fold_left Errorf_colon (errs ++ [last]) err = target \/ errors_Is last target = true.
Proof.
  rewrite fold_left_app. cbn [fold_left]. unfold Errorf_colon at 1 3.
  cbn [errors_Is]. case_decide; [by split; [left|]|].
  split; [by right|]. by intros [?|?].
Qed.

Section LoadProviders.
Context `{Consts} `{XConsts} {W : Type} `{Machine W} `{XMachine W}.

(** X1: when loading the trusted certificates reports at least one error,
    LoadProvidersStorageRunE returns an error and does not set the storage
    provider.  The message is the header followed by ": <error>" for each
    error in order; each round of the loop wraps the new error and keeps
    the earlier ones as text, so errors.Is finds in the result only the
    last error of the list. *)
Theorem LoadProviders_certificate_errors
    (cmd : FlagSet) (args : list string) (w w' : W)
    (warns errs : list error) (last : error) :
  ctx_LoadTrustedCertificates w = ((warns, errs ++ [last])%list, w') ->
  exists err,
    xrun (LoadProvidersStorageRunE cmd args) w =
      (Err err, mkXSt w' [CallLoadTrustedCertificates]) /\
    Error err = "had the following errors loading the trusted certificates" +:+
                listed (errs ++ [last]) /\
    forall target,
      errors_Is err target = true <-> err = target \/ errors_Is last target = true.
Proof.
  intros Hload. unfold LoadProvidersStorageRunE. unfold_x. rewrite Hload.
  assert ((len (errs ++ [last]) =? 0) = false) as ->.
  { apply Z.eqb_neq. unfold len. rewrite length_app. cbn [length]. lia. }
  cbn [negb app]. eexists. split; [reflexivity|]. split.
  - by rewrite Error_fold_Errorf_colon.
  - apply errors_Is_fold_Errorf_colon.
Qed.

(** X2: the storage provider is set, and nil returned, exactly when loading
    the certificates reports neither warnings nor errors.  With warnings
    and no errors the command returns the bare header: the loop of the
    warnings branch ranges over the errors, of which there are none, so no
    warning is listed. *)
Theorem LoadProviders_warnings
    (cmd : FlagSet) (args : list string) (w w' : W) (warns errs : list error) :
  ctx_LoadTrustedCertificates w = ((warns, errs), w') ->
  let r := xrun (LoadProvidersStorageRunE cmd args) w in
  (SetStorageProvider ∈ xtrace r.2 <-> warns = [] /\ errs = []) /\
  (r.1 = Ok tt <-> warns = [] /\ errs = []) /\
  (errs = [] -> warns ≠ [] ->
   r = (Err (errors_New "had the following warnings loading the trusted certificates"),
        mkXSt w' [CallLoadTrustedCertificates])).
Proof.
  intros Hload r. subst r. unfold LoadProvidersStorageRunE. unfold_x. rewrite Hload.
  destruct errs as [|e errs]; cbn [len length Z.of_nat Z.eqb negb].
  - destruct warns as [|wn warns].
    + change (len [] =? 0) with true. cbn [negb app].
      split; [|split]; [| |done].
      * split; [done|]. intros _. rewrite elem_of_cons, list_elem_of_singleton. by right.
      * done.
    + assert ((len (wn :: warns) =? 0) = false) as ->
        by (apply Z.eqb_neq; unfold len; cbn [length]; lia).
      cbn [negb app fold_left].
      split; [|split]; [| |done].
      * split; [|by intros [? ?]]. intros Hin. apply list_elem_of_singleton in Hin. done.
      * split; [done|by intros [? ?]].
  - assert ((len (e :: errs) =? 0) = false) as ->
      by (apply Z.eqb_neq; unfold len; cbn [length]; lia).
    cbn [negb app]. split; [|split]; [| |done].
    + split; [|by intros [? ?]]. intros Hin. apply list_elem_of_singleton in Hin. done.
    + split; [done|by intros [? ?]].
Qed.

End LoadProviders.

(** ** Validation of the storage configuration *)

Lemma errors_Is_refl (e : error) : errors_Is e e = true.
Proof. destruct e; cbn [errors_Is]; by case_decide. Qed.

Lemma strings_Join_cons (s : string) (rest : list string) (sep : string) :
  strings_Join (s :: rest) sep =
  s +:+ fold_right (fun r acc => sep +:+ r +:+ acc) "" rest.
Proof.
  revert s. induction rest as [|r rest IH]; intros s.
  - cbn [strings_Join fold_right]. by rewrite string_app_empty_r.
  - change (strings_Join (s :: r :: rest) sep)
      with (s +:+ sep +:+ strings_Join (r :: rest) sep).
    rewrite IH. cbn [fold_right]. done.
Qed.



Lemma join_errors_succ (i : nat) (errs : list error) (acc : error) :
  join_errors (S i) errs (Some acc) = Some (comma_fold errs acc).
Proof.
  revert i acc. induction errs as [|e errs IH]; intros i acc; [done|].
  cbn [join_errors Nat.eqb]. by rewrite IH.
Qed.

Lemma join_errors_cons (first : error) (errs : list error) :
  join_errors 0 (first :: errs) None = Some (comma_fold errs first).
Proof. cbn [join_errors Nat.eqb]. apply join_errors_succ. Qed.

Lemma Error_comma_fold (errs : list error) (first : error) :
  Error (comma_fold errs first) = strings_Join (Error <$> first :: errs) ", ".
Proof.
  rewrite fmap_cons, strings_Join_cons. unfold comma_fold.
  revert first. induction errs as [|e errs IH]; intros first.
  - cbn [fold_left fmap list_fmap fold_right]. by rewrite string_app_empty_r.
  - cbn [fold_left]. rewrite IH. cbn [Errorf_comma Error]. rewrite fmap_cons.
    cbn [fold_right]. change ("" +:+ Error first) with (Error first).
    by rewrite !string_app_assoc.
Qed.

Lemma errors_Is_comma_fold (errs : list error) (first : error) :
  errors_Is (comma_fold errs first) first = true.
Proof.
  unfold comma_fold.
  assert (Hgen : forall acc, errors_Is acc first = true ->
            errors_Is (fold_left (fun acc e => Errorf_comma (Some acc) e) errs acc) first = true).
  { induction errs as [|e errs IH]; intros acc Hacc; [done|].
    cbn [fold_left]. apply IH. cbn [Errorf_comma errors_Is]. by case_decide. }
  apply Hgen, errors_Is_refl.
Qed.

Section ConfigValidate.
Context `{Consts} `{XConsts} {W : Type} `{Machine W} `{XMachine W}.

(** X3: if the validator already holds errors,
    ConfigValidateStoragePersistentPreRunE returns at once, without running
    the two validations; the message of its error joins the messages of all
    the errors with ", " and the error wraps the first of them. *)
Theorem ConfigValidate_existing_errors
    (cmd : FlagSet) (args : list string) (w : W) (first : error) (rest : list error) :
  validator_Errors w = first :: rest ->
  exists err,
    xrun (ConfigValidateStoragePersistentPreRunE cmd args) w = (Err err, mkXSt w []) /\
    Error err = strings_Join (Error <$> first :: rest) ", " /\
    errors_Is err first = true.
Proof.
  intros Herrs. unfold ConfigValidateStoragePersistentPreRunE. unfold_x. rewrite Herrs.
  assert ((len (first :: rest) =? 0) = false) as ->
    by (apply Z.eqb_neq; unfold len; cbn [length]; lia).
  cbn [negb]. rewrite join_errors_cons. eexists. split; [reflexivity|].
  split; [apply Error_comma_fold|apply errors_Is_comma_fold].
Qed.

(** X4: with a validator that holds no error, the storage validation and
    then the TOTP validation run; the command returns nil exactly when the
    validator holds no error afterwards, and otherwise the errors joined as
    in X3. *)
Theorem ConfigValidate_validates
    (cmd : FlagSet) (args : list string) (w : W) :
  validator_Errors w = [] ->
  let w' := validator_ValidateTOTP (validator_ValidateStorage w) in
  let r := xrun (ConfigValidateStoragePersistentPreRunE cmd args) w in
  r.2 = mkXSt w' [CallValidateStorage; CallValidateTOTP] /\
  (r.1 = Ok tt <-> validator_Errors w' = []) /\
  (forall first rest, validator_Errors w' = first :: rest ->
     exists err, r.1 = Err err /\
       Error err = strings_Join (Error <$> first :: rest) ", " /\
       errors_Is err first = true).
Proof.
  intros Herrs w' r. subst r. unfold ConfigValidateStoragePersistentPreRunE. unfold_x.
  rewrite Herrs. change (len [] =? 0) with true. cbn [negb app]. fold w'.
  destruct (validator_Errors w') as [|first rest].
  - change (len [] =? 0) with true. cbn [negb]. split; [done|]. split; [done|]. done.
  - assert ((len (first :: rest) =? 0) = false) as ->
      by (apply Z.eqb_neq; unfold len; cbn [length]; lia).
    cbn [negb]. rewrite join_errors_cons. split; [done|]. split; [done|].
    intros ? ? [= <- <-]. eexists. split; [reflexivity|].
    split; [apply Error_comma_fold|apply errors_Is_comma_fold].
Qed.

End ConfigValidate.

(** ** Sorting of strings *)

Lemma String_leb_trans (a b c : string) :
  String.leb a b = true -> String.leb b c = true -> String.leb a c = true.
Proof.
  revert b c. induction a as [|x a IH]; intros b c.
  - intros _ _. by destruct c.
  - destruct b as [|y b]; [done|]. destruct c as [|z c]; [done|].
    specialize (IH b c). unfold String.leb in *. cbn [String.compare].
    unfold Ascii.compare.
    destruct (N.compare_spec (N_of_ascii x) (N_of_ascii y)) as [Hxy|Hxy|Hxy];
      destruct (N.compare_spec (N_of_ascii y) (N_of_ascii z)) as [Hyz|Hyz|Hyz];
      destruct (N.compare_spec (N_of_ascii x) (N_of_ascii z)) as [Hxz|Hxz|Hxz];
      try done; try lia.
Qed.

Lemma string_le_total : Total string_le.
Proof. intros a b. apply String.leb_total. Qed.

Lemma string_le_trans : Transitive string_le.
Proof. intros a b c. apply String_leb_trans. Qed.

Lemma string_le_antisym : AntiSymm (=) string_le.
Proof. intros a b. apply String.leb_antisym. Qed.

(** [sort.Strings] does not depend on the order its input comes in. *)
Lemma sort_Strings_Permutation (l1 l2 : list string) :
  l1 ≡ₚ l2 -> sort_Strings l1 = sort_Strings l2.
Proof.
  intros Hp. unfold sort_Strings.
  apply (@Sorted_unique _ string_le string_le_trans string_le_antisym).
  - apply (@Sorted_merge_sort _ string_le _ string_le_total).
  - apply (@Sorted_merge_sort _ string_le _ string_le_total).
  - by rewrite !merge_sort_Permutation.
Qed.

Lemma sort_Strings_Sorted (l : list string) : Sorted string_le (sort_Strings l).
Proof. apply (@Sorted_merge_sort _ string_le _ string_le_total). Qed.

Lemma sort_Strings_perm (l : list string) : sort_Strings l ≡ₚ l.
Proof. apply merge_sort_Permutation. Qed.

(** ** Loops that print *)

Section Prints.
Context `{Consts} {W : Type} `{Machine W}.

Lemma xrange_print {A} (f : A -> string) (l : list A) (s : XSt W) :
  xrange l (fun _ x => xPrintf (f x)) tt s =
  (Ok tt, mkXSt (xworld s) (xtrace s ++ (print ∘ f <$> l))).
Proof.
  revert s. induction l as [|x l IH]; intros [w t].
  - cbn. by rewrite app_nil_r.
  - cbn [xrange]. unfold xbind. unfold xPrintf at 1, lift, Printf. cbn [world trace xworld xtrace].
    rewrite IH. cbn [xworld xtrace fmap list_fmap app]. by rewrite <- (assoc_L app).
Qed.

End Prints.

Lemma xprinted_app (t1 t2 : list XEvent) :
  xprinted (t1 ++ t2) = (xprinted t1 ++ xprinted t2)%list.
Proof. apply omap_app. Qed.

Lemma xprinted_prints (l : list string) : xprinted (print <$> l) = l.
Proof. induction l as [|s l IH]; [done|]. cbn. f_equal. exact IH. Qed.

(** ** The encryption key check *)

Section EncryptionCheck.
Context `{Consts} `{XConsts} {W : Type} `{Machine W} `{XMachine W}.

Lemma xPrintf_run (m : string) (s : XSt W) :
  xPrintf m s = (Ok tt, mkXSt (xworld s) (xtrace s ++ [print m])).
Proof. by destruct s. Qed.

Lemma xbind_Ok {A B} (c : XM W A) (k : A -> XM W B) (s s' : XSt W) (a : A) :
  c s = (Ok a, s') -> xbind c k s = k a s'.
Proof. intros Hc. unfold xbind. by rewrite Hc. Qed.

(** X5: the encryption check returns nil exactly when the schema version
    check passes and the verbose flag can be read: neither a key check that
    fails nor a key found invalid makes the command fail. *)
Theorem EncryptionCheck_exit_status (cmd : FlagSet) (args : list string) (w : W) :
  (xrun (StorageSchemaEncryptionCheckRunE cmd args) w).1 = Ok tt <->
  (ctx_CheckSchemaVersion w).1 = Success tt /\
  exists verbose, GetBool cmd cmdFlagNameVerbose = Success verbose.
Proof.
  unfold StorageSchemaEncryptionCheckRunE. unfold xrun, xdefer, xbind at 1.
  unfold xwrapErr, xCheckSchemaVersion, lift, CheckSchemaVersion, call. cbn [world trace xworld xtrace].
  destruct (ctx_CheckSchemaVersion w) as [[[]|e] w1]; cbn [fst snd].
  2:{ split; [done|]. by intros [? _]. }
  unfold xbind at 1, xpropagate.
  destruct (GetBool cmd cmdFlagNameVerbose) as [verbose|e]; cbn [fst snd].
  2:{ unfold xthrow. split; [done|]. by intros [_ [? ?]]. }
  split; [intros _; split; [done|by eexists]|intros _].
  unfold xret, xbind at 1, SchemaEncryptionCheckKey, xcall_raw. cbn [xworld xtrace world trace].
  destruct (provider_SchemaEncryptionCheckKey verbose w1) as [[result|err] w2].
  - unfold xbind at 1.
    destruct (result_Success result); rewrite xPrintf_run; cbv beta iota.
    all: destruct verbose; [|done].
    all: rewrite (xbind_Ok _ _ _ _ _ (xPrintf_run _ _)).
    all: rewrite (xbind_Ok _ _ _ _ _ (xrange_print _ _ _)).
    all: by rewrite xPrintf_run.
  - by destruct (errors_Is err ErrSchemaEncryptionVersionUnsupported); rewrite xPrintf_run.
Qed.

(** X6: in a verbose run whose key check returns a result, the output is the
    headline, the header of the tables, one entry per table of the result
    in the increasing order of the table names, and a newline, whatever the
    order in which the map yields its keys. *)
Theorem EncryptionCheck_tables_sorted
    (cmd : FlagSet) (args : list string) (w : W) (result : EncryptionValidationResult) :
  (ctx_CheckSchemaVersion w).1 = Success tt ->
  GetBool cmd cmdFlagNameVerbose = Success true ->
  (provider_SchemaEncryptionCheckKey true (ctx_CheckSchemaVersion w).2).1 = Success result ->
  let keys := (map_to_list (Tables result)).*1 in
  range_order (Tables result) ≡ₚ keys ->
  let r := xrun (StorageSchemaEncryptionCheckRunE cmd args) w in
  exists headline,
    xprinted (xtrace r.2) =
      (headline :: (nl +:+ "Tables:") :: (table_line result <$> sort_Strings keys) ++ [nl])%list /\
    Sorted string_le (sort_Strings keys) /\ sort_Strings keys ≡ₚ keys /\ NoDup keys.
Proof.
  intros Hgate Hflag Hcheck keys Horder r. subst r.
  unfold StorageSchemaEncryptionCheckRunE. unfold xrun, xdefer, xbind at 1.
  unfold xwrapErr, xCheckSchemaVersion, lift, CheckSchemaVersion, call. cbn [world trace xworld xtrace].
  destruct (ctx_CheckSchemaVersion w) as [[[]|e] w1]; [|done]. cbn [fst snd] in *.
  rewrite Hflag. unfold xbind at 1, xpropagate, xret.
  unfold xbind at 1, SchemaEncryptionCheckKey, xcall_raw. cbn [xworld xtrace world trace].
  destruct (provider_SchemaEncryptionCheckKey true w1) as [r w2]. cbn [fst] in Hcheck. subst r.
  unfold xbind at 1.
  exists (if result_Success result
          then "Storage Encryption Key Validation: SUCCESS" +:+ nl
          else "Storage Encryption Key Validation: FAILURE" +:+ nl +:+ nl +:+ tab +:+
               "Cause: " +:+ Error ErrSchemaEncryptionInvalidKey +:+ "." +:+ nl).
  rewrite (sort_Strings_Permutation _ _ Horder).
  split; [|split; [apply sort_Strings_Sorted|split; [apply sort_Strings_perm|]]].
  - destruct (result_Success result); rewrite xPrintf_run; cbv beta iota.
    all: rewrite (xbind_Ok _ _ _ _ _ (xPrintf_run _ _)).
    all: rewrite (xbind_Ok _ _ _ _ _ (xrange_print _ _ _)).
    all: rewrite xPrintf_run; cbn [xworld xtrace snd].
    all: unfold xClose, lift, Close; cbn [xworld xtrace world trace].
    all: cbn [snd xtrace world trace].
    all: rewrite !xprinted_app; cbn [fmap list_fmap app].
    all: rewrite list_fmap_compose, xprinted_prints. all: unfold xprinted, print; cbn [omap list_omap app]. all: by rewrite app_nil_r.
  - apply NoDup_fst_map_to_list.
Qed.

End EncryptionCheck.

(** ** Listing and deleting the devices of one user *)

Ltac unfold_xp :=
  cbv beta iota zeta delta
    [xrun xbind xret xthrow xpanic xpropagate xwrapErr xcall xcall_raw xdo xdefer
     xattempt xreturn xindex LoadTrustedCertificates
     SchemaEncryptionCheckKey LoadWebauthnDevicesByUsername DeleteWebauthnDevice
     DeleteWebauthnDeviceByUsername LoadTOTPConfiguration SaveTOTPConfiguration
     DeleteTOTPConfiguration SchemaMigrationHistory SchemaMigrationsUp
     SchemaMigrationsDown SchemaVersion_both SchemaTables SchemaLatestVersion
     GenerateCustom os_Create_checked WriteFile validator_errors
     failure_of fst snd xworld xtrace].

Lemma len_eqb_0 {A} (l : list A) : (len l =? 0) = bool_decide (l = []).
Proof. by destruct l. Qed.

Section Steps.
Context `{Consts} {W : Type} `{Machine W}.

Lemma xCheckSchemaVersion_run (s : XSt W) :
  xCheckSchemaVersion s =
    (match (ctx_CheckSchemaVersion (xworld s)).1 with
     | Success _ => Ok tt
     | Failure e => Err e
     end,
     mkXSt (ctx_CheckSchemaVersion (xworld s)).2 (xtrace s ++ [Base CallCheckSchemaVersion])).
Proof.
  destruct s as [w t]. unfold xCheckSchemaVersion, lift, CheckSchemaVersion, call.
  cbn [world trace xworld xtrace]. by destruct (ctx_CheckSchemaVersion w) as [[[]|e] w1].
Qed.

Lemma xClose_run (s : XSt W) :
  xClose s = (Ok tt, mkXSt (provider_Close (xworld s)) (xtrace s ++ [Base CallClose])).
Proof. by destruct s. Qed.

End Steps.

Ltac xsteps :=
  repeat first
    [ rewrite xCheckSchemaVersion_run
    | rewrite xPrintf_run
    | rewrite xClose_run
    | rewrite xrange_print ];
  cbv beta iota; cbn [xworld xtrace fst snd].

Section WebauthnList.
Context `{Consts} `{XConsts} {W : Type} `{Machine W} `{XMachine W}.

(** X7: without an argument, or with an empty first argument, the listing is
    the run of StorageWebauthnListAllRunE, and the devices of a single user
    are never loaded. *)
Theorem WebauthnList_delegates (fuel : nat) (cmd : FlagSet) (args : list string) (w : W) :
  args !! 0%nat = None \/ args !! 0%nat = Some "" ->
  let all := run (StorageWebauthnListAllRunE fuel cmd args) w in
  let r := xrun (StorageWebauthnListRunE fuel cmd args) w in
  r = (all.1, mkXSt (world all.2) (Base <$> trace all.2)) /\
  forall ev user, ev ∈ xtrace r.2 -> ev <> CallLoadWebauthnDevicesByUsername user.
Proof.
  intros Hargs all r.
  assert (Hr : r = (all.1, mkXSt (world all.2) (Base <$> trace all.2))).
  { subst r all. unfold StorageWebauthnListRunE.
    assert ((len args =? 0) || bool_decide (args !! 0%nat = Some "") = true) as ->.
    { destruct Hargs as [Hnone|Hsome].
      - destruct args; [done|discriminate].
      - rewrite (bool_decide_eq_true_2 _ Hsome). apply orb_true_r. }
    unfold xrun, lift, run. cbn [xworld xtrace].
    by destruct (StorageWebauthnListAllRunE fuel cmd args (mkSt w [])) as [o [w' t']]. }
  split; [exact Hr|]. rewrite Hr. cbn [snd xtrace].
  intros ev user Hin ->. apply list_elem_of_fmap in Hin as [e [He _]]. discriminate.
Qed.

(** X8: for a named user, once the schema version check has passed: the
    listing returns nil exactly when the load returns devices and no error;
    with no devices it returns "user ... has no webauthn devices" whatever
    the error of the load; an error other than ErrNoWebauthnDevice beside
    devices is wrapped; the two headers and one line per device are printed
    on success, and nothing otherwise. *)
Theorem WebauthnList_user
    (fuel : nat) (cmd : FlagSet) (args : list string) (w : W) (user : string)
    (devices : list WebauthnDevice) (err : option error) :
  args !! 0%nat = Some user -> user <> "" ->
  (ctx_CheckSchemaVersion w).1 = Success tt ->
  (provider_LoadWebauthnDevicesByUsername user (ctx_CheckSchemaVersion w).2).1 =
    (devices, err) ->
  let r := xrun (StorageWebauthnListRunE fuel cmd args) w in
  (r.1 = Ok tt <-> devices <> [] /\ err = None) /\
  (devices = [] ->
   r.1 = Err (errors_New ("user '" +:+ user +:+ "' has no webauthn devices"))) /\
  (forall e, devices <> [] -> err = Some e -> errors_Is e ErrNoWebauthnDevice = false ->
   exists err', r.1 = Err err' /\ errors_Is err' e = true) /\
  xprinted (xtrace r.2) =
    match r.1 with
    | Ok _ =>
      ("Webauthn Devices for user '" +:+ user +:+ "':" +:+ nl +:+ nl) ::
      ("ID" +:+ tab +:+ "KID" +:+ tab +:+ "Description" +:+ nl) ::
      (webauthn_user_line <$> devices)
    | _ => []
    end.
Proof.
  intros Hargs Huser Hgate Hload r. subst r. unfold StorageWebauthnListRunE.
  assert ((len args =? 0) || bool_decide (args !! 0%nat = Some "") = false) as ->.
  { apply orb_false_intro.
    - destruct args; [done|]. apply Z.eqb_neq. unfold len. cbn [length]. lia.
    - apply bool_decide_eq_false_2. rewrite Hargs. congruence. }
  unfold_xp. xsteps. rewrite Hgate, Hargs.
  destruct (provider_LoadWebauthnDevicesByUsername user (ctx_CheckSchemaVersion w).2)
    as [loaded w2]. cbn [fst] in Hload. subst loaded.
  rewrite len_eqb_0. case_bool_decide as Hdev.
  { subst devices. cbn [orb]. xsteps. unfold xprinted. cbn [omap list_omap app].
    repeat split; try done. by intros [? _]. }
  cbn [orb]. destruct err as [e|].
  - destruct (errors_Is e ErrNoWebauthnDevice) eqn:Hno; xsteps.
    + unfold xprinted. cbn [omap list_omap app]. repeat split; try done.
      * by intros [_ ?].
      * intros e' _ [= <-] Hno'. congruence.
    + unfold xprinted. cbn [omap list_omap app]. repeat split; try done.
      * by intros [_ ?].
      * intros e' _ [= <-] _. eexists. split; [done|].
        cbn [errors_Is]. repeat case_decide; try done. apply errors_Is_refl.
  - xsteps. repeat split; try done.
    rewrite !xprinted_app. rewrite list_fmap_compose, xprinted_prints.
    unfold xprinted, print. cbn [omap list_omap app]. by rewrite app_nil_r.
Qed.

End WebauthnList.

Section WebauthnDelete.
Context `{Consts} `{XConsts} {W : Type} `{Machine W} `{XMachine W}.

(** X9: once the schema version check has passed and the options are read,
    the command asks the provider for exactly one deletion, by key id if
    the options say so and by username and description otherwise; it
    returns nil exactly when the deletion succeeds, wraps its error
    otherwise, and prints one message on success only.  In the other runs
    it asks for no deletion, prints nothing and returns an error. *)
Theorem WebauthnDelete_one_deletion (cmd : FlagSet) (args : list string) (w : W) :
  let r := xrun (StorageWebauthnDeleteRunE cmd args) w in
  match (ctx_CheckSchemaVersion w).1, storageWebauthnDeleteRunEOptsFromFlags cmd args with
  | Success _, Success (all, byKID, description, kid, user) =>
    exists err,
      deletes (xtrace r.2) = [requested_delete byKID description kid user err] /\
      (r.1 = Ok tt <-> err = None) /\
      (forall e, err = Some e -> exists err', r.1 = Err err' /\ errors_Is err' e = true) /\
      length (xprinted (xtrace r.2)) = match err with Some _ => 0 | None => 1 end%nat
  | _, _ => deletes (xtrace r.2) = [] /\ is_Err r.1 /\ xprinted (xtrace r.2) = []
  end.
Proof.
  intros r. subst r. unfold StorageWebauthnDeleteRunE. unfold_xp. xsteps.
  destruct (ctx_CheckSchemaVersion w) as [[[]|e0] w1]; cbn [fst snd]; xsteps; [|repeat split; first [done|by eexists]].
  destruct (storageWebauthnDeleteRunEOptsFromFlags cmd args)
    as [[[[[all byKID] description] kid] user]|e0]; xsteps; [|repeat split; first [done|by eexists]].
  destruct byKID.
  - destruct (provider_DeleteWebauthnDevice kid w1) as [[[]|e] w2]; xsteps.
    + exists None. repeat split; try done.
    + exists (Some e). repeat split; try done.
      intros e' [= <-]. eexists. split; [done|].
      cbn [errors_Is]. case_decide; [done|]. apply errors_Is_refl.
  - destruct (provider_DeleteWebauthnDeviceByUsername user description w1) as [[[]|e] w2];
      destruct all; xsteps.
    1,2: exists None; repeat split; done.
    1,2: exists (Some e); repeat split; try done.
    1,2: intros e' [= <-]; eexists; (split; [done|]).
    1,2: cbn [errors_Is]; case_decide; [done|]; apply errors_Is_refl.
Qed.

End WebauthnDelete.

(** ** Generating and deleting TOTP configurations *)

(** Membership in a trace that is known event by event. *)
Ltac xelem H :=
  cbn [app fmap list_fmap snd xtrace] in H;
  repeat (rewrite ?elem_of_cons, ?elem_of_nil, ?elem_of_app in H);
  repeat match type of H with
         | _ \/ _ => destruct H as [H|H]
         | False => destruct H
         end.

Section TOTPGenerate.
Context `{Consts} `{XConsts} {W : Type} `{Machine W} `{XMachine W}.

(** X10: without --force a user who has a TOTP configuration keeps it: the
    command returns an error after the load, and nothing is generated,
    saved or written.  In any run, a save implies that the load found a
    configuration and --force is set, or that the load failed with
    ErrNoTOTPConfiguration. *)
Theorem TOTPGenerate_no_overwrite
    (cmd : FlagSet) (args : list string) (w : W)
    (force : bool) (filename secret username : string) :
  (ctx_CheckSchemaVersion w).1 = Success tt ->
  storageTOTPGenerateRunEOptsFromFlags cmd = Success (force, filename, secret) ->
  args !! 0%nat = Some username ->
  let w1 := (ctx_CheckSchemaVersion w).2 in
  let loaded := provider_LoadTOTPConfiguration username w1 in
  let r := xrun (StorageTOTPGenerateRunE cmd args) w in
  (force = false -> (exists c, loaded.1 = Success c) ->
   r = (Err (errors_New (username +:+
                         " already has a TOTP configuration, use --force to overwrite")),
        mkXSt (provider_Close loaded.2)
              [Base CallCheckSchemaVersion; CallLoadTOTPConfiguration username None;
               Base CallClose])) /\
  (forall c err, CallSaveTOTPConfiguration c err ∈ xtrace r.2 ->
     match loaded.1 with
     | Success _ => force = true
     | Failure e => errors_Is e ErrNoTOTPConfiguration = true
     end).
Proof.
  intros Hgate Hopts Hargs w1 loaded r.
  assert (Hr : r = xrun (StorageTOTPGenerateRunE cmd args) w) by done. clearbody r.
  unfold StorageTOTPGenerateRunE in Hr. unfold_x_in Hr.
  rewrite Hopts, Hargs in Hr. subst loaded w1.
  destruct (ctx_CheckSchemaVersion w) as [[[]|e0] w1]; [|done]. cbn [fst snd] in *.
  destruct (provider_LoadTOTPConfiguration username w1) as [[existing|e] w2]; cbn [fst snd].
  - destruct force; cbn [negb] in Hr.
    + split; [done|]. done.
    + split; [by subst r|]. subst r. intros c err Hin. cbn [snd xtrace] in Hin.
      xelem Hin; discriminate.
  - split; [by intros _ [? ?]|]. intros c err Hin.
    destruct (errors_Is e ErrNoTOTPConfiguration); [done|]. cbn [negb] in Hr.
    subst r. cbn [snd xtrace] in Hin. xelem Hin; discriminate.
Qed.


(** X12: if the stat of the image path succeeds, or fails with an error that
    os.IsNotExist does not recognise, the command returns "image output
    filepath already exists" after the configuration was generated: no file
    is created and nothing is saved. *)
Theorem TOTPGenerate_existing_image
    (cmd : FlagSet) (args : list string) (w : W)
    (force : bool) (filename secret username : string) (c : TOTPConfiguration) :
  (ctx_CheckSchemaVersion w).1 = Success tt ->
  storageTOTPGenerateRunEOptsFromFlags cmd = Success (force, filename, secret) ->
  filename <> "" ->
  args !! 0%nat = Some username ->
  let loaded := provider_LoadTOTPConfiguration username (ctx_CheckSchemaVersion w).2 in
  match loaded.1 with
  | Success _ => force = true
  | Failure e => errors_Is e ErrNoTOTPConfiguration = true
  end ->
  let generated :=
    totp_GenerateCustom username (to_Algorithm config_TOTP) secret (to_Digits config_TOTP)
                        (to_Period config_TOTP) (to_SecretSize config_TOTP) loaded.2 in
  generated.1 = Success c ->
  let stat := os_Stat filename generated.2 in
  match stat.1 with
  | Success _ => True
  | Failure e => os_IsNotExist e = false
  end ->
  xrun (StorageTOTPGenerateRunE cmd args) w =
    (Err (errors_New "image output filepath already exists"),
     mkXSt (provider_Close stat.2)
           [Base CallCheckSchemaVersion;
            CallLoadTOTPConfiguration username (failure_of loaded.1);
            CallGenerateCustom username None; Base (OsStat filename); Base CallClose]).
Proof.
  intros Hgate Hopts Hname Hargs loaded Hload generated Hgen stat Hstat.
  subst stat generated loaded.
  unfold StorageTOTPGenerateRunE. unfold_x.
  rewrite Hopts, Hargs, (bool_decide_eq_false_2 _ Hname). cbn [negb].
  destruct (ctx_CheckSchemaVersion w) as [[[]|e0] w1]; [|done]. cbn [fst snd] in *.
  destruct (provider_LoadTOTPConfiguration username w1) as [[existing|e] w2];
    cbn [fst snd] in *.
  - subst force. cbn [negb].
    destruct (totp_GenerateCustom _ _ _ _ _ _ w2) as [g w3]. cbn [fst snd] in *. subst g.
    destruct (os_Stat filename w3) as [[info|e] w4]; cbn [fst snd] in *; [done|].
    by rewrite Hstat.
  - rewrite Hload. cbn [negb].
    destruct (totp_GenerateCustom _ _ _ _ _ _ w2) as [g w3]. cbn [fst snd] in *. subst g.
    destruct (os_Stat filename w3) as [[info|e'] w4]; cbn [fst snd] in *; [done|].
    by rewrite Hstat.
Qed.

End TOTPGenerate.

Section TOTPDelete.
Context `{Consts} `{XConsts} {W : Type} `{Machine W} `{XMachine W}.

(** X13: a TOTP configuration is deleted only for the user of the first
    argument, after the schema version check has passed and the
    configuration was loaded; the command returns nil exactly when the
    deletion succeeds.  The error of a failed load or deletion is returned
    as text (the verb is %+v): errors.Is finds nothing but the error itself
    in it. *)
Theorem TOTPDelete_requires_configuration
    (cmd : FlagSet) (args : list string) (w : W) (user : string) :
  args !! 0%nat = Some user ->
  let r := xrun (StorageTOTPDeleteRunE cmd args) w in
  let loaded := provider_LoadTOTPConfiguration user (ctx_CheckSchemaVersion w).2 in
  (forall u err, CallDeleteTOTPConfiguration u err ∈ xtrace r.2 ->
     u = user /\ (ctx_CheckSchemaVersion w).1 = Success tt /\
     (exists c, loaded.1 = Success c) /\ (r.1 = Ok tt <-> err = None)) /\
  (r.1 = Ok tt -> CallDeleteTOTPConfiguration user None ∈ xtrace r.2) /\
  (forall e, (ctx_CheckSchemaVersion w).1 = Success tt -> r.1 = Err e ->
     exists cause,
       e = errors_New ("can't delete configuration for user '" +:+ user +:+ "': " +:+
                       Error cause) /\
       forall target, errors_Is e target = true <-> e = target).
Proof.
  intros Hargs r loaded.
  assert (Hr : r = xrun (StorageTOTPDeleteRunE cmd args) w) by done. clearbody r.
  unfold StorageTOTPDeleteRunE in Hr. unfold_x_in Hr. rewrite Hargs in Hr. subst loaded.
  destruct (ctx_CheckSchemaVersion w) as [[[]|e0] w1]; cbn [fst snd] in *.
  2:{ subst r. cbn [fst snd xtrace app fmap list_fmap].
      split; [|split]; [intros u err Hin; xelem Hin; discriminate|done..]. }
  destruct (provider_LoadTOTPConfiguration user w1) as [[c|e1] w2]; cbn [fst snd] in *.
  2:{ subst r. cbn [fst snd xtrace app fmap list_fmap].
      split; [|split]; [intros u err Hin; xelem Hin; discriminate|done|].
      intros e _ [= <-]. exists e1. split; [done|]. intros target.
      cbn [errors_Is]. case_decide; by split. }
  destruct (provider_DeleteTOTPConfiguration user w2) as [[[]|e2] w3]; cbn [fst snd] in *.
  - subst r. cbn [fst snd xtrace app fmap list_fmap]. split; [|split].
    + intros u err Hin. xelem Hin; try discriminate. injection Hin as -> ->.
      repeat split; try done. by eexists.
    + intros _. rewrite !elem_of_cons. tauto.
    + done.
  - subst r. cbn [fst snd xtrace app fmap list_fmap]. split; [|split].
    + intros u err Hin. xelem Hin; try discriminate. injection Hin as -> ->.
      repeat split; try done. by eexists.
    + done.
    + intros e _ [= <-]. exists e2. split; [done|]. intros target.
      cbn [errors_Is]. case_decide; by split.
Qed.

(** X14: without arguments both TOTP commands panic on args[0]: the deletion
    before its deferred Close is registered, with no operation invoked; the
    generation, if the schema version check passes and the options are
    read, after them, and the provider is closed. *)
Theorem TOTP_missing_username (cmd : FlagSet) (w : W) :
  xrun (StorageTOTPDeleteRunE cmd []) w = (Panic, mkXSt w []) /\
  let r := xrun (StorageTOTPGenerateRunE cmd []) w in
  (r.1 = Panic <->
   (ctx_CheckSchemaVersion w).1 = Success tt /\
   exists opts, storageTOTPGenerateRunEOptsFromFlags cmd = Success opts) /\
  r.2 = mkXSt (provider_Close (ctx_CheckSchemaVersion w).2)
              [Base CallCheckSchemaVersion; Base CallClose].
Proof.
  split; [done|]. intros r. subst r. unfold StorageTOTPGenerateRunE. unfold_x.
  destruct (ctx_CheckSchemaVersion w) as [[[]|e0] w1]; cbn [fst snd].
  2:{ split; [|done]. split; [done|]. by intros [? _]. }
  destruct (storageTOTPGenerateRunEOptsFromFlags cmd) as [[[force filename] secret]|e].
  - cbn [lookup list_lookup]. split; [|done]. split; [|done]. intros _. split; [done|by eexists].
  - split; [|done]. split; [done|]. by intros [_ [? ?]].
Qed.

End TOTPDelete.

(** ** The migration history and the migration lists *)

Section Migrations.
Context `{Consts} `{XConsts} {W : Type} `{Machine W} `{XMachine W}.

(** X15: on a schema version of 0 or less the history command prints a
    message and returns nil without loading the history; on a positive
    version it returns nil exactly when the history is not empty, and then
    prints the header and one line per migration, in order. *)
Theorem MigrateHistory_outcome (cmd : FlagSet) (args : list string) (w : W) (version : Z) :
  (provider_SchemaVersion w).1 = Success version ->
  let w1 := (provider_SchemaVersion w).2 in
  let r := xrun (StorageMigrateHistoryRunE cmd args) w in
  (version <= 0 ->
   r = (Ok tt,
        mkXSt (provider_Close w1)
              [Base CallSchemaVersion;
               print ("No migration history is available for schemas that not version 1 or above."
                      +:+ nl);
               Base CallClose])) /\
  (0 < version ->
   forall migrations, (provider_SchemaMigrationHistory w1).1 = Success migrations ->
     (r.1 = Ok tt <-> migrations <> []) /\
     (migrations = [] ->
      r.1 = Err (errors_New "no migration history found which may indicate a broken schema")) /\
     xprinted (xtrace r.2) =
       match migrations with
       | [] => []
       | _ => ("Migration History:" +:+ nl +:+ nl +:+ "ID" +:+ tab +:+ "Date" +:+ tab +:+
               tab +:+ tab +:+ tab +:+ "Before" +:+ tab +:+ "After" +:+ tab +:+
               "Authelia Version" +:+ nl) :: (history_line <$> migrations)
       end).
Proof.
  intros Hversion w1 r. subst r w1. unfold StorageMigrateHistoryRunE.
  unfold xSchemaVersion, lift, SchemaVersion, call. unfold_xp.
  cbn [world trace]. destruct (provider_SchemaVersion w) as [rv w1]. cbn [fst snd] in *.
  subst rv. cbn [world trace app fmap list_fmap]. split.
  - intros Hle. apply Z.leb_le in Hle. rewrite Hle. by xsteps.
  - intros Hlt migrations Hhistory. apply Z.leb_gt in Hlt. rewrite Hlt.
    destruct (provider_SchemaMigrationHistory w1) as [rh w2]. cbn [fst] in Hhistory. subst rh.
    rewrite len_eqb_0. destruct migrations as [|m migrations].
    + rewrite bool_decide_eq_true_2 by done. xsteps. by repeat split.
    + rewrite bool_decide_eq_false_2 by done. xsteps. repeat split; try done.
      rewrite !xprinted_app. rewrite list_fmap_compose, xprinted_prints.
      unfold xprinted, print. cbn [omap list_omap app]. by rewrite app_nil_r.
Qed.

(** X16: the migration list only reads: it invokes the listing of its
    direction with target 0, prints, and closes the provider.  It returns
    nil unless the listing fails with an error that is neither
    ErrNoAvailableMigrations nor ErrMigrateCurrentVersionSameAsTarget,
    which it returns as it is; on success it prints the header and one line
    per migration, or that no migrations are available. *)
Theorem MigrateList_outcome (up : bool) (cmd : FlagSet) (args : list string) (w : W) :
  let found :=
    if up then provider_SchemaMigrationsUp 0 w else provider_SchemaMigrationsDown 0 w in
  let benign :=
    match found.1.2 with
    | Some e => errors_Is e ErrNoAvailableMigrations ||
                errors_Is e ErrMigrateCurrentVersionSameAsTarget
    | None => true
    end in
  let direction := if up then "Up" else "Down" in
  let r := xrun (NewStorageMigrateListRunE up cmd args) w in
  xworld r.2 = provider_Close found.2 /\
  (forall ev, ev ∈ xtrace r.2 ->
     ev = (if up then CallSchemaMigrationsUp 0 else CallSchemaMigrationsDown 0) \/
     ev = Base CallClose \/ exists s, ev = print s) /\
  (r.1 = Ok tt <-> benign = true) /\
  (forall e, r.1 = Err e <-> benign = false /\ found.1.2 = Some e) /\
  xprinted (xtrace r.2) =
    if benign then
      match found.1.1 with
      | [] => ["Storage Schema Migration List (" +:+ direction +:+ ")" +:+ nl +:+ nl +:+
               "No Migrations Available" +:+ nl]
      | migrations =>
        ("Storage Schema Migration List (" +:+ direction +:+ ")" +:+ nl +:+ nl +:+
         "Version" +:+ tab +:+ tab +:+ "Description" +:+ nl) ::
        ((fun m => pretty (sm_Version m) +:+ tab +:+ tab +:+ sm_Name m +:+ nl) <$> migrations)
      end
    else [].
Proof.
  intros found benign direction r.
  assert (Hr : r = xrun (NewStorageMigrateListRunE up cmd args) w) by done. clearbody r.
  unfold NewStorageMigrateListRunE in Hr.
  assert (Hfirst :
    (if up then SchemaMigrationsUp 0 else SchemaMigrationsDown 0) (mkXSt w []) =
    (Ok found.1,
     mkXSt found.2 [if up then CallSchemaMigrationsUp 0 else CallSchemaMigrationsDown 0])).
  { subst found. destruct up; unfold_xp.
    - by destruct (provider_SchemaMigrationsUp 0 w).
    - by destruct (provider_SchemaMigrationsDown 0 w). }
  unfold xrun, xdefer in Hr. rewrite (xbind_Ok _ _ _ _ _ Hfirst) in Hr.
  fold direction in Hr. subst benign.
  destruct found as [[migrations err] w1]. cbn [fst snd] in *.
  set (call := if up then CallSchemaMigrationsUp 0 else CallSchemaMigrationsDown 0) in *.
  assert (Hprint : forall s, print s = call \/ print s = Base CallClose \/
                             exists s', print s = print s') by (intros s; right; right; by eexists).
  assert (Hprints : forall ev (l : list string), ev ∈ print <$> l ->
            ev = call \/ ev = Base CallClose \/ exists s, ev = print s).
  { intros ev l Hin. apply list_elem_of_fmap in Hin as [s [-> _]]. apply Hprint. }
  assert (Hcall : xprinted [call] = []) by (subst call; by destruct up).
  destruct err as [e|];
    [destruct (errors_Is e ErrNoAvailableMigrations) eqn:Hno;
     [|destruct (errors_Is e ErrMigrateCurrentVersionSameAsTarget) eqn:Hsame]|].
  all: cbn [negb andb orb] in *; unfold xbind at 1, xret, xthrow in Hr.
  3:{ rewrite xClose_run in Hr. subst r. cbn [fst snd xworld xtrace app].
      split; [done|]. split; [|split; [done|split]].
      - intros ev Hin. xelem Hin; subst; tauto.
      - intros e'. split; [by intros [= <-]|by intros [_ [= <-]]].
      - change [call; Base CallClose] with ([call] ++ [Base CallClose])%list.
        by rewrite xprinted_app, Hcall. }
  all: rewrite len_eqb_0 in Hr; destruct migrations as [|m migrations].
  all: rewrite ?bool_decide_eq_true_2, ?bool_decide_eq_false_2 in Hr by done.
  all: unfold xbind in Hr; rewrite ?xPrintf_run, ?xrange_print in Hr.
  all: cbv beta iota in Hr; cbn [xworld xtrace] in Hr; rewrite ?xrange_print in Hr.
  all: cbv beta iota in Hr; cbn [xworld xtrace] in Hr; rewrite xClose_run in Hr.
  all: subst r; cbn [fst snd xworld xtrace].
  all: split; [done|]; split; [|split; [done|split]].
  all: try (intros e'; split; [done|by intros [? _]]).
  all: try (intros ev Hin; rewrite !elem_of_app in Hin;
            repeat match type of Hin with _ \/ _ => destruct Hin as [Hin|Hin] end;
            first [by (rewrite list_fmap_compose in Hin; apply Hprints in Hin)
                  |rewrite ?elem_of_cons, ?elem_of_nil in Hin; intuition (subst; eauto)]).
  all: rewrite !xprinted_app, ?list_fmap_compose, ?xprinted_prints, Hcall.
  all: unfold xprinted, print; cbn [omap list_omap app]; by rewrite ?app_nil_r.
Qed.

End Migrations.

(** ** Exporting the opaque identifiers *)

Section ExportIdentifiers.
Context `{Consts} `{XConsts} {W : Type} `{Machine W} `{XMachine W}.

(** X17: if the file to export to exists, or its stat fails with an error
    that os.IsNotExist does not recognise, the export returns an error with
    the stat as its only operation: the provider is neither read nor
    closed. *)
Theorem IdentifiersExport_existing_file
    (cmd : FlagSet) (args : list string) (w : W) (file : string) :
  GetString cmd cmdFlagNameFile = Success file ->
  match (os_Stat file w).1 with
  | Success _ => True
  | Failure e => os_IsNotExist e = false
  end ->
  exists err,
    xrun (StorageUserIdentifiersExportRunE cmd args) w =
      (Err err, mkXSt (os_Stat file w).2 [Base (OsStat file)]) /\
    match (os_Stat file w).1 with
    | Success _ =>
      err = errors_New ("must specify a file that doesn't exist but '" +:+ file +:+ "' exists")
    | Failure e =>
      Error err = "error occurred opening '" +:+ file +:+ "': " +:+ Error e /\
      errors_Is err e = true
    end.
Proof.
  intros Hfile Hstat. unfold StorageUserIdentifiersExportRunE. unfold_x. rewrite Hfile.
  destruct (os_Stat file w) as [[info|e] w0]; cbn [fst snd] in *.
  - eexists. by split.
  - rewrite Hstat. cbn [negb]. eexists. split; [reflexivity|]. split.
    + cbn [Error]. by rewrite string_app_empty_r, !string_app_assoc.
    + cbn [errors_Is]. case_decide; [done|]. apply errors_Is_refl.
Qed.

(** The runs of the export, one goal per way through the command. *)
Ltac export_runs Hr Hfile :=
  unfold StorageUserIdentifiersExportRunE in Hr; unfold_x_in Hr; rewrite Hfile in Hr;
  match type of Hr with
  | context [os_Stat ?file ?w] =>
    destruct (os_Stat file w) as [[info|e] w0]; cbn [fst snd] in *;
    [|destruct (os_IsNotExist e); cbn [negb] in Hr;
      [destruct (ctx_CheckSchemaVersion w0) as [[[]|e0] w1]; cbn [fst snd] in *;
       [destruct (provider_LoadUserOpaqueIdentifiers w1) as [[ids [le|]] w2];
        cbn [fst snd] in *;
        [|rewrite len_eqb_0 in Hr; case_bool_decide as Hids;
          [|destruct (yaml_Marshal {| Identifiers := ids |}) as [data|e1];
            [destruct (os_WriteFile file data w2) as [[[]|e2] w3]|]]]|]|]]
  end.


(** X18: the export writes at most once, to the file of the flag, and what
    it writes is the encoding of the identifiers it loaded, which are not
    empty and were loaded without error; it returns nil exactly when the
    write succeeds, and then reports the number of identifiers. *)
Theorem IdentifiersExport_writes
    (cmd : FlagSet) (args : list string) (w : W) (file : string) :
  GetString cmd cmdFlagNameFile = Success file ->
  let w1 := (ctx_CheckSchemaVersion (os_Stat file w).2).2 in
  let loaded := (provider_LoadUserOpaqueIdentifiers w1).1 in
  let r := xrun (StorageUserIdentifiersExportRunE cmd args) w in
  (forall path data err, OsWriteFile path data err ∈ xtrace r.2 ->
     path = file /\ loaded.2 = None /\ loaded.1 <> [] /\
     yaml_Marshal {| Identifiers := loaded.1 |} = Success data /\
     (r.1 = Ok tt <-> err = None)) /\
  (r.1 = Ok tt ->
     (exists data, OsWriteFile file data None ∈ xtrace r.2) /\
     xprinted (xtrace r.2) =
       ["Exported " +:+ pretty (len loaded.1) +:+ " User Opaque Identifiers to " +:+
        file +:+ nl]).
Proof.
  intros Hfile w1 loaded r.
  assert (Hr : r = xrun (StorageUserIdentifiersExportRunE cmd args) w) by done. clearbody r.
  subst loaded w1. export_runs Hr Hfile.
  all: subst r; cbn [fst snd xtrace app fmap list_fmap].
  all: split; [intros path data' err Hin; xelem Hin; try discriminate|try done].
  - by injection Hin as -> -> ->.
  - intros _. split; [|done]. exists data. rewrite !elem_of_cons. tauto.
  - injection Hin as -> -> ->. repeat split; done.
Qed.

End ExportIdentifiers.


Section RoundTrip.
Context `{Consts} `{XConsts} {W : Type} `{Machine W} `{XMachine W}.


End RoundTrip.

(** ** The schema information *)

Section SchemaInfo.
Context `{Consts} `{XConsts} {W : Type} `{Machine W} `{XMachine W}.

(** X20: the schema information tolerates the error "unknown schema state"
    of SchemaVersion and returns any other error at once; past that, it
    returns nil exactly when the tables and the latest version are read,
    whatever the key check returns, and prints one report. *)
Theorem SchemaInfo_report
    (cmd : FlagSet) (args : list string) (w : W) (version : Z) (err : option error) :
  (provider_SchemaVersion_both w).1 = (version, err) ->
  let tolerated :=
    match err with
    | Some e => bool_decide (Error e = "unknown schema state")
    | None => true
    end in
  let tables := provider_SchemaTables (provider_SchemaVersion_both w).2 in
  let latest := provider_SchemaLatestVersion tables.2 in
  let check := provider_SchemaEncryptionCheckKey false latest.2 in
  let r := xrun (StorageSchemaInfoRunE cmd args) w in
  (r.1 = Ok tt <->
   tolerated = true /\ (exists ts, tables.1 = Success ts) /\ exists l, latest.1 = Success l) /\
  (tolerated = true -> forall ts l, tables.1 = Success ts -> latest.1 = Success l ->
     xprinted (xtrace r.2) = [schema_info version l ts check.1] /\
     xworld r.2 = provider_Close check.2) /\
  (tolerated = false -> forall e, err = Some e ->
     r = (Err e, mkXSt (provider_Close (provider_SchemaVersion_both w).2)
                       [Base CallSchemaVersion; Base CallClose])).
Proof.
  intros Hversion tolerated tables latest check r.
  assert (Hr : r = xrun (StorageSchemaInfoRunE cmd args) w) by done. clearbody r.
  unfold StorageSchemaInfoRunE in Hr. unfold_x_in Hr.
  subst check latest tables.
  destruct (provider_SchemaVersion_both w) as [rv w1]. cbn [fst snd] in *. subst rv.
  assert (Hcont : tolerated = true ->
    r = (let '(r0, w0) := provider_SchemaTables w1 in
         match r0 with
         | Success ts =>
           let '(r1, w2) := provider_SchemaLatestVersion w0 in
           match r1 with
           | Success l =>
             let '(a, w3) := provider_SchemaEncryptionCheckKey false w2 in
             (Ok tt, mkXSt (provider_Close w3)
                           [Base CallSchemaVersion; CallSchemaTables; CallSchemaLatestVersion;
                            CallSchemaEncryptionCheckKey false;
                            print (schema_info version l ts a); Base CallClose])
           | Failure e =>
             (Err e, mkXSt (provider_Close w2)
                           [Base CallSchemaVersion; CallSchemaTables; CallSchemaLatestVersion;
                            Base CallClose])
           end
         | Failure e =>
           (Err e, mkXSt (provider_Close w0)
                         [Base CallSchemaVersion; CallSchemaTables; Base CallClose])
         end)).
  { intros Htol. subst tolerated. destruct err as [e|]; [rewrite Htol in Hr|]; cbn [negb] in Hr.
    all: destruct (provider_SchemaTables w1) as [[ts|e1] w2]; [|done].
    all: destruct (provider_SchemaLatestVersion w2) as [[l|e2] w3]; [|done].
    all: by destruct (provider_SchemaEncryptionCheckKey false w3) as [a w4]. }
  destruct tolerated eqn:Htol.
  - specialize (Hcont eq_refl). clear Hr.
    destruct (provider_SchemaTables w1) as [[ts|e1] w2]; cbn [fst snd] in *.
    2:{ subst r. split; [|split; [|done]].
        - split; [done|]. by intros (_ & [? ?] & _).
        - by intros _ ts l ?. }
    destruct (provider_SchemaLatestVersion w2) as [[l|e2] w3]; cbn [fst snd] in *.
    2:{ subst r. split; [|split; [|done]].
        - split; [done|]. by intros (_ & _ & [? ?]).
        - by intros _ ts' l ? ?. }
    destruct (provider_SchemaEncryptionCheckKey false w3) as [a w4]. cbn [fst snd] in *.
    subst r. cbn [fst snd xworld xtrace]. split; [|split; [|done]].
    + split; [|done]. intros _. split; [done|]. split; by eexists.
    + intros _ ts' l' [= <-] [= <-]. done.
  - clear Hcont. subst tolerated. destruct err as [e|]; [|done]. rewrite Htol in Hr.
    cbn [negb] in Hr. split; [|split; [done|]].
    + subst r. split; [done|]. by intros [? _].
    + intros _ e' [= <-]. done.
Qed.

End SchemaInfo.

(** ** The properties on the reference environment *)

(** On the reference environment: one warning and two errors. *)
Lemma LoadProviders_certificate_errors_witness :
  let w := XInputs.with_certificates
             [XInputs.expired] [XInputs.unreadable; XInputs.malformed] in
  exists err,
    xrun (LoadProvidersStorageRunE ∅ []) w = (Err err, mkXSt w [CallLoadTrustedCertificates]) /\
    Error err = "had the following errors loading the trusted certificates" +:+
                ": could not read the certificate: could not parse the certificate" /\
    errors_Is err XInputs.malformed = true.
Proof.
  intros w.
  destruct (LoadProviders_certificate_errors ∅ [] w w
              [XInputs.expired] [XInputs.unreadable] XInputs.malformed)
    as (err & Hrun & Hmsg & His); [reflexivity|].
  exists err. split; [exact Hrun|]. split; [exact Hmsg|]. apply His. by right.
Defined.

(** On the reference environment: two warnings and no error. *)
Lemma LoadProviders_warnings_witness :
  let w := XInputs.with_certificates [XInputs.expired; XInputs.unreadable] [] in
  xrun (LoadProvidersStorageRunE ∅ []) w =
    (Err (errors_New "had the following warnings loading the trusted certificates"),
     mkXSt w [CallLoadTrustedCertificates]).
Proof.
  intros w.
  destruct (LoadProviders_warnings ∅ [] w w [XInputs.expired; XInputs.unreadable] [])
    as (_ & _ & Hwarn); [reflexivity|].
  apply Hwarn; [reflexivity|discriminate].
Defined.

(** On the reference environment: a validator that already holds two errors. *)
Lemma ConfigValidate_existing_errors_witness :
  let w := XInputs.with_validation [XInputs.no_secret; XInputs.bad_period] [] [] in
  exists err,
    xrun (ConfigValidateStoragePersistentPreRunE ∅ []) w = (Err err, mkXSt w []) /\
    Error err = "storage: option 'encryption_key' is required, " +:+
                "totp: option 'period' must be 15 or more" /\
    errors_Is err XInputs.no_secret = true.
Proof.
  intros w.
  apply (ConfigValidate_existing_errors ∅ [] w XInputs.no_secret [XInputs.bad_period]).
  reflexivity.
Defined.

(** On the reference environment: the two validations find one error each. *)
Lemma ConfigValidate_validates_witness :
  let w := XInputs.with_validation [] [XInputs.short_secret] [XInputs.bad_period] in
  let r := xrun (ConfigValidateStoragePersistentPreRunE ∅ []) w in
  xtrace r.2 = [CallValidateStorage; CallValidateTOTP] /\
  exists err, r.1 = Err err /\
    Error err = "storage: option 'encryption_key' must be 20 characters or longer, " +:+
                "totp: option 'period' must be 15 or more" /\
    errors_Is err XInputs.short_secret = true.
Proof.
  intros w r.
  destruct (ConfigValidate_validates ∅ [] w) as (Hstate & _ & Herr); [reflexivity|].
  split; [exact (f_equal xtrace Hstate)|].
  apply (Herr XInputs.short_secret [XInputs.bad_period]). reflexivity.
Defined.

(** On the reference environment: a verbose check over three tables, which
    the map yields in another order than the listing prints them. *)
Lemma EncryptionCheck_tables_sorted_witness :
  let w := XInputs.with_check (Success XInputs.checked) in
  let r := xrun (StorageSchemaEncryptionCheckRunE XInputs.verbose []) w in
  sort_Strings (map_to_list (Tables XInputs.checked)).*1 =
    ["oauth2_sessions"; "totp_configurations"; "webauthn_devices"] /\
  exists headline,
    xprinted (xtrace r.2) =
      (headline :: (nl +:+ "Tables:") ::
       (table_line XInputs.checked <$>
        ["oauth2_sessions"; "totp_configurations"; "webauthn_devices"]) ++ [nl])%list.
Proof.
  intros w r.
  assert (Hsorted : sort_Strings (map_to_list (Tables XInputs.checked)).*1 =
                    ["oauth2_sessions"; "totp_configurations"; "webauthn_devices"])
    by (vm_compute; reflexivity).
  split; [exact Hsorted|].
  destruct (EncryptionCheck_tables_sorted XInputs.verbose [] w XInputs.checked)
    as (headline & Hprinted & _); try reflexivity.
  { apply reverse_Permutation. }
  exists headline. rewrite <- Hsorted. exact Hprinted.
Defined.

(** On the reference environment: an empty username lists the devices of
    every user. *)
Lemma WebauthnList_delegates_witness :
  let r := xrun (StorageWebauthnListRunE 5 ∅ [""]) XInputs.keys in
  r.1 = Ok tt /\
  forall ev user, ev ∈ xtrace r.2 -> ev <> CallLoadWebauthnDevicesByUsername user.
Proof.
  intros r.
  destruct (WebauthnList_delegates 5 ∅ [""] XInputs.keys) as [Hr Hnever];
    [right; reflexivity|].
  split; [|exact Hnever]. unfold r. rewrite Hr. vm_compute. reflexivity.
Defined.

(** On the reference environment: the two devices of john. *)
Lemma WebauthnList_user_witness :
  let r := xrun (StorageWebauthnListRunE 0 ∅ ["john"]) XInputs.keys in
  r.1 = Ok tt /\
  xprinted (xtrace r.2) =
    [ "Webauthn Devices for user 'john':" +:+ nl +:+ nl;
      "ID" +:+ tab +:+ "KID" +:+ tab +:+ "Description" +:+ nl;
      "1" +:+ tab +:+ "kid1" +:+ tab +:+ "yubikey";
      "3" +:+ tab +:+ "kid3" +:+ tab +:+ "laptop" ].
Proof.
  intros r.
  destruct (WebauthnList_user 0 ∅ ["john"] XInputs.keys "john"
              [XInputs.key 1 "john" "yubikey"; XInputs.key 3 "john" "laptop"] None)
    as (Hok & _ & _ & Hprinted); [reflexivity|discriminate|reflexivity|reflexivity|].
  assert (Hr : r.1 = Ok tt) by (apply Hok; split; [discriminate|reflexivity]).
  split; [exact Hr|]. fold r in Hprinted. rewrite Hr in Hprinted. exact Hprinted.
Defined.

(** On the reference environment: user3 has a configuration already. *)
Lemma TOTPGenerate_no_overwrite_witness :
  xrun (StorageTOTPGenerateRunE (XInputs.totp_generate false "") ["user3"]) XInputs.configured =
    (Err (errors_New ("user3" +:+ " already has a TOTP configuration, use --force to overwrite")),
     mkXSt (provider_Close XInputs.configured)
           [Base CallCheckSchemaVersion; CallLoadTOTPConfiguration "user3" None;
            Base CallClose]).
Proof.
  destruct (TOTPGenerate_no_overwrite (XInputs.totp_generate false "") ["user3"]
              XInputs.configured false "" "" "user3")
    as [Hrefused _]; [reflexivity..|].
  apply Hrefused; [reflexivity|]. eexists. vm_compute. reflexivity.
Defined.


(** On the reference environment: a file is at the path of the image. *)
Lemma TOTPGenerate_existing_image_witness :
  let r := xrun (StorageTOTPGenerateRunE (XInputs.totp_generate true "qr.png") ["user3"])
                XInputs.configured_with_image in
  r.1 = Err (errors_New "image output filepath already exists") /\
  xtrace r.2 = [Base CallCheckSchemaVersion; CallLoadTOTPConfiguration "user3" None;
                CallGenerateCustom "user3" None; Base (OsStat "qr.png"); Base CallClose].
Proof.
  intros r.
  pose proof (TOTPGenerate_existing_image (XInputs.totp_generate true "qr.png") ["user3"]
                XInputs.configured_with_image true "qr.png" "" "user3"
                {| tc_Issuer := "authelia.com"; tc_Username := "user3";
                   tc_Algorithm := "SHA1"; tc_Digits := 6; tc_Period := 30;
                   tc_Secret := "" |}) as Hrun.
  unfold r. rewrite Hrun; [split; reflexivity|reflexivity|reflexivity|discriminate|
                            reflexivity|vm_compute; reflexivity|reflexivity|exact I].
Defined.

(** On the reference environment: a user without a configuration; the
    error of the store is not recognisable in the error of the command. *)
Lemma TOTPDelete_requires_configuration_witness :
  let r := xrun (StorageTOTPDeleteRunE ∅ ["nobody"]) XInputs.configured in
  let e := errors_New ("can't delete configuration for user 'nobody': " +:+
                       Error XRef.no_configuration) in
  r.1 = Err e /\ errors_Is e XRef.no_configuration = false /\
  forall u err, CallDeleteTOTPConfiguration u err ∉ xtrace r.2.
Proof.
  intros r e.
  destruct (TOTPDelete_requires_configuration ∅ ["nobody"] XInputs.configured "nobody")
    as (Hdelete & _ & Herr); [reflexivity|].
  split; [reflexivity|]. split; [reflexivity|].
  intros u err Hin. destruct (Hdelete u err Hin) as (_ & _ & [c Hc] & _). discriminate Hc.
Defined.

(** On the reference environment: a store at version 3 with three
    migrations applied. *)
Lemma MigrateHistory_outcome_witness :
  let h := [XInputs.migration 1; XInputs.migration 2; XInputs.migration 3] in
  let r := xrun (StorageMigrateHistoryRunE ∅ []) (XInputs.with_history 3 h) in
  r.1 = Ok tt /\ length (xprinted (xtrace r.2)) = 4%nat.
Proof.
  intros h r.
  destruct (MigrateHistory_outcome ∅ [] (XInputs.with_history 3 h) 3) as [_ Hhistory];
    [reflexivity|].
  destruct (Hhistory ltac:(lia) h) as (Hok & _ & Hprinted); [reflexivity|].
  split; [apply Hok; discriminate|]. fold r in Hprinted. rewrite Hprinted. reflexivity.
Defined.

(** On the reference environment: the file to export to exists. *)
Lemma IdentifiersExport_existing_file_witness :
  let w := XRef.around (Inputs.with_file "identifiers: []") in
  xrun (StorageUserIdentifiersExportRunE Inputs.import []) w =
    (Err (errors_New ("must specify a file that doesn't exist but '" +:+ "ids.yml" +:+
                      "' exists")),
     mkXSt w [Base (OsStat "ids.yml")]).
Proof.
  intros w.
  destruct (IdentifiersExport_existing_file Inputs.import [] w "ids.yml")
    as (err & Hrun & Herr); [reflexivity|exact I|].
  rewrite Hrun. cbn in Herr. rewrite Herr. reflexivity.
Defined.

(** On the reference environment: a store with the identifiers of john and
    of harry. *)
Lemma IdentifiersExport_writes_witness :
  let r := xrun (StorageUserIdentifiersExportRunE Inputs.import []) XInputs.identified in
  r.1 = Ok tt /\
  (forall path data err, OsWriteFile path data err ∈ xtrace r.2 ->
     path = "ids.yml" /\ data = "identifiers: [john, harry]" /\ err = None) /\
  xprinted (xtrace r.2) =
    ["Exported " +:+ "2" +:+ " User Opaque Identifiers to " +:+ "ids.yml" +:+ nl].
Proof.
  intros r.
  destruct (IdentifiersExport_writes Inputs.import [] XInputs.identified "ids.yml")
    as [Hwrite Hok]; [reflexivity|].
  assert (Hr : r.1 = Ok tt) by reflexivity.
  split; [exact Hr|]. split.
  - intros path data err Hin. destruct (Hwrite path data err Hin) as (-> & _ & _ & Hdata & Herr).
    split; [reflexivity|]. split; [|by apply Herr].
    vm_compute in Hdata. by injection Hdata as <-.
  - destruct (Hok Hr) as [_ Hprinted]. exact Hprinted.
Defined.



(** On the reference environment: a schema in an unknown state, on which
    the key check is not supported. *)
Lemma SchemaInfo_report_witness :
  let r := xrun (StorageSchemaInfoRunE ∅ []) XInputs.unknown_state in
  r.1 = Ok tt /\
  xprinted (xtrace r.2) =
    ["Schema Version: " +:+ "7" +:+ nl +:+
     "Schema Upgrade Available: " +:+ "no" +:+ nl +:+
     "Schema Tables: " +:+ "totp_configurations, webauthn_devices" +:+ nl +:+
     "Schema Encryption Key: " +:+ "unsupported (schema version)" +:+ nl].
Proof.
  intros r.
  destruct (SchemaInfo_report ∅ [] XInputs.unknown_state 7
              (Some (errors_New "unknown schema state")))
    as (Hok & Hreport & _); [reflexivity|].
  split.
  - apply Hok. split; [reflexivity|]. split; eexists; reflexivity.
  - destruct (Hreport eq_refl ["totp_configurations"; "webauthn_devices"] 7) as [Hprinted _];
      [reflexivity..|].
    fold r in Hprinted. rewrite Hprinted. vm_compute. reflexivity.
Defined.

(** On the reference environment: a key that does not fit the store and a
    verbose check; the command succeeds. *)
Lemma EncryptionCheck_exit_status_witness :
  (xrun (StorageSchemaEncryptionCheckRunE XInputs.verbose [])
        (XInputs.with_check (Success XInputs.checked))).1 = Ok tt /\
  result_Success XInputs.checked = false.
Proof.
  split; [|reflexivity].
  apply (EncryptionCheck_exit_status XInputs.verbose []
           (XInputs.with_check (Success XInputs.checked))).
  split; [reflexivity|]. exists true. reflexivity.
Defined.

(** On the reference environment: the device of harry, by its key id. *)
Lemma WebauthnDelete_one_deletion_witness :
  let r := xrun (StorageWebauthnDeleteRunE (XInputs.delete_kid "kid2") []) XInputs.keys in
  deletes (xtrace r.2) = [CallDeleteWebauthnDevice "kid2" None] /\ r.1 = Ok tt.
Proof.
  intros r.
  pose proof (WebauthnDelete_one_deletion (XInputs.delete_kid "kid2") [] XInputs.keys) as Hd.
  change (ctx_CheckSchemaVersion XInputs.keys).1 with (Success tt) in Hd.
  change (storageWebauthnDeleteRunEOptsFromFlags (XInputs.delete_kid "kid2") [])
    with (Success (false, true, "", "kid2", "")) in Hd.
  cbv beta iota zeta in Hd. destruct Hd as (err & Hdeletes & Hok & _).
  assert (Herr : err = None) by (vm_compute in Hdeletes; by injection Hdeletes as <-).
  subst err. split; [exact Hdeletes|by apply Hok].
Defined.

(** On the reference environment: no argument at all. *)
Lemma TOTP_missing_username_witness :
  (xrun (StorageTOTPDeleteRunE ∅ []) XInputs.configured).2 = mkXSt XInputs.configured [] /\
  xtrace (xrun (StorageTOTPGenerateRunE (XInputs.totp_generate false "") [])
               XInputs.configured).2 = [Base CallCheckSchemaVersion; Base CallClose].
Proof.
  destruct (TOTP_missing_username ∅ XInputs.configured) as [Hdelete _].
  destruct (TOTP_missing_username (XInputs.totp_generate false "") XInputs.configured)
    as (_ & _ & Hgenerate).
  split; [by rewrite Hdelete|by rewrite Hgenerate].
Defined.

(** On the reference environment: nothing to migrate up to, two migrations
    down. *)
Lemma MigrateList_outcome_witness :
  (xrun (NewStorageMigrateListRunE true ∅ []) XInputs.up_to_date).1 = Ok tt /\
  length (xprinted (xtrace (xrun (NewStorageMigrateListRunE false ∅ [])
                                 XInputs.up_to_date).2)) = 3%nat.
Proof.
  destruct (MigrateList_outcome true ∅ [] XInputs.up_to_date) as (_ & _ & Hok & _).
  destruct (MigrateList_outcome false ∅ [] XInputs.up_to_date) as (_ & _ & _ & _ & Hprinted).
  split; [by apply Hok|]. rewrite Hprinted. reflexivity.
Defined.
